(** * The Z80 machine-code emitter, its fixups and relocations

    A shallow embedding of

    - [Z80FixupKinds.h]      (the thirteen target fixup kinds),
    - [Z80AsmBackend.cpp]    ([getFixupKindInfo], [shouldForceRelocation]),
    - [Z80ELFObjectWriter.cpp] ([getRelocType]),
    - [Z80MCCodeEmitter.cpp] ([check_num_operands],
      [report_fatal_instr_problem], [emitByte], [encodeInstruction]),
    - [Z80ELFStreamer.cpp]   (the constructor of [Z80ELFStreamer]),
    - [Z80MCTargetDesc.cpp]  ([ParseZ80Triple], [createZ80MCSubtargetInfo],
      [LLVMInitializeZ80TargetMC]),

    followed by the properties of the encoder that the specification of the
    back end states, and by further properties of the code.

    Integers are [Z]; a conversion to [uint8_t], [uint16_t] or [unsigned]
    is written as the reduction modulo 2^8, 2^16 or 2^32 it performs. *)

From Stdlib Require Import ZArith List String Bool Lia.
From Stdlib Require Import DecimalString.
Import ListNotations.

Local Open Scope string_scope.
Local Open Scope Z_scope.
Local Open Scope list_scope.

(** ** Machine integers *)

Definition uint8_t (x : Z) : Z := x mod 2 ^ 8.
Definition uint16_t (x : Z) : Z := x mod 2 ^ 16.
Definition unsigned (x : Z) : Z := x mod 2 ^ 32.

(** ** The [Z80] name space: registers, opcodes, fixup kinds *)

Module Z80.

(** Modelled from the spec: the register enumeration comes from the
    generated [Z80GenRegisterInfo.inc]; the specification (section 3)
    lists its members.  The encoder distinguishes registers by name only. *)
Inductive Register : Set :=
| A | B | C | D | E | H | L
| IXH | IXL | IYH | IYL
| BC | DE | HL | AF
| IX | IY
| SP.

Definition Register_eqb (r1 r2 : Register) : bool :=
  match r1, r2 with
  | A, A | B, B | C, C | D, D | E, E | H, H | L, L
  | IXH, IXH | IXL, IXL | IYH, IYH | IYL, IYL
  | BC, BC | DE, DE | HL, HL | AF, AF
  | IX, IX | IY, IY | SP, SP => true
  | _, _ => false
  end.

(** The opcode identifiers [encodeInstruction] names (the generated
    [Z80GenInstrInfo.inc] declares them); [OtherOpcode] stands for every
    identifier the encoder has no case for. *)
Inductive Opcode : Set :=
| JQ | JQCC | ADC8ai | ADC8ao | ADC8ap | ADC8ar | ADD16SP | ADD16aa
| ADD16ao | ADD8ai | ADD8ao | ADD8ap | ADD8ar | AND8ai | AND8ao | AND8ap
| AND8ar | BIT8bg | BIT8bo | BIT8bp | CALL16 | CALL16CC | CCF | CP8ai
| CP8ao | CP8ap | CP8ar | CPD16 | CPDR16 | CPI16 | CPIR16 | CPL | DEC16SP
| DEC16r | DEC8o | DEC8p | DEC8r | DI | EI | EX16DE | EX16SP | EXAF | EXX
| INC16SP | INC16r | INC8o | INC8p | INC8r | IND16 | INDR16 | INI16
| INIR16 | JP16r | LD16SP | LD16am | LD16ma | LD16mo | LD16om | LD16ri
| LD8am | LD8gg | LD8xx | LD8yy | LD8go | LD8gp | LD8ma | LD8og | LD8oi
| LD8pg | LD8ri | LD8pi | LDD16 | LDDR16 | LDI16 | LDIR16 | LEA16ro | NEG
| NOP | OR8ai | OR8ao | OR8ap | OR8ar | OUTD16 | OUTDR16 | OUTI16
| OUTIR16 | POP16AF | POP16r | PUSH16AF | PUSH16r | RES8bg | RES8bo
| RES8bp | RET16 | RET16CC | RETI16 | RETN16 | RL8o | RL8p | RL8r | RLC8o
| RLC8p | RLC8r | RR8o | RR8p | RR8r | RRC8o | RRC8p | RRC8r | SBC16SP
| SBC16aa | SBC16ao | SBC8ai | SBC8ao | SBC8ap | SBC8ar | SCF | SET8bg
| SET8bo | SET8bp | SLA8o | SLA8p | SLA8r | SRA8o | SRA8p | SRA8r | SRL8o
| SRL8p | SRL8r | SUB8ai | SUB8ao | SUB8ap | SUB8ar | XOR8ai | XOR8ao
| XOR8ap | XOR8ar | ADC16SP | ADC16aa | ADC16ao | JP16 | JP16CC | JR
| JRCC | LD16or | LD16pr | LD16ro | LD16rp
| OtherOpcode (id : N).

(** [enum Fixups] of [Z80FixupKinds.h], in its order. *)
Inductive Fixups : Set :=
| fixup_8
| fixup_8_dis
| fixup_8_pcrel
| fixup_16
| fixup_24
| fixup_32
| fixup_byte0
| fixup_byte1
| fixup_byte2
| fixup_byte3
| fixup_word0
| fixup_word1
| fixup_16_be.

(** Position of a kind after [FirstTargetFixupKind]. *)
Definition index (k : Fixups) : nat :=
  match k with
  | fixup_8 => 0 | fixup_8_dis => 1 | fixup_8_pcrel => 2 | fixup_16 => 3
  | fixup_24 => 4 | fixup_32 => 5
  | fixup_byte0 => 6 | fixup_byte1 => 7 | fixup_byte2 => 8 | fixup_byte3 => 9
  | fixup_word0 => 10 | fixup_word1 => 11
  | fixup_16_be => 12
  end%nat.

Definition NumTargetFixupKinds : nat := 13.

End Z80.

(** ** Fixup kinds, expressions, fixups *)

(** Modelled from the spec: [MCFixupKind] is declared in
    [llvm/MC/MCFixup.h].  Its values are the target-independent kinds below
    [FirstTargetFixupKind] (of which the Z80 code names [FK_Data_1],
    [FK_Data_2] and [FK_Data_4]), the kinds of [Z80::Fixups], and the
    values from [LastTargetFixupKind] on. *)
Inductive MCFixupKind : Set :=
| FK_Data_1
| FK_Data_2
| FK_Data_4
| FK_Generic (id : N)
| FK_Target (k : Z80.Fixups)
| FK_Beyond (id : N).

(** Modelled from the spec: [MCExpr::ExprKind].  [MCExpr] is declared in
    [llvm/MC/MCExpr.h]; the encoder keeps an expression as an opaque handle
    and asks only for its syntactic kind, the relocation mapper for the
    name of a bare symbol. *)
Inductive ExprKind : Set := Binary | Constant | SymbolRef | Unary | Target.

(** Modelled from the spec: an expression, one constructor per syntactic
    kind; a symbol reference carries the name of its symbol. *)
Inductive MCExpr : Set :=
| MCBinaryExpr (lhs rhs : MCExpr)
| MCConstantExpr (value : Z)
| MCSymbolRefExpr (symbol : string)
| MCUnaryExpr (sub : MCExpr)
| MCTargetExpr (id : N).

(** Modelled from the spec: [MCExpr::getKind]. *)
Definition getKind (e : MCExpr) : ExprKind :=
  match e with
  | MCBinaryExpr _ _ => Binary
  | MCConstantExpr _ => Constant
  | MCSymbolRefExpr _ => SymbolRef
  | MCUnaryExpr _ => Unary
  | MCTargetExpr _ => Target
  end.

Definition ExprKind_eqb (k1 k2 : ExprKind) : bool :=
  match k1, k2 with
  | Binary, Binary | Constant, Constant | SymbolRef, SymbolRef
  | Unary, Unary | Target, Target => true
  | _, _ => false
  end.

(** Modelled from the spec: [SMLoc]; source locations are opaque and copied
    from instruction to fixup. *)
Definition SMLoc : Set := N.

(** Modelled from the spec: [MCFixup], the record that
    [MCFixup::create (Offset, Value, Kind, Loc)] builds. *)
Record MCFixup : Set := MCFixup_create {
  getOffset : Z;
  getValue : MCExpr;
  getKind_of : MCFixupKind;
  getLoc_of : SMLoc
}.

(** ** [Z80AsmBackend.cpp] *)

(** Modelled from the spec: [MCFixupKindInfo], a row of the fixup catalog
    (name, bit offset, bit width, flags). *)
Record MCFixupKindInfo : Set := {
  Name : string;
  TargetOffset : Z;
  TargetSize : Z;
  Flags : Z
}.

(** Modelled from the spec: the flag [MCFixupKindInfo::FKF_IsPCRel] that
    marks a PC-relative kind. *)
Definition FKF_IsPCRel : Z := 1.

(** The table [Infos] of [Z80AsmBackend::getFixupKindInfo], indexed by
    [Kind - FirstTargetFixupKind]. *)
Definition Infos (k : Z80.Fixups) : MCFixupKindInfo :=
  match k with
  | Z80.fixup_8 => {| Name := "fixup_8"; TargetOffset := 0; TargetSize := 8; Flags := 0 |}
  | Z80.fixup_8_dis => {| Name := "fixup_8_dis"; TargetOffset := 0; TargetSize := 8; Flags := 0 |}
  | Z80.fixup_8_pcrel =>
      {| Name := "fixup_8_pcrel"; TargetOffset := 0; TargetSize := 8; Flags := FKF_IsPCRel |}
  | Z80.fixup_16 => {| Name := "fixup_16"; TargetOffset := 0; TargetSize := 16; Flags := 0 |}
  | Z80.fixup_24 => {| Name := "fixup_24"; TargetOffset := 0; TargetSize := 24; Flags := 0 |}
  | Z80.fixup_32 => {| Name := "fixup_32"; TargetOffset := 0; TargetSize := 32; Flags := 0 |}
  | Z80.fixup_byte0 => {| Name := "fixup_byte0"; TargetOffset := 0; TargetSize := 32; Flags := 0 |}
  | Z80.fixup_byte1 => {| Name := "fixup_byte1"; TargetOffset := 0; TargetSize := 32; Flags := 0 |}
  | Z80.fixup_byte2 => {| Name := "fixup_byte2"; TargetOffset := 0; TargetSize := 32; Flags := 0 |}
  | Z80.fixup_byte3 => {| Name := "fixup_byte3"; TargetOffset := 0; TargetSize := 32; Flags := 0 |}
  | Z80.fixup_word0 => {| Name := "fixup_word0"; TargetOffset := 0; TargetSize := 32; Flags := 0 |}
  | Z80.fixup_word1 => {| Name := "fixup_word1"; TargetOffset := 0; TargetSize := 32; Flags := 0 |}
  | Z80.fixup_16_be => {| Name := "fixup_16_be"; TargetOffset := 0; TargetSize := 16; Flags := 0 |}
  end.

(** [Z80AsmBackend::getFixupKindInfo]: kinds below [FirstTargetFixupKind]
    go to [MCAsmBackend::getFixupKindInfo]; a kind past the last target
    kind fails the assertion. *)
Definition getFixupKindInfo
    (MCAsmBackend_getFixupKindInfo : MCFixupKind -> MCFixupKindInfo)
    (Kind : MCFixupKind) : option MCFixupKindInfo :=
  match Kind with
  | FK_Target k => Some (Infos k)
  | FK_Beyond _ => None
  | _ => Some (MCAsmBackend_getFixupKindInfo Kind)
  end.

(** [Z80AsmBackend::shouldForceRelocation]: a switch on the kind of the
    fixup; the assembler and the target value are not looked at. *)
Definition shouldForceRelocation (Fixup : MCFixup) : bool :=
  match getKind_of Fixup with
  (* Fixups which should always be recorded as relocations. *)
  | FK_Target Z80.fixup_8_dis
  | FK_Target Z80.fixup_8_pcrel
  | FK_Target Z80.fixup_16 => true
  | _ => false
  end.

(** ** [Z80ELFObjectWriter.cpp] *)

(** Modelled from the spec: the relocation codes [ELF::R_Z80_*] that
    [getRelocType] returns, by name. *)
Inductive R_Z80 : Set :=
| R_Z80_8
| R_Z80_8_DIS
| R_Z80_8_PCREL
| R_Z80_16
| R_Z80_24
| R_Z80_32
| R_Z80_BYTE0
| R_Z80_BYTE1
| R_Z80_BYTE2
| R_Z80_BYTE3
| R_Z80_WORD0
| R_Z80_WORD1
| R_Z80_16_BE.

(** What a call of [getRelocType] comes to: a relocation code, a failed
    [assert], or [llvm_unreachable] with its message. *)
Inductive RelocResult : Set :=
| Reloc (code : R_Z80)
| AssertionFailed (cond : string)
| Unreachable (msg : string).

(** [dyn_cast<MCSymbolRefExpr>]: the symbol of a bare symbol reference. *)
Definition dyn_cast_MCSymbolRefExpr (e : MCExpr) : option string :=
  match e with
  | MCSymbolRefExpr s => Some s
  | _ => None
  end.

(** [Z80ELFObjectWriter::getRelocType] (the context and the target value
    are not used). *)
Definition getRelocType (Fixup : MCFixup) (IsPCRel : bool) : RelocResult :=
  let SymRef := dyn_cast_MCSymbolRefExpr (getValue Fixup) in
  match getKind_of Fixup with
  | FK_Data_1
  | FK_Target Z80.fixup_8 => Reloc R_Z80_8
  | FK_Target Z80.fixup_8_dis => Reloc R_Z80_8_DIS
  | FK_Target Z80.fixup_8_pcrel =>
      if IsPCRel then Reloc R_Z80_8_PCREL else AssertionFailed "IsPCRel"
  | FK_Data_2
  | FK_Target Z80.fixup_16 => Reloc R_Z80_16
  | FK_Target Z80.fixup_24 => Reloc R_Z80_24
  | FK_Data_4
  | FK_Target Z80.fixup_32 => Reloc R_Z80_32
  | FK_Target Z80.fixup_byte0 => Reloc R_Z80_BYTE0
  | FK_Target Z80.fixup_byte1 => Reloc R_Z80_BYTE1
  | FK_Target Z80.fixup_byte2 => Reloc R_Z80_BYTE2
  | FK_Target Z80.fixup_byte3 => Reloc R_Z80_BYTE3
  | FK_Target Z80.fixup_word0 => Reloc R_Z80_WORD0
  | FK_Target Z80.fixup_word1 => Reloc R_Z80_WORD1
  | FK_Target Z80.fixup_16_be => Reloc R_Z80_16_BE
  | _ =>
      Unreachable ("Invalid fixup kind! " ++
                   match SymRef with
                   | Some name => name
                   | None => "(not even a symref!)"
                   end)%string
  end.

(** ** Instructions *)

(** Modelled from the spec: [MCOperand] (section 3); an operand is a
    register, an immediate ([int64_t]) or an expression. *)
Inductive MCOperand : Set :=
| Reg (r : Z80.Register)
| Imm (i : Z)
| Expr (e : MCExpr).

(** Modelled from the spec: [MCInst], as far as the encoder reads it. *)
Record MCInst : Set := {
  getOpcode : Z80.Opcode;
  operands : list MCOperand;
  getLoc : SMLoc
}.

(** Modelled from the spec: [MCInstrDesc], as far as the encoder reads it. *)
Record MCInstrDesc : Set := {
  getNumOperands : nat;
  TSFlags : Z;
  isPseudo : bool
}.

(** Modelled from the spec: [MCInstrInfo], the descriptor table and the
    mnemonics, both generated ([Z80GenInstrInfo.inc]); the encoder is
    defined for any such table. *)
Record MCInstrInfo : Set := {
  get : Z80.Opcode -> MCInstrDesc;
  getName : Z80.Opcode -> string
}.

(** ** The emitter monad

    One call of [encodeInstruction] writes to two append-only sinks, the
    byte stream [OS] and the vector [Fixups], and counts the bytes written
    in the local [CurByte].  The state keeps the counter and, in order, what
    the call has handed to either sink.  A fatal error ends the call with
    its message ([report_fatal_error] does not return); [Undefined] is the
    result where the C++ has no defined behaviour: an operand read past the
    end of the instruction, or an accessor used on an operand of another
    kind. *)

Inductive Outcome (A : Type) : Type :=
| Ok (a : A)
| Fatal (msg : string)
| Undefined.

Arguments Ok {A} a.
Arguments Fatal {A} msg.
Arguments Undefined {A}.

Inductive Event : Set :=
| ToOS (c : Z)
| ToFixups (f : MCFixup).

Record EmitState : Set := {
  CurByte : Z;
  Emitted : list Event
}.

Definition M (A : Type) : Type := EmitState -> Outcome A * EmitState.

Definition ret {A : Type} (a : A) : M A := fun s => (Ok a, s).

Definition bind {A B : Type} (m : M A) (k : A -> M B) : M B :=
  fun s =>
    match m s with
    | (Ok a, s') => k a s'
    | (Fatal msg, s') => (Fatal msg, s')
    | (Undefined, s') => (Undefined, s')
    end.

Declare Scope emit_scope.
Delimit Scope emit_scope with emit.
Bind Scope emit_scope with M.

Notation "x <- m ;; k" := (bind m (fun x => k))
  (at level 61, m at next level, right associativity) : emit_scope.
Notation "m ;; k" := (bind m (fun _ => k))
  (at level 61, right associativity) : emit_scope.

Local Open Scope emit_scope.

Definition report_fatal_error {A : Type} (msg : string) : M A :=
  fun s => (Fatal msg, s).

Definition undefined {A : Type} : M A := fun s => (Undefined, s).

(** [if (c) t] and [if (c) t else e]; the condition may itself read
    operands. *)
Definition ifelse (c : M bool) (t e : M unit) : M unit :=
  b <- c ;; if b then t else e.

Definition when (c : M bool) (t : M unit) : M unit := ifelse c t (ret tt).

Definition notM (c : M bool) : M bool := b <- c ;; ret (negb b).

(** [c1 && c2]: the right operand is evaluated only if the left holds. *)
Definition andM (c1 c2 : M bool) : M bool :=
  b <- c1 ;; if b then c2 else ret false.

(** Bytes and fixups handed to the sinks, in order. *)
Fixpoint written (t : list Event) : list Z :=
  match t with
  | [] => []
  | ToOS c :: t' => c :: written t'
  | ToFixups _ :: t' => written t'
  end.

Fixpoint pushed (t : list Event) : list MCFixup :=
  match t with
  | [] => []
  | ToOS _ :: t' => pushed t'
  | ToFixups f :: t' => f :: pushed t'
  end.

(** ** [Z80MCCodeEmitter.cpp] *)

Definition string_of_unsigned (n : nat) : string :=
  NilZero.string_of_uint (Nat.to_uint n).

Definition check_num_operands (opc : string) (expct actual : nat) : M unit :=
  if negb (expct =? actual)%nat then
    report_fatal_error
      ("Invalid number of arguments for instruction " ++ opc ++ ": " ++
       string_of_unsigned expct ++ " vs " ++ string_of_unsigned actual ++ ".")%string
  else ret tt.

Definition report_fatal_instr_problem {A : Type} (opc er : string) : M A :=
  report_fatal_error (opc ++ ": " ++ er)%string.

(** [OS << static_cast<char>(C); ++CurByte;] where [C] is a [uint8_t]
    parameter: the argument is converted on the way in. *)
Definition emitByte (C : Z) : M unit :=
  fun s => (Ok tt, {| CurByte := unsigned (CurByte s + 1);
                      Emitted := Emitted s ++ [ToOS (uint8_t C)] |}).

Definition getCurByte : M Z := fun s => (Ok (CurByte s), s).

(** [Fixups.push_back (f)]. *)
Definition Fixups_push_back (f : MCFixup) : M unit :=
  fun s => (Ok tt, {| CurByte := CurByte s; Emitted := Emitted s ++ [ToFixups f] |}).

(** Operand queries.  [Operands[k]] past the end of the instruction and
    [getReg], [getImm], [getExpr] on an operand of another kind have no
    defined result. *)
Definition isReg (o : option MCOperand) : M bool :=
  match o with
  | Some (Reg _) => ret true
  | Some _ => ret false
  | None => undefined
  end.

Definition isImm (o : option MCOperand) : M bool :=
  match o with
  | Some (Imm _) => ret true
  | Some _ => ret false
  | None => undefined
  end.

Definition isExpr (o : option MCOperand) : M bool :=
  match o with
  | Some (Expr _) => ret true
  | Some _ => ret false
  | None => undefined
  end.

Definition getReg (o : option MCOperand) : M Z80.Register :=
  match o with
  | Some (Reg r) => ret r
  | _ => undefined
  end.

Definition getImm (o : option MCOperand) : M Z :=
  match o with
  | Some (Imm i) => ret i
  | _ => undefined
  end.

Definition getExpr (o : option MCOperand) : M MCExpr :=
  match o with
  | Some (Expr e) => ret e
  | _ => undefined
  end.

(** [Operands[k]] where [Operands = MI.begin ()]. *)
Definition Operands (MI : MCInst) (k : nat) : option MCOperand :=
  nth_error (operands MI) k.

Section Encoder.

(** The two preprocessor switches of the pseudo jumps (neither is defined
    by default). *)
Variable EMIT_JR_INSTEAD_OF_JP : bool.
Variable EMIT_JRCC_INSTEAD_OF_JPCC : bool.

(** [Z80II::ModeMask] and [Z80II::EZ80Mode], declared with the target
    description. *)
Variable ModeMask : Z.
Variable EZ80Mode : Z.

Variable MCII : MCInstrInfo.

(** The text [operator<<] prints for an instruction. *)
Variable print_MI : MCInst -> string.

Variable MI : MCInst.

Let opcode : Z80.Opcode := getOpcode MI.
Let Desc : MCInstrDesc := get MCII opcode.
Let numOperands : nat := getNumOperands Desc.

(** *** The two pseudo instructions *)

(** [case Z80::JQ] *)
Definition case_JQ : M unit :=
  check_num_operands (getName MCII opcode) 1 numOperands ;;
  when (notM (isExpr (Operands MI 0)))
    (report_fatal_instr_problem (getName MCII opcode) "Operand should be an expression.") ;;
  if EMIT_JR_INSTEAD_OF_JP then
    emitByte 0x18 ;;
    Offset <- getCurByte ;; expr0 <- getExpr (Operands MI 0) ;;
    Fixups_push_back (MCFixup_create Offset expr0 (FK_Target Z80.fixup_8_pcrel) (getLoc MI)) ;;
    emitByte 0x00
  else
    emitByte 0xc3 ;;
    Offset <- getCurByte ;; expr0 <- getExpr (Operands MI 0) ;;
    Fixups_push_back (MCFixup_create Offset expr0 (FK_Target Z80.fixup_16) (getLoc MI)) ;;
    emitByte 0x00 ;;
    emitByte 0x00.

(** [case Z80::JQCC] *)
Definition case_JQCC : M unit :=
  check_num_operands (getName MCII opcode) 2 numOperands ;;
  when (notM (isExpr (Operands MI 0)))
    (report_fatal_instr_problem (getName MCII opcode) "First operand should be an expression.") ;;
  when (notM (isImm (Operands MI 1)))
    (report_fatal_instr_problem (getName MCII opcode) "Second operand should be immediate.") ;;
  (if EMIT_JRCC_INSTEAD_OF_JPCC then
     when (imm1 <- getImm (Operands MI 1) ;; ret (4 <=? uint8_t imm1))
       (report_fatal_instr_problem (getName MCII opcode) "Second operand should be in range 0..3.")
   else
     when (imm1 <- getImm (Operands MI 1) ;; ret (8 <=? uint8_t imm1))
       (report_fatal_instr_problem (getName MCII opcode) "Second operand should be in range 0..7.")) ;;
  if EMIT_JRCC_INSTEAD_OF_JPCC then
    imm1 <- getImm (Operands MI 1) ;; emitByte (Z.lor (Z.shiftl (uint8_t imm1) 3) 0x20) ;;
    Offset <- getCurByte ;; expr0 <- getExpr (Operands MI 0) ;;
    Fixups_push_back (MCFixup_create Offset expr0 (FK_Target Z80.fixup_8_pcrel) (getLoc MI)) ;;
    emitByte 0x00
  else
    imm1 <- getImm (Operands MI 1) ;; emitByte (Z.lor (Z.shiftl (uint8_t imm1) 3) 0xc2) ;;
    Offset <- getCurByte ;; expr0 <- getExpr (Operands MI 0) ;;
    Fixups_push_back (MCFixup_create Offset expr0 (FK_Target Z80.fixup_16) (getLoc MI)) ;;
    emitByte 0x00 ;;
    emitByte 0x00.

(** *** The cases of the switch over the real instructions, in the order
    of the source *)

(** [case Z80::ADC8ai] *)
Definition case_ADC8ai : M unit :=
  check_num_operands (getName MCII opcode) 1 numOperands ;;
  when (notM (isImm (Operands MI 0)))
    (report_fatal_instr_problem (getName MCII opcode) "Operand should be immediate.") ;;
  emitByte 0xce ;;
  imm0 <- getImm (Operands MI 0) ;; emitByte imm0.

(** [case Z80::ADC8ao] *)
Definition case_ADC8ao : M unit :=
  check_num_operands (getName MCII opcode) 2 numOperands ;;
  when (notM (isReg (Operands MI 0)))
    (report_fatal_instr_problem (getName MCII opcode) "First operand should be register.") ;;
  when (notM (isImm (Operands MI 1)))
    (report_fatal_instr_problem (getName MCII opcode) "Second operand should be immediate.") ;;
  reg0 <- getReg (Operands MI 0) ;;
  match reg0 with
  | Z80.IX => emitByte 0xdd
  | Z80.IY => emitByte 0xfd
  | _ => report_fatal_instr_problem (getName MCII opcode) "Allowed registers are IX, IY."
  end ;;
  emitByte 0x8e ;;
  imm1 <- getImm (Operands MI 1) ;; emitByte imm1.

(** [case Z80::ADC8ap] *)
Definition case_ADC8ap : M unit :=
  check_num_operands (getName MCII opcode) 1 numOperands ;;
  when (notM (isReg (Operands MI 0)))
    (report_fatal_instr_problem (getName MCII opcode) "Operand should be register.") ;;
  reg0 <- getReg (Operands MI 0) ;;
  match reg0 with
  | Z80.HL => ret tt
  | _ => report_fatal_instr_problem (getName MCII opcode) "The only allowed register is HL."
  end ;;
  emitByte 0x8e.

(** [case Z80::ADC8ar] *)
Definition case_ADC8ar : M unit :=
  check_num_operands (getName MCII opcode) 1 numOperands ;;
  when (notM (isReg (Operands MI 0)))
    (report_fatal_instr_problem (getName MCII opcode) "Operand should be register.") ;;
  reg0 <- getReg (Operands MI 0) ;;
  match reg0 with
  | Z80.A => emitByte 0x8f
  | Z80.B => emitByte 0x88
  | Z80.C => emitByte 0x89
  | Z80.D => emitByte 0x8a
  | Z80.E => emitByte 0x8b
  | Z80.H => emitByte 0x8c
  | Z80.L => emitByte 0x8d
  | Z80.IXH =>
      emitByte 0xe5 ;; (* PUSH HL *)
      emitByte 0xdd ;;
      emitByte 0xe5 ;; (* PUSH IX *)
      emitByte 0xe1 ;; (* POP HL *)
      emitByte 0x8c ;; (* ADC A, H *)
      emitByte 0xe1 (* POP HL *)
  | Z80.IXL =>
      emitByte 0xe5 ;; (* PUSH HL *)
      emitByte 0xdd ;;
      emitByte 0xe5 ;; (* PUSH IX *)
      emitByte 0xe1 ;; (* POP HL *)
      emitByte 0x8d ;; (* ADC A, L *)
      emitByte 0xe1 (* POP HL *)
  | Z80.IYH =>
      emitByte 0xe5 ;; (* PUSH HL *)
      emitByte 0xfd ;;
      emitByte 0xe5 ;; (* PUSH IY *)
      emitByte 0xe1 ;; (* POP HL *)
      emitByte 0x8c ;; (* ADC A, H *)
      emitByte 0xe1 (* POP HL *)
  | Z80.IYL =>
      emitByte 0xe5 ;; (* PUSH HL *)
      emitByte 0xfd ;;
      emitByte 0xe5 ;; (* PUSH IY *)
      emitByte 0xe1 ;; (* POP HL *)
      emitByte 0x8d ;; (* ADC A, L *)
      emitByte 0xe1 (* POP HL *)
  | _ =>
      report_fatal_instr_problem (getName MCII opcode) "Allowed register are A, B, C, D, E, H, L."
  end.

(** [case Z80::ADD16SP] *)
Definition case_ADD16SP : M unit :=
  check_num_operands (getName MCII opcode) 2 numOperands ;;
  when (notM (andM (isReg (Operands MI 0)) (isReg (Operands MI 1))))
    (report_fatal_instr_problem (getName MCII opcode) "Both operands should be registers.") ;;
  when (reg0 <- getReg (Operands MI 0) ;; reg1 <- getReg (Operands MI 1) ;; ret (negb (Z80.Register_eqb reg0 reg1)))
    (report_fatal_instr_problem (getName MCII opcode) "Both operands should be the same register.") ;;
  reg0 <- getReg (Operands MI 0) ;;
  match reg0 with
  | Z80.HL => ret tt
  | Z80.IX => emitByte 0xdd
  | Z80.IY => emitByte 0xfd
  | _ => report_fatal_instr_problem (getName MCII opcode) "Allowed registers are HL, IX, IY."
  end ;;
  emitByte 0x39.

(** [case Z80::ADD16aa] *)
Definition case_ADD16aa : M unit :=
  check_num_operands (getName MCII opcode) 2 numOperands ;;
  when (notM (andM (isReg (Operands MI 0)) (isReg (Operands MI 1))))
    (report_fatal_instr_problem (getName MCII opcode) "Both operands should be registers.") ;;
  when (reg0 <- getReg (Operands MI 0) ;; reg1 <- getReg (Operands MI 1) ;; ret (negb (Z80.Register_eqb reg0 reg1)))
    (report_fatal_instr_problem (getName MCII opcode) "Both operands should be the same register.") ;;
  reg0 <- getReg (Operands MI 0) ;;
  match reg0 with
  | Z80.HL => ret tt
  | Z80.IX => emitByte 0xdd
  | Z80.IY => emitByte 0xfd
  | _ => report_fatal_instr_problem (getName MCII opcode) "Allowed registers are HL, IX, IY."
  end ;;
  emitByte 0x29.

(** [case Z80::ADD16ao] *)
Definition case_ADD16ao : M unit :=
  check_num_operands (getName MCII opcode) 3 numOperands ;;
  when (notM (andM (isReg (Operands MI 0)) (andM (isReg (Operands MI 1)) (isReg (Operands MI 2)))))
    (report_fatal_instr_problem (getName MCII opcode) "All operands should be registers.") ;;
  when (reg0 <- getReg (Operands MI 0) ;; reg1 <- getReg (Operands MI 1) ;; ret (negb (Z80.Register_eqb reg0 reg1)))
    (report_fatal_instr_problem (getName MCII opcode)
       "First two of the operands should be the same register.") ;;
  reg0 <- getReg (Operands MI 0) ;;
  match reg0 with
  | Z80.HL => ret tt
  | Z80.IX => emitByte 0xdd
  | Z80.IY => emitByte 0xfd
  | _ =>
      report_fatal_instr_problem (getName MCII opcode)
        "Allowed first two registers are HL, IX, IY."
  end ;;
  reg2 <- getReg (Operands MI 2) ;;
  match reg2 with
  | Z80.BC => emitByte 0x09
  | Z80.DE => emitByte 0x19
  | _ => report_fatal_instr_problem (getName MCII opcode) "Allowed last registers are BC, DE."
  end.

(** [case Z80::ADD8ai] *)
Definition case_ADD8ai : M unit :=
  check_num_operands (getName MCII opcode) 1 numOperands ;;
  when (notM (isImm (Operands MI 0)))
    (report_fatal_instr_problem (getName MCII opcode) "Operand should be immediate.") ;;
  emitByte 0xc6 ;;
  imm0 <- getImm (Operands MI 0) ;; emitByte imm0.

(** [case Z80::ADD8ao] *)
Definition case_ADD8ao : M unit :=
  check_num_operands (getName MCII opcode) 2 numOperands ;;
  when (notM (isReg (Operands MI 0)))
    (report_fatal_instr_problem (getName MCII opcode) "First operand should be register.") ;;
  when (notM (isImm (Operands MI 1)))
    (report_fatal_instr_problem (getName MCII opcode) "Second operand should be immediate.") ;;
  reg0 <- getReg (Operands MI 0) ;;
  match reg0 with
  | Z80.IX => emitByte 0xdd
  | Z80.IY => emitByte 0xfd
  | _ => report_fatal_instr_problem (getName MCII opcode) "Allowed registers are IX, IY."
  end ;;
  emitByte 0x86 ;;
  imm1 <- getImm (Operands MI 1) ;; emitByte imm1.

(** [case Z80::ADD8ap] *)
Definition case_ADD8ap : M unit :=
  check_num_operands (getName MCII opcode) 1 numOperands ;;
  when (notM (isReg (Operands MI 0)))
    (report_fatal_instr_problem (getName MCII opcode) "Operand should be register.") ;;
  reg0 <- getReg (Operands MI 0) ;;
  match reg0 with
  | Z80.HL => ret tt
  | _ => report_fatal_instr_problem (getName MCII opcode) "The only allowed register is HL."
  end ;;
  emitByte 0x86.

(** [case Z80::ADD8ar] *)
Definition case_ADD8ar : M unit :=
  check_num_operands (getName MCII opcode) 1 numOperands ;;
  when (notM (isReg (Operands MI 0)))
    (report_fatal_instr_problem (getName MCII opcode) "Operand should be register.") ;;
  reg0 <- getReg (Operands MI 0) ;;
  match reg0 with
  | Z80.A => emitByte 0x87
  | Z80.B => emitByte 0x80
  | Z80.C => emitByte 0x81
  | Z80.D => emitByte 0x82
  | Z80.E => emitByte 0x83
  | Z80.H => emitByte 0x84
  | Z80.L => emitByte 0x85
  | Z80.IXH =>
      emitByte 0xe5 ;; (* PUSH HL *)
      emitByte 0xdd ;;
      emitByte 0xe5 ;; (* PUSH IX *)
      emitByte 0xe1 ;; (* POP HL *)
      emitByte 0x84 ;; (* ADD A, H *)
      emitByte 0xe1 (* POP HL *)
  | Z80.IXL =>
      emitByte 0xe5 ;; (* PUSH HL *)
      emitByte 0xdd ;;
      emitByte 0xe5 ;; (* PUSH IX *)
      emitByte 0xe1 ;; (* POP HL *)
      emitByte 0x85 ;; (* ADD A, L *)
      emitByte 0xe1 (* POP HL *)
  | Z80.IYH =>
      emitByte 0xe5 ;; (* PUSH HL *)
      emitByte 0xfd ;;
      emitByte 0xe5 ;; (* PUSH IY *)
      emitByte 0xe1 ;; (* POP HL *)
      emitByte 0x84 ;; (* ADD A, H *)
      emitByte 0xe1 (* POP HL *)
  | Z80.IYL =>
      emitByte 0xe5 ;; (* PUSH HL *)
      emitByte 0xfd ;;
      emitByte 0xe5 ;; (* PUSH IY *)
      emitByte 0xe1 ;; (* POP HL *)
      emitByte 0x85 ;; (* ADD A, L *)
      emitByte 0xe1 (* POP HL *)
  | _ =>
      report_fatal_instr_problem (getName MCII opcode) "Allowed register are A, B, C, D, E, H, L."
  end.

(** [case Z80::AND8ai] *)
Definition case_AND8ai : M unit :=
  check_num_operands (getName MCII opcode) 1 numOperands ;;
  when (notM (isImm (Operands MI 0)))
    (report_fatal_instr_problem (getName MCII opcode) "Operand should be immediate.") ;;
  emitByte 0xe6 ;;
  imm0 <- getImm (Operands MI 0) ;; emitByte imm0.

(** [case Z80::AND8ao] *)
Definition case_AND8ao : M unit :=
  check_num_operands (getName MCII opcode) 2 numOperands ;;
  when (notM (isReg (Operands MI 0)))
    (report_fatal_instr_problem (getName MCII opcode) "First operand should be register.") ;;
  when (notM (isImm (Operands MI 1)))
    (report_fatal_instr_problem (getName MCII opcode) "Second operand should be immediate.") ;;
  reg0 <- getReg (Operands MI 0) ;;
  match reg0 with
  | Z80.IX => emitByte 0xdd
  | Z80.IY => emitByte 0xfd
  | _ => report_fatal_instr_problem (getName MCII opcode) "Allowed registers are IX, IY."
  end ;;
  emitByte 0xa6 ;;
  imm1 <- getImm (Operands MI 1) ;; emitByte imm1.

(** [case Z80::AND8ap] *)
Definition case_AND8ap : M unit :=
  check_num_operands (getName MCII opcode) 1 numOperands ;;
  when (notM (isReg (Operands MI 0)))
    (report_fatal_instr_problem (getName MCII opcode) "Operand should be register.") ;;
  reg0 <- getReg (Operands MI 0) ;;
  match reg0 with
  | Z80.HL => ret tt
  | _ => report_fatal_instr_problem (getName MCII opcode) "The only allowed register is HL."
  end ;;
  emitByte 0xa6.

(** [case Z80::AND8ar] *)
Definition case_AND8ar : M unit :=
  check_num_operands (getName MCII opcode) 1 numOperands ;;
  when (notM (isReg (Operands MI 0)))
    (report_fatal_instr_problem (getName MCII opcode) "Operand should be register.") ;;
  reg0 <- getReg (Operands MI 0) ;;
  match reg0 with
  | Z80.A => emitByte 0xa7
  | Z80.B => emitByte 0xa0
  | Z80.C => emitByte 0xa1
  | Z80.D => emitByte 0xa2
  | Z80.E => emitByte 0xa3
  | Z80.H => emitByte 0xa4
  | Z80.L => emitByte 0xa5
  | Z80.IXH =>
      emitByte 0xe5 ;; (* PUSH HL *)
      emitByte 0xdd ;;
      emitByte 0xe5 ;; (* PUSH IX *)
      emitByte 0xe1 ;; (* POP HL *)
      emitByte 0xa4 ;; (* AND A, H *)
      emitByte 0xe1 (* POP HL *)
  | Z80.IXL =>
      emitByte 0xe5 ;; (* PUSH HL *)
      emitByte 0xdd ;;
      emitByte 0xe5 ;; (* PUSH IX *)
      emitByte 0xe1 ;; (* POP HL *)
      emitByte 0xa5 ;; (* AND A, L *)
      emitByte 0xe1 (* POP HL *)
  | Z80.IYH =>
      emitByte 0xe5 ;; (* PUSH HL *)
      emitByte 0xfd ;;
      emitByte 0xe5 ;; (* PUSH IY *)
      emitByte 0xe1 ;; (* POP HL *)
      emitByte 0xa4 ;; (* AND A, H *)
      emitByte 0xe1 (* POP HL *)
  | Z80.IYL =>
      emitByte 0xe5 ;; (* PUSH HL *)
      emitByte 0xfd ;;
      emitByte 0xe5 ;; (* PUSH IY *)
      emitByte 0xe1 ;; (* POP HL *)
      emitByte 0xa5 ;; (* AND A, L *)
      emitByte 0xe1 (* POP HL *)
  | _ =>
      report_fatal_instr_problem (getName MCII opcode) "Allowed register are A, B, C, D, E, H, L."
  end.

(** [case Z80::BIT8bg] *)
Definition case_BIT8bg : M unit :=
  check_num_operands (getName MCII opcode) 2 numOperands ;;
  when (notM (isImm (Operands MI 0)))
    (report_fatal_instr_problem (getName MCII opcode) "First operand should be immediate.") ;;
  when (notM (isReg (Operands MI 1)))
    (report_fatal_instr_problem (getName MCII opcode) "Second operand should be register.") ;;
  when (imm0 <- getImm (Operands MI 0) ;; ret (8 <=? uint8_t imm0))
    (report_fatal_instr_problem (getName MCII opcode) "First operand should be in range 0..7.") ;;
  reg1 <- getReg (Operands MI 1) ;;
  match reg1 with
  | Z80.A =>
      emitByte 0xcb ;;
      imm0 <- getImm (Operands MI 0) ;; emitByte (Z.lor (Z.shiftl (uint8_t imm0) 3) 0x47)
  | Z80.B =>
      emitByte 0xcb ;;
      imm0 <- getImm (Operands MI 0) ;; emitByte (Z.lor (Z.shiftl (uint8_t imm0) 3) 0x40)
  | Z80.C =>
      emitByte 0xcb ;;
      imm0 <- getImm (Operands MI 0) ;; emitByte (Z.lor (Z.shiftl (uint8_t imm0) 3) 0x41)
  | Z80.D =>
      emitByte 0xcb ;;
      imm0 <- getImm (Operands MI 0) ;; emitByte (Z.lor (Z.shiftl (uint8_t imm0) 3) 0x42)
  | Z80.E =>
      emitByte 0xcb ;;
      imm0 <- getImm (Operands MI 0) ;; emitByte (Z.lor (Z.shiftl (uint8_t imm0) 3) 0x43)
  | Z80.H =>
      emitByte 0xcb ;;
      imm0 <- getImm (Operands MI 0) ;; emitByte (Z.lor (Z.shiftl (uint8_t imm0) 3) 0x44)
  | Z80.L =>
      emitByte 0xcb ;;
      imm0 <- getImm (Operands MI 0) ;; emitByte (Z.lor (Z.shiftl (uint8_t imm0) 3) 0x45)
  | Z80.IXH =>
      emitByte 0xe5 ;; (* PUSH HL *)
      emitByte 0xdd ;;
      emitByte 0xe5 ;; (* PUSH IX *)
      emitByte 0xe1 ;; (* POP HL *)
      emitByte 0xcb ;;
      imm0 <- getImm (Operands MI 0) ;; emitByte (Z.lor (Z.shiftl (uint8_t imm0) 3) 0x44) ;; (* BIT b, H *)
      emitByte 0xe5 ;; (* PUSH HL *)
      emitByte 0xdd ;;
      emitByte 0xe1 ;; (* POP IX *)
      emitByte 0xe1 (* POP HL *)
  | Z80.IXL =>
      emitByte 0xe5 ;; (* PUSH HL *)
      emitByte 0xdd ;;
      emitByte 0xe5 ;; (* PUSH IX *)
      emitByte 0xe1 ;; (* POP HL *)
      emitByte 0xcb ;;
      imm0 <- getImm (Operands MI 0) ;; emitByte (Z.lor (Z.shiftl (uint8_t imm0) 3) 0x45) ;; (* BIT b, L *)
      emitByte 0xe5 ;; (* PUSH HL *)
      emitByte 0xdd ;;
      emitByte 0xe1 ;; (* POP IX *)
      emitByte 0xe1 (* POP HL *)
  | Z80.IYH =>
      emitByte 0xe5 ;; (* PUSH HL *)
      emitByte 0xfd ;;
      emitByte 0xe5 ;; (* PUSH IY *)
      emitByte 0xe1 ;; (* POP HL *)
      emitByte 0xcb ;;
      imm0 <- getImm (Operands MI 0) ;; emitByte (Z.lor (Z.shiftl (uint8_t imm0) 3) 0x44) ;; (* BIT b, H *)
      emitByte 0xe5 ;; (* PUSH HL *)
      emitByte 0xfd ;;
      emitByte 0xe1 ;; (* POP IY *)
      emitByte 0xe1 (* POP HL *)
  | Z80.IYL =>
      emitByte 0xe5 ;; (* PUSH HL *)
      emitByte 0xfd ;;
      emitByte 0xe5 ;; (* PUSH IY *)
      emitByte 0xe1 ;; (* POP HL *)
      emitByte 0xcb ;;
      imm0 <- getImm (Operands MI 0) ;; emitByte (Z.lor (Z.shiftl (uint8_t imm0) 3) 0x45) ;; (* BIT b, L *)
      emitByte 0xe5 ;; (* PUSH HL *)
      emitByte 0xfd ;;
      emitByte 0xe1 ;; (* POP IY *)
      emitByte 0xe1 (* POP HL *)
  | _ =>
      report_fatal_instr_problem (getName MCII opcode) "Allowed register are A, B, C, D, E, H, L."
  end.

(** [case Z80::BIT8bo] *)
Definition case_BIT8bo : M unit :=
  check_num_operands (getName MCII opcode) 3 numOperands ;;
  when (notM (isImm (Operands MI 0)))
    (report_fatal_instr_problem (getName MCII opcode) "First operand should be immediate.") ;;
  when (notM (isReg (Operands MI 1)))
    (report_fatal_instr_problem (getName MCII opcode) "Second operand should be register.") ;;
  when (notM (isImm (Operands MI 2)))
    (report_fatal_instr_problem (getName MCII opcode) "Third operand should be immediate.") ;;
  when (imm0 <- getImm (Operands MI 0) ;; ret (8 <=? uint8_t imm0))
    (report_fatal_instr_problem (getName MCII opcode) "First operand should be in range 0..7.") ;;
  reg1 <- getReg (Operands MI 1) ;;
  match reg1 with
  | Z80.IX => emitByte 0xdd
  | Z80.IY => emitByte 0xfd
  | _ => report_fatal_instr_problem (getName MCII opcode) "Allowed registers are IX, IY."
  end ;;
  emitByte 0xcb ;;
  imm2 <- getImm (Operands MI 2) ;; emitByte imm2 ;;
  imm0 <- getImm (Operands MI 0) ;; emitByte (Z.lor (Z.shiftl (uint8_t imm0) 3) 0x46).

(** [case Z80::BIT8bp] *)
Definition case_BIT8bp : M unit :=
  check_num_operands (getName MCII opcode) 2 numOperands ;;
  when (notM (isImm (Operands MI 0)))
    (report_fatal_instr_problem (getName MCII opcode) "First operand should be immediate.") ;;
  when (notM (isReg (Operands MI 1)))
    (report_fatal_instr_problem (getName MCII opcode) "Second operand should be register.") ;;
  when (imm0 <- getImm (Operands MI 0) ;; ret (8 <=? uint8_t imm0))
    (report_fatal_instr_problem (getName MCII opcode) "First operand should be in range 0..7.") ;;
  reg1 <- getReg (Operands MI 1) ;;
  match reg1 with
  | Z80.HL => emitByte 0xcb
  | Z80.IX =>
      emitByte 0xdd ;;
      emitByte 0xcb ;;
      emitByte 0x00
  | Z80.IY =>
      emitByte 0xfd ;;
      emitByte 0xcb ;;
      emitByte 0x00
  | _ => report_fatal_instr_problem (getName MCII opcode) "Allowed registers are HL, IX, IY."
  end ;;
  imm0 <- getImm (Operands MI 0) ;; emitByte (Z.lor (Z.shiftl (uint8_t imm0) 3) 0x46).

(** [case Z80::CALL16] *)
Definition case_CALL16 : M unit :=
  check_num_operands (getName MCII opcode) 1 numOperands ;;
  emitByte 0xcd ;;
  ifelse (isExpr (Operands MI 0))
    (Offset <- getCurByte ;; expr0 <- getExpr (Operands MI 0) ;;
     Fixups_push_back (MCFixup_create Offset expr0 (FK_Target Z80.fixup_16) (getLoc MI)) ;;
     emitByte 0x00 ;;
     emitByte 0x00)
    (ifelse (isImm (Operands MI 0))
       (imm0 <- getImm (Operands MI 0) ;; emitByte (Z.land (Z.shiftr (uint16_t imm0) 0) 0xff) ;;
        imm0 <- getImm (Operands MI 0) ;; emitByte (Z.land (Z.shiftr (uint16_t imm0) 8) 0xff))
       (report_fatal_instr_problem (getName MCII opcode)
          "Operand should be an expression or immediate.")).

(** [case Z80::CALL16CC] *)
Definition case_CALL16CC : M unit :=
  check_num_operands (getName MCII opcode) 2 numOperands ;;
  when (notM (isImm (Operands MI 1)))
    (report_fatal_instr_problem (getName MCII opcode) "Second operand should be immediate.") ;;
  when (imm1 <- getImm (Operands MI 1) ;; ret (8 <=? uint8_t imm1))
    (report_fatal_instr_problem (getName MCII opcode) "Second operand should be in range 0..7.") ;;
  imm1 <- getImm (Operands MI 1) ;; emitByte (Z.lor (Z.shiftl (uint8_t imm1) 3) 0xc4) ;;
  ifelse (isExpr (Operands MI 0))
    (when (notM (expr0 <- getExpr (Operands MI 0) ;; ret (ExprKind_eqb SymbolRef (getKind expr0))))
       (report_fatal_instr_problem (getName MCII opcode)
          "Fitst operand expression should be a call target.") ;;
     Offset <- getCurByte ;; expr0 <- getExpr (Operands MI 0) ;;
     Fixups_push_back (MCFixup_create Offset expr0 (FK_Target Z80.fixup_16) (getLoc MI)) ;;
     emitByte 0x00 ;;
     emitByte 0x00)
    (ifelse (isImm (Operands MI 0))
       (imm0 <- getImm (Operands MI 0) ;; emitByte (Z.land (Z.shiftr (uint16_t imm0) 0) 0xff) ;;
        imm0 <- getImm (Operands MI 0) ;; emitByte (Z.land (Z.shiftr (uint16_t imm0) 8) 0xff))
       (report_fatal_instr_problem (getName MCII opcode)
          "First operand should be an expression or immediate.")).

(** [case Z80::CCF] *)
Definition case_CCF : M unit :=
  check_num_operands (getName MCII opcode) 0 numOperands ;;
  emitByte 0x3f.

(** [case Z80::CP8ai] *)
Definition case_CP8ai : M unit :=
  check_num_operands (getName MCII opcode) 1 numOperands ;;
  when (notM (isImm (Operands MI 0)))
    (report_fatal_instr_problem (getName MCII opcode) "Operand should be immediate.") ;;
  emitByte 0xfe ;;
  imm0 <- getImm (Operands MI 0) ;; emitByte imm0.

(** [case Z80::CP8ao] *)
Definition case_CP8ao : M unit :=
  check_num_operands (getName MCII opcode) 2 numOperands ;;
  when (notM (isReg (Operands MI 0)))
    (report_fatal_instr_problem (getName MCII opcode) "First operand should be register.") ;;
  when (notM (isImm (Operands MI 1)))
    (report_fatal_instr_problem (getName MCII opcode) "Second operand should be immediate.") ;;
  reg0 <- getReg (Operands MI 0) ;;
  match reg0 with
  | Z80.IX => emitByte 0xdd
  | Z80.IY => emitByte 0xfd
  | _ => report_fatal_instr_problem (getName MCII opcode) "Allowed registers are IX, IY."
  end ;;
  emitByte 0xbe ;;
  imm1 <- getImm (Operands MI 1) ;; emitByte imm1.

(** [case Z80::CP8ap] *)
Definition case_CP8ap : M unit :=
  check_num_operands (getName MCII opcode) 1 numOperands ;;
  when (notM (isReg (Operands MI 0)))
    (report_fatal_instr_problem (getName MCII opcode) "Operand should be register.") ;;
  reg0 <- getReg (Operands MI 0) ;;
  match reg0 with
  | Z80.HL => ret tt
  | _ => report_fatal_instr_problem (getName MCII opcode) "The only allowed register is HL."
  end ;;
  emitByte 0xbe.

(** [case Z80::CP8ar] *)
Definition case_CP8ar : M unit :=
  check_num_operands (getName MCII opcode) 1 numOperands ;;
  when (notM (isReg (Operands MI 0)))
    (report_fatal_instr_problem (getName MCII opcode) "Operand should be register.") ;;
  reg0 <- getReg (Operands MI 0) ;;
  match reg0 with
  | Z80.A => emitByte 0xbf
  | Z80.B => emitByte 0xb8
  | Z80.C => emitByte 0xb9
  | Z80.D => emitByte 0xba
  | Z80.E => emitByte 0xbb
  | Z80.H => emitByte 0xbc
  | Z80.L => emitByte 0xbd
  | Z80.IXH =>
      emitByte 0xe5 ;; (* PUSH HL *)
      emitByte 0xdd ;;
      emitByte 0xe5 ;; (* PUSH IX *)
      emitByte 0xe1 ;; (* POP HL *)
      emitByte 0xbc ;; (* CP A, H *)
      emitByte 0xe1 (* POP HL *)
  | Z80.IXL =>
      emitByte 0xe5 ;; (* PUSH HL *)
      emitByte 0xdd ;;
      emitByte 0xe5 ;; (* PUSH IX *)
      emitByte 0xe1 ;; (* POP HL *)
      emitByte 0xbd ;; (* CP A, L *)
      emitByte 0xe1 (* POP HL *)
  | Z80.IYH =>
      emitByte 0xe5 ;; (* PUSH HL *)
      emitByte 0xfd ;;
      emitByte 0xe5 ;; (* PUSH IY *)
      emitByte 0xe1 ;; (* POP HL *)
      emitByte 0xbc ;; (* CP A, H *)
      emitByte 0xe1 (* POP HL *)
  | Z80.IYL =>
      emitByte 0xe5 ;; (* PUSH HL *)
      emitByte 0xfd ;;
      emitByte 0xe5 ;; (* PUSH IY *)
      emitByte 0xe1 ;; (* POP HL *)
      emitByte 0xbd ;; (* CP A, L *)
      emitByte 0xe1 (* POP HL *)
  | _ =>
      report_fatal_instr_problem (getName MCII opcode) "Allowed register are A, B, C, D, E, H, L."
  end.

(** [case Z80::CPD16] *)
Definition case_CPD16 : M unit :=
  check_num_operands (getName MCII opcode) 0 numOperands ;;
  emitByte 0xed ;;
  emitByte 0xa9.

(** [case Z80::CPDR16] *)
Definition case_CPDR16 : M unit :=
  check_num_operands (getName MCII opcode) 0 numOperands ;;
  emitByte 0xed ;;
  emitByte 0xb9.

(** [case Z80::CPI16] *)
Definition case_CPI16 : M unit :=
  check_num_operands (getName MCII opcode) 0 numOperands ;;
  emitByte 0xed ;;
  emitByte 0xa1.

(** [case Z80::CPIR16] *)
Definition case_CPIR16 : M unit :=
  check_num_operands (getName MCII opcode) 0 numOperands ;;
  emitByte 0xed ;;
  emitByte 0xb1.

(** [case Z80::CPL] *)
Definition case_CPL : M unit :=
  check_num_operands (getName MCII opcode) 0 numOperands ;;
  emitByte 0x2f.

(** [case Z80::DEC16SP] *)
Definition case_DEC16SP : M unit :=
  check_num_operands (getName MCII opcode) 0 numOperands ;;
  emitByte 0x3b.

(** [case Z80::DEC16r] *)
Definition case_DEC16r : M unit :=
  when (ret (numOperands =? 0)%nat)
    (report_fatal_instr_problem (getName MCII opcode) "Operand missing.") ;;
  when (notM (isReg (Operands MI 0)))
    (report_fatal_instr_problem (getName MCII opcode) "An operand should be an register.") ;;
  reg0 <- getReg (Operands MI 0) ;;
  match reg0 with
  | Z80.BC => emitByte 0x0b
  | Z80.DE => emitByte 0x1b
  | Z80.HL => emitByte 0x2b
  | Z80.IX =>
      emitByte 0xdd ;;
      emitByte 0x2b
  | Z80.IY =>
      emitByte 0xfd ;;
      emitByte 0x2b
  | _ =>
      report_fatal_instr_problem (getName MCII opcode) "Allowed registers are BC, DE, HL, IX, IY."
  end.

(** [case Z80::DEC8o] *)
Definition case_DEC8o : M unit :=
  check_num_operands (getName MCII opcode) 2 numOperands ;;
  when (notM (isReg (Operands MI 0)))
    (report_fatal_instr_problem (getName MCII opcode) "First operand should be register.") ;;
  when (notM (isImm (Operands MI 1)))
    (report_fatal_instr_problem (getName MCII opcode) "Second operand should be immediate.") ;;
  reg0 <- getReg (Operands MI 0) ;;
  match reg0 with
  | Z80.IX => emitByte 0xdd
  | Z80.IY => emitByte 0xfd
  | _ => report_fatal_instr_problem (getName MCII opcode) "Allowed registers are IX, IY."
  end ;;
  emitByte 0x35 ;;
  imm1 <- getImm (Operands MI 1) ;; emitByte imm1.

(** [case Z80::DEC8p] *)
Definition case_DEC8p : M unit :=
  check_num_operands (getName MCII opcode) 1 numOperands ;;
  when (notM (isReg (Operands MI 0)))
    (report_fatal_instr_problem (getName MCII opcode) "Operand should be register.") ;;
  reg0 <- getReg (Operands MI 0) ;;
  match reg0 with
  | Z80.HL => emitByte 0x35
  | Z80.IX =>
      emitByte 0xdd ;;
      emitByte 0x35 ;;
      emitByte 0x00
  | Z80.IY =>
      emitByte 0xfd ;;
      emitByte 0x35 ;;
      emitByte 0x00
  | _ => report_fatal_instr_problem (getName MCII opcode) "Allowed registers are HL, IX, IY."
  end.

(** [case Z80::DEC8r] *)
Definition case_DEC8r : M unit :=
  when (ret (numOperands =? 0)%nat)
    (report_fatal_instr_problem (getName MCII opcode) "Operand missing.") ;;
  when (notM (isReg (Operands MI 0)))
    (report_fatal_instr_problem (getName MCII opcode) "An operand should be an register.") ;;
  reg0 <- getReg (Operands MI 0) ;;
  match reg0 with
  | Z80.A => emitByte 0x3d
  | Z80.B => emitByte 0x05
  | Z80.C => emitByte 0x0d
  | Z80.D => emitByte 0x15
  | Z80.E => emitByte 0x1d
  | Z80.H => emitByte 0x25
  | Z80.L => emitByte 0x2d
  | Z80.IXH =>
      emitByte 0xe5 ;; (* PUSH HL *)
      emitByte 0xdd ;;
      emitByte 0xe5 ;; (* PUSH IX *)
      emitByte 0xe1 ;; (* POP HL *)
      emitByte 0x25 ;; (* DEC H *)
      emitByte 0xe5 ;; (* PUSH HL *)
      emitByte 0xdd ;;
      emitByte 0xe1 ;; (* POP IX *)
      emitByte 0xe1 (* POP HL *)
  | Z80.IXL =>
      emitByte 0xe5 ;; (* PUSH HL *)
      emitByte 0xdd ;;
      emitByte 0xe5 ;; (* PUSH IX *)
      emitByte 0xe1 ;; (* POP HL *)
      emitByte 0x2d ;; (* DEC L *)
      emitByte 0xe5 ;; (* PUSH HL *)
      emitByte 0xdd ;;
      emitByte 0xe1 ;; (* POP IX *)
      emitByte 0xe1 (* POP HL *)
  | Z80.IYH =>
      emitByte 0xe5 ;; (* PUSH HL *)
      emitByte 0xfd ;;
      emitByte 0xe5 ;; (* PUSH IY *)
      emitByte 0xe1 ;; (* POP HL *)
      emitByte 0x25 ;; (* DEC H *)
      emitByte 0xe5 ;; (* PUSH HL *)
      emitByte 0xfd ;;
      emitByte 0xe1 ;; (* POP IY *)
      emitByte 0xe1 (* POP HL *)
  | Z80.IYL =>
      emitByte 0xe5 ;; (* PUSH HL *)
      emitByte 0xfd ;;
      emitByte 0xe5 ;; (* PUSH IY *)
      emitByte 0xe1 ;; (* POP HL *)
      emitByte 0x2d ;; (* DEC L *)
      emitByte 0xe5 ;; (* PUSH HL *)
      emitByte 0xfd ;;
      emitByte 0xe1 ;; (* POP IY *)
      emitByte 0xe1 (* POP HL *)
  | _ =>
      report_fatal_instr_problem (getName MCII opcode) "Allowed register are A, B, C, D, E, H, L."
  end.

(** [case Z80::DI] *)
Definition case_DI : M unit :=
  check_num_operands (getName MCII opcode) 0 numOperands ;;
  emitByte 0xf3.

(** [case Z80::EI] *)
Definition case_EI : M unit :=
  check_num_operands (getName MCII opcode) 0 numOperands ;;
  emitByte 0xfb.

(** [case Z80::EX16DE] *)
Definition case_EX16DE : M unit :=
  check_num_operands (getName MCII opcode) 0 numOperands ;;
  emitByte 0xeb.

(** [case Z80::EX16SP] *)
Definition case_EX16SP : M unit :=
  check_num_operands (getName MCII opcode) 2 numOperands ;;
  when (notM (andM (isReg (Operands MI 0)) (isReg (Operands MI 1))))
    (report_fatal_instr_problem (getName MCII opcode) "Both operands should be registers.") ;;
  when (reg0 <- getReg (Operands MI 0) ;; reg1 <- getReg (Operands MI 1) ;; ret (negb (Z80.Register_eqb reg0 reg1)))
    (report_fatal_instr_problem (getName MCII opcode) "Both operands should be the same register.") ;;
  reg0 <- getReg (Operands MI 0) ;;
  match reg0 with
  | Z80.HL => ret tt
  | Z80.IX => emitByte 0xdd
  | Z80.IY => emitByte 0xfd
  | _ => report_fatal_instr_problem (getName MCII opcode) "Allowed registers are HL, IX, IY."
  end ;;
  emitByte 0xe3.

(** [case Z80::EXAF] *)
Definition case_EXAF : M unit :=
  check_num_operands (getName MCII opcode) 0 numOperands ;;
  emitByte 0x08.

(** [case Z80::EXX] *)
Definition case_EXX : M unit :=
  check_num_operands (getName MCII opcode) 0 numOperands ;;
  emitByte 0xd9.

(** [case Z80::INC16SP] *)
Definition case_INC16SP : M unit :=
  check_num_operands (getName MCII opcode) 0 numOperands ;;
  emitByte 0x33.

(** [case Z80::INC16r] *)
Definition case_INC16r : M unit :=
  when (ret (numOperands =? 0)%nat)
    (report_fatal_instr_problem (getName MCII opcode) "Operand missing.") ;;
  when (notM (isReg (Operands MI 0)))
    (report_fatal_instr_problem (getName MCII opcode) "An operand should be an register.") ;;
  reg0 <- getReg (Operands MI 0) ;;
  match reg0 with
  | Z80.BC => emitByte 0x03
  | Z80.DE => emitByte 0x13
  | Z80.HL => emitByte 0x23
  | Z80.IX =>
      emitByte 0xdd ;;
      emitByte 0x23
  | Z80.IY =>
      emitByte 0xfd ;;
      emitByte 0x23
  | _ =>
      report_fatal_instr_problem (getName MCII opcode) "Allowed registers are BC, DE, HL, IX, IY."
  end.

(** [case Z80::INC8o] *)
Definition case_INC8o : M unit :=
  check_num_operands (getName MCII opcode) 2 numOperands ;;
  when (notM (isReg (Operands MI 0)))
    (report_fatal_instr_problem (getName MCII opcode) "First operand should be register.") ;;
  when (notM (isImm (Operands MI 1)))
    (report_fatal_instr_problem (getName MCII opcode) "Second operand should be immediate.") ;;
  reg0 <- getReg (Operands MI 0) ;;
  match reg0 with
  | Z80.IX => emitByte 0xdd
  | Z80.IY => emitByte 0xfd
  | _ => report_fatal_instr_problem (getName MCII opcode) "Allowed registers are IX, IY."
  end ;;
  emitByte 0x34 ;;
  imm1 <- getImm (Operands MI 1) ;; emitByte imm1.

(** [case Z80::INC8p] *)
Definition case_INC8p : M unit :=
  check_num_operands (getName MCII opcode) 1 numOperands ;;
  when (notM (isReg (Operands MI 0)))
    (report_fatal_instr_problem (getName MCII opcode) "Operand should be register.") ;;
  reg0 <- getReg (Operands MI 0) ;;
  match reg0 with
  | Z80.HL => emitByte 0x34
  | Z80.IX =>
      emitByte 0xdd ;;
      emitByte 0x34 ;;
      emitByte 0x00
  | Z80.IY =>
      emitByte 0xfd ;;
      emitByte 0x34 ;;
      emitByte 0x00
  | _ => report_fatal_instr_problem (getName MCII opcode) "Allowed registers are HL, IX, IY."
  end.

(** [case Z80::INC8r] *)
Definition case_INC8r : M unit :=
  when (ret (numOperands =? 0)%nat)
    (report_fatal_instr_problem (getName MCII opcode) "Operand missing.") ;;
  when (notM (isReg (Operands MI 0)))
    (report_fatal_instr_problem (getName MCII opcode) "An operand should be an register.") ;;
  reg0 <- getReg (Operands MI 0) ;;
  match reg0 with
  | Z80.A => emitByte 0x3c
  | Z80.B => emitByte 0x04
  | Z80.C => emitByte 0x0c
  | Z80.D => emitByte 0x14
  | Z80.E => emitByte 0x1c
  | Z80.H => emitByte 0x24
  | Z80.L => emitByte 0x2c
  | Z80.IXH =>
      emitByte 0xe5 ;; (* PUSH HL *)
      emitByte 0xdd ;;
      emitByte 0xe5 ;; (* PUSH IX *)
      emitByte 0xe1 ;; (* POP HL *)
      emitByte 0x24 ;; (* INC H *)
      emitByte 0xe5 ;; (* PUSH HL *)
      emitByte 0xdd ;;
      emitByte 0xe1 ;; (* POP IX *)
      emitByte 0xe1 (* POP HL *)
  | Z80.IXL =>
      emitByte 0xe5 ;; (* PUSH HL *)
      emitByte 0xdd ;;
      emitByte 0xe5 ;; (* PUSH IX *)
      emitByte 0xe1 ;; (* POP HL *)
      emitByte 0x2c ;; (* INC L *)
      emitByte 0xe5 ;; (* PUSH HL *)
      emitByte 0xdd ;;
      emitByte 0xe1 ;; (* POP IX *)
      emitByte 0xe1 (* POP HL *)
  | Z80.IYH =>
      emitByte 0xe5 ;; (* PUSH HL *)
      emitByte 0xfd ;;
      emitByte 0xe5 ;; (* PUSH IY *)
      emitByte 0xe1 ;; (* POP HL *)
      emitByte 0x24 ;; (* INC H *)
      emitByte 0xe5 ;; (* PUSH HL *)
      emitByte 0xfd ;;
      emitByte 0xe1 ;; (* POP IY *)
      emitByte 0xe1 (* POP HL *)
  | Z80.IYL =>
      emitByte 0xe5 ;; (* PUSH HL *)
      emitByte 0xfd ;;
      emitByte 0xe5 ;; (* PUSH IY *)
      emitByte 0xe1 ;; (* POP HL *)
      emitByte 0x2c ;; (* INC L *)
      emitByte 0xe5 ;; (* PUSH HL *)
      emitByte 0xfd ;;
      emitByte 0xe1 ;; (* POP IY *)
      emitByte 0xe1 (* POP HL *)
  | _ =>
      report_fatal_instr_problem (getName MCII opcode) "Allowed register are A, B, C, D, E, H, L."
  end.

(** [case Z80::IND16] *)
Definition case_IND16 : M unit :=
  check_num_operands (getName MCII opcode) 0 numOperands ;;
  emitByte 0xed ;;
  emitByte 0xaa.

(** [case Z80::INDR16] *)
Definition case_INDR16 : M unit :=
  check_num_operands (getName MCII opcode) 0 numOperands ;;
  emitByte 0xed ;;
  emitByte 0xba.

(** [case Z80::INI16] *)
Definition case_INI16 : M unit :=
  check_num_operands (getName MCII opcode) 0 numOperands ;;
  emitByte 0xed ;;
  emitByte 0xa2.

(** [case Z80::INIR16] *)
Definition case_INIR16 : M unit :=
  check_num_operands (getName MCII opcode) 0 numOperands ;;
  emitByte 0xed ;;
  emitByte 0xb2.

(** [case Z80::JP16r] *)
Definition case_JP16r : M unit :=
  check_num_operands (getName MCII opcode) 1 numOperands ;;
  when (notM (isReg (Operands MI 0)))
    (report_fatal_instr_problem (getName MCII opcode) "Operand should be register.") ;;
  reg0 <- getReg (Operands MI 0) ;;
  match reg0 with
  | Z80.HL => ret tt
  | Z80.IX => emitByte 0xdd
  | Z80.IY => emitByte 0xfd
  | _ => report_fatal_instr_problem (getName MCII opcode) "Allowed registers are HL, IX, IY."
  end ;;
  emitByte 0xe9.

(** [case Z80::LD16SP] *)
Definition case_LD16SP : M unit :=
  check_num_operands (getName MCII opcode) 1 numOperands ;;
  when (notM (isReg (Operands MI 0)))
    (report_fatal_instr_problem (getName MCII opcode) "Operand should be register.") ;;
  reg0 <- getReg (Operands MI 0) ;;
  match reg0 with
  | Z80.HL => ret tt
  | Z80.IX => emitByte 0xdd
  | Z80.IY => emitByte 0xfd
  | _ => report_fatal_instr_problem (getName MCII opcode) "Allowed registers are HL, IX, IY."
  end ;;
  emitByte 0xf9.

(** [case Z80::LD16am] *)
Definition case_LD16am : M unit :=
  check_num_operands (getName MCII opcode) 2 numOperands ;;
  when (notM (isReg (Operands MI 0)))
    (report_fatal_instr_problem (getName MCII opcode) "First operand should be register.") ;;
  reg0 <- getReg (Operands MI 0) ;;
  match reg0 with
  | Z80.HL => ret tt
  | Z80.IX => emitByte 0xdd
  | Z80.IY => emitByte 0xfd
  | _ => report_fatal_instr_problem (getName MCII opcode) "Allowed registers are HL, IX, IY."
  end ;;
  emitByte 0x2a ;;
  ifelse (isExpr (Operands MI 1))
    (Offset <- getCurByte ;; expr1 <- getExpr (Operands MI 1) ;;
     Fixups_push_back (MCFixup_create Offset expr1 (FK_Target Z80.fixup_16) (getLoc MI)) ;;
     emitByte 0x00 ;;
     emitByte 0x00)
    (ifelse (isImm (Operands MI 1))
       (imm1 <- getImm (Operands MI 1) ;; emitByte (Z.land (Z.shiftr (uint16_t imm1) 0) 0xff) ;;
        imm1 <- getImm (Operands MI 1) ;; emitByte (Z.land (Z.shiftr (uint16_t imm1) 8) 0xff))
       (report_fatal_instr_problem (getName MCII opcode)
          "Second operand should be an expression or immediate.")).

(** [case Z80::LD16ma] *)
Definition case_LD16ma : M unit :=
  check_num_operands (getName MCII opcode) 2 numOperands ;;
  when (notM (isReg (Operands MI 1)))
    (report_fatal_instr_problem (getName MCII opcode) "Second operand should be register.") ;;
  reg1 <- getReg (Operands MI 1) ;;
  match reg1 with
  | Z80.HL => ret tt
  | Z80.IX => emitByte 0xdd
  | Z80.IY => emitByte 0xfd
  | _ => report_fatal_instr_problem (getName MCII opcode) "Allowed registers are HL, IX, IY."
  end ;;
  emitByte 0x22 ;;
  ifelse (isExpr (Operands MI 0))
    (Offset <- getCurByte ;; expr0 <- getExpr (Operands MI 0) ;;
     Fixups_push_back (MCFixup_create Offset expr0 (FK_Target Z80.fixup_16) (getLoc MI)) ;;
     emitByte 0x00 ;;
     emitByte 0x00)
    (ifelse (isImm (Operands MI 0))
       (imm0 <- getImm (Operands MI 0) ;; emitByte (Z.land (Z.shiftr (uint16_t imm0) 0) 0xff) ;;
        imm0 <- getImm (Operands MI 0) ;; emitByte (Z.land (Z.shiftr (uint16_t imm0) 8) 0xff))
       (report_fatal_instr_problem (getName MCII opcode)
          "First operand should be an expression or immediate.")).

(** [case Z80::LD16mo] *)
Definition case_LD16mo : M unit :=
  check_num_operands (getName MCII opcode) 2 numOperands ;;
  when (notM (isReg (Operands MI 1)))
    (report_fatal_instr_problem (getName MCII opcode) "Second operand should be register.") ;;
  reg1 <- getReg (Operands MI 1) ;;
  match reg1 with
  | Z80.BC =>
      emitByte 0xed ;;
      emitByte 0x43
  | Z80.DE =>
      emitByte 0xed ;;
      emitByte 0x53
  | Z80.HL =>
      emitByte 0xed ;;
      emitByte 0x63
  | Z80.IX =>
      emitByte 0xdd ;;
      emitByte 0x22
  | Z80.IY =>
      emitByte 0xfd ;;
      emitByte 0x22
  | _ =>
      report_fatal_instr_problem (getName MCII opcode) "Allowed registers are BC, DE, HL, IX, IY."
  end ;;
  ifelse (isExpr (Operands MI 0))
    (Offset <- getCurByte ;; expr0 <- getExpr (Operands MI 0) ;;
     Fixups_push_back (MCFixup_create Offset expr0 (FK_Target Z80.fixup_16) (getLoc MI)) ;;
     emitByte 0x00 ;;
     emitByte 0x00)
    (ifelse (isImm (Operands MI 0))
       (imm0 <- getImm (Operands MI 0) ;; emitByte (Z.land (Z.shiftr (uint16_t imm0) 0) 0xff) ;;
        imm0 <- getImm (Operands MI 0) ;; emitByte (Z.land (Z.shiftr (uint16_t imm0) 8) 0xff))
       (report_fatal_instr_problem (getName MCII opcode)
          "First operand should be an expression or immediate.")).

(** [case Z80::LD16om] *)
Definition case_LD16om : M unit :=
  check_num_operands (getName MCII opcode) 2 numOperands ;;
  when (notM (isReg (Operands MI 0)))
    (report_fatal_instr_problem (getName MCII opcode) "First operand should be register.") ;;
  reg0 <- getReg (Operands MI 0) ;;
  match reg0 with
  | Z80.BC =>
      emitByte 0xed ;;
      emitByte 0x4b
  | Z80.DE =>
      emitByte 0xed ;;
      emitByte 0x5b
  | Z80.HL =>
      emitByte 0xed ;;
      emitByte 0x6b
  | Z80.IX =>
      emitByte 0xdd ;;
      emitByte 0x2a
  | Z80.IY =>
      emitByte 0xfd ;;
      emitByte 0x2a
  | _ =>
      report_fatal_instr_problem (getName MCII opcode) "Allowed registers are BC, DE, HL, IX, IY."
  end ;;
  ifelse (isExpr (Operands MI 1))
    (Offset <- getCurByte ;; expr1 <- getExpr (Operands MI 1) ;;
     Fixups_push_back (MCFixup_create Offset expr1 (FK_Target Z80.fixup_16) (getLoc MI)) ;;
     emitByte 0x00 ;;
     emitByte 0x00)
    (ifelse (isImm (Operands MI 1))
       (imm1 <- getImm (Operands MI 1) ;; emitByte (Z.land (Z.shiftr (uint16_t imm1) 0) 0xff) ;;
        imm1 <- getImm (Operands MI 1) ;; emitByte (Z.land (Z.shiftr (uint16_t imm1) 8) 0xff))
       (report_fatal_instr_problem (getName MCII opcode)
          "Second operand should be an expression or immediate.")).

(** [case Z80::LD16ri] *)
Definition case_LD16ri : M unit :=
  check_num_operands (getName MCII opcode) 2 numOperands ;;
  when (notM (isReg (Operands MI 0)))
    (report_fatal_instr_problem (getName MCII opcode) "First operand should be register.") ;;
  reg0 <- getReg (Operands MI 0) ;;
  match reg0 with
  | Z80.BC => emitByte 0x01
  | Z80.DE => emitByte 0x11
  | Z80.HL => emitByte 0x21
  | Z80.IX =>
      emitByte 0xdd ;;
      emitByte 0x21
  | Z80.IY =>
      emitByte 0xfd ;;
      emitByte 0x21
  | _ =>
      report_fatal_instr_problem (getName MCII opcode) "Allowed registers are BC, DE, HL, IX, IY."
  end ;;
  ifelse (isExpr (Operands MI 1))
    (Offset <- getCurByte ;; expr1 <- getExpr (Operands MI 1) ;;
     Fixups_push_back (MCFixup_create Offset expr1 (FK_Target Z80.fixup_16) (getLoc MI)) ;;
     emitByte 0x00 ;;
     emitByte 0x00)
    (ifelse (isImm (Operands MI 1))
       (imm1 <- getImm (Operands MI 1) ;; emitByte (Z.land (Z.shiftr (uint16_t imm1) 0) 0xff) ;;
        imm1 <- getImm (Operands MI 1) ;; emitByte (Z.land (Z.shiftr (uint16_t imm1) 8) 0xff))
       (report_fatal_instr_problem (getName MCII opcode)
          "Second operand should be an expression or immediate.")).

(** [case Z80::LD8am] *)
Definition case_LD8am : M unit :=
  check_num_operands (getName MCII opcode) 1 numOperands ;;
  emitByte 0x3a ;;
  ifelse (isExpr (Operands MI 0))
    (Offset <- getCurByte ;; expr0 <- getExpr (Operands MI 0) ;;
     Fixups_push_back (MCFixup_create Offset expr0 (FK_Target Z80.fixup_16) (getLoc MI)) ;;
     emitByte 0x00 ;;
     emitByte 0x00)
    (ifelse (isImm (Operands MI 0))
       (imm0 <- getImm (Operands MI 0) ;; emitByte (Z.land (Z.shiftr (uint16_t imm0) 0) 0xff) ;;
        imm0 <- getImm (Operands MI 0) ;; emitByte (Z.land (Z.shiftr (uint16_t imm0) 8) 0xff))
       (report_fatal_instr_problem (getName MCII opcode)
          "Operand should be an expression or immediate.")).

(** [case Z80::LD8gg], [case Z80::LD8xx], [case Z80::LD8yy] *)
Definition case_LD8gg : M unit :=
  check_num_operands (getName MCII opcode) 2 numOperands ;;
  when (notM (andM (isReg (Operands MI 0)) (isReg (Operands MI 1))))
    (report_fatal_instr_problem (getName MCII opcode) "Both operands should be registers.") ;;
  reg0 <- getReg (Operands MI 0) ;; (* OUT: r *)
  match reg0 with
  | Z80.A =>
      reg1 <- getReg (Operands MI 1) ;; (* IN: r' *)
      match reg1 with
      | Z80.A => emitByte 0x7f
      | Z80.B => emitByte 0x78
      | Z80.C => emitByte 0x79
      | Z80.D => emitByte 0x7a
      | Z80.E => emitByte 0x7b
      | Z80.H => emitByte 0x7c
      | Z80.L => emitByte 0x7d
      | Z80.IXH =>
          emitByte 0xe5 ;; (* PUSH HL *)
          emitByte 0xdd ;;
          emitByte 0xe5 ;; (* PUSH IX *)
          emitByte 0xe1 ;; (* POP HL *)
          emitByte 0x7c ;; (* LD A, H *)
          emitByte 0xe1 (* POP HL *)
      | Z80.IXL =>
          emitByte 0xe5 ;; (* PUSH HL *)
          emitByte 0xdd ;;
          emitByte 0xe5 ;; (* PUSH IX *)
          emitByte 0xe1 ;; (* POP HL *)
          emitByte 0x7d ;; (* LD A, L *)
          emitByte 0xe1 (* POP HL *)
      | Z80.IYH =>
          emitByte 0xe5 ;; (* PUSH HL *)
          emitByte 0xfd ;;
          emitByte 0xe5 ;; (* PUSH IY *)
          emitByte 0xe1 ;; (* POP HL *)
          emitByte 0x7c ;; (* LD A, H *)
          emitByte 0xe1 (* POP HL *)
      | Z80.IYL =>
          emitByte 0xe5 ;; (* PUSH HL *)
          emitByte 0xfd ;;
          emitByte 0xe5 ;; (* PUSH IY *)
          emitByte 0xe1 ;; (* POP HL *)
          emitByte 0x7d ;; (* LD A, L *)
          emitByte 0xe1 (* POP HL *)
      | _ =>
          report_fatal_instr_problem (getName MCII opcode)
            "Allowed register are A, B, C, D, E, H, L."
      end
  | Z80.B =>
      reg1 <- getReg (Operands MI 1) ;; (* IN: r' *)
      match reg1 with
      | Z80.A => emitByte 0x47
      | Z80.B => emitByte 0x40
      | Z80.C => emitByte 0x41
      | Z80.D => emitByte 0x42
      | Z80.E => emitByte 0x43
      | Z80.H => emitByte 0x44
      | Z80.L => emitByte 0x45
      | Z80.IXH =>
          emitByte 0xe5 ;; (* PUSH HL *)
          emitByte 0xdd ;;
          emitByte 0xe5 ;; (* PUSH IX *)
          emitByte 0xe1 ;; (* POP HL *)
          emitByte 0x44 ;; (* LD B, H *)
          emitByte 0xe1 (* POP HL *)
      | Z80.IXL =>
          emitByte 0xe5 ;; (* PUSH HL *)
          emitByte 0xdd ;;
          emitByte 0xe5 ;; (* PUSH IX *)
          emitByte 0xe1 ;; (* POP HL *)
          emitByte 0x45 ;; (* LD B, L *)
          emitByte 0xe1 (* POP HL *)
      | Z80.IYH =>
          emitByte 0xe5 ;; (* PUSH HL *)
          emitByte 0xfd ;;
          emitByte 0xe5 ;; (* PUSH IY *)
          emitByte 0xe1 ;; (* POP HL *)
          emitByte 0x44 ;; (* LD B, H *)
          emitByte 0xe1 (* POP HL *)
      | Z80.IYL =>
          emitByte 0xe5 ;; (* PUSH HL *)
          emitByte 0xfd ;;
          emitByte 0xe5 ;; (* PUSH IY *)
          emitByte 0xe1 ;; (* POP HL *)
          emitByte 0x45 ;; (* LD B, L *)
          emitByte 0xe1 (* POP HL *)
      | _ =>
          report_fatal_instr_problem (getName MCII opcode)
            "Allowed register are A, B, C, D, E, H, L."
      end
  | Z80.C =>
      reg1 <- getReg (Operands MI 1) ;; (* IN: r' *)
      match reg1 with
      | Z80.A => emitByte 0x4f
      | Z80.B => emitByte 0x48
      | Z80.C => emitByte 0x49
      | Z80.D => emitByte 0x4a
      | Z80.E => emitByte 0x4b
      | Z80.H => emitByte 0x4c
      | Z80.L => emitByte 0x4d
      | Z80.IXH =>
          emitByte 0xe5 ;; (* PUSH HL *)
          emitByte 0xdd ;;
          emitByte 0xe5 ;; (* PUSH IX *)
          emitByte 0xe1 ;; (* POP HL *)
          emitByte 0x4c ;; (* LD C, H *)
          emitByte 0xe1 (* POP HL *)
      | Z80.IXL =>
          emitByte 0xe5 ;; (* PUSH HL *)
          emitByte 0xdd ;;
          emitByte 0xe5 ;; (* PUSH IX *)
          emitByte 0xe1 ;; (* POP HL *)
          emitByte 0x4d ;; (* LD C, L *)
          emitByte 0xe1 (* POP HL *)
      | Z80.IYH =>
          emitByte 0xe5 ;; (* PUSH HL *)
          emitByte 0xfd ;;
          emitByte 0xe5 ;; (* PUSH IY *)
          emitByte 0xe1 ;; (* POP HL *)
          emitByte 0x4c ;; (* LD C, H *)
          emitByte 0xe1 (* POP HL *)
      | Z80.IYL =>
          emitByte 0xe5 ;; (* PUSH HL *)
          emitByte 0xfd ;;
          emitByte 0xe5 ;; (* PUSH IY *)
          emitByte 0xe1 ;; (* POP HL *)
          emitByte 0x4d ;; (* LD C, L *)
          emitByte 0xe1 (* POP HL *)
      | _ =>
          report_fatal_instr_problem (getName MCII opcode)
            "Allowed register are A, B, C, D, E, H, L."
      end
  | Z80.D =>
      reg1 <- getReg (Operands MI 1) ;; (* IN: r' *)
      match reg1 with
      | Z80.A => emitByte 0x57
      | Z80.B => emitByte 0x50
      | Z80.C => emitByte 0x51
      | Z80.D => emitByte 0x52
      | Z80.E => emitByte 0x53
      | Z80.H => emitByte 0x54
      | Z80.L => emitByte 0x55
      | Z80.IXH =>
          emitByte 0xe5 ;; (* PUSH HL *)
          emitByte 0xdd ;;
          emitByte 0xe5 ;; (* PUSH IX *)
          emitByte 0xe1 ;; (* POP HL *)
          emitByte 0x54 ;; (* LD D, H *)
          emitByte 0xe1 (* POP HL *)
      | Z80.IXL =>
          emitByte 0xe5 ;; (* PUSH HL *)
          emitByte 0xdd ;;
          emitByte 0xe5 ;; (* PUSH IX *)
          emitByte 0xe1 ;; (* POP HL *)
          emitByte 0x55 ;; (* LD D, L *)
          emitByte 0xe1 (* POP HL *)
      | Z80.IYH =>
          emitByte 0xe5 ;; (* PUSH HL *)
          emitByte 0xfd ;;
          emitByte 0xe5 ;; (* PUSH IY *)
          emitByte 0xe1 ;; (* POP HL *)
          emitByte 0x54 ;; (* LD D, H *)
          emitByte 0xe1 (* POP HL *)
      | Z80.IYL =>
          emitByte 0xe5 ;; (* PUSH HL *)
          emitByte 0xfd ;;
          emitByte 0xe5 ;; (* PUSH IY *)
          emitByte 0xe1 ;; (* POP HL *)
          emitByte 0x55 ;; (* LD D, L *)
          emitByte 0xe1 (* POP HL *)
      | _ =>
          report_fatal_instr_problem (getName MCII opcode)
            "Allowed register are A, B, C, D, E, H, L."
      end
  | Z80.E =>
      reg1 <- getReg (Operands MI 1) ;; (* IN: r' *)
      match reg1 with
      | Z80.A => emitByte 0x5f
      | Z80.B => emitByte 0x58
      | Z80.C => emitByte 0x59
      | Z80.D => emitByte 0x5a
      | Z80.E => emitByte 0x5b
      | Z80.H => emitByte 0x5c
      | Z80.L => emitByte 0x5d
      | Z80.IXH =>
          emitByte 0xe5 ;; (* PUSH HL *)
          emitByte 0xdd ;;
          emitByte 0xe5 ;; (* PUSH IX *)
          emitByte 0xe1 ;; (* POP HL *)
          emitByte 0x5c ;; (* LD E, H *)
          emitByte 0xe1 (* POP HL *)
      | Z80.IXL =>
          emitByte 0xe5 ;; (* PUSH HL *)
          emitByte 0xdd ;;
          emitByte 0xe5 ;; (* PUSH IX *)
          emitByte 0xe1 ;; (* POP HL *)
          emitByte 0x5d ;; (* LD E, L *)
          emitByte 0xe1 (* POP HL *)
      | Z80.IYH =>
          emitByte 0xe5 ;; (* PUSH HL *)
          emitByte 0xfd ;;
          emitByte 0xe5 ;; (* PUSH IY *)
          emitByte 0xe1 ;; (* POP HL *)
          emitByte 0x5c ;; (* LD E, H *)
          emitByte 0xe1 (* POP HL *)
      | Z80.IYL =>
          emitByte 0xe5 ;; (* PUSH HL *)
          emitByte 0xfd ;;
          emitByte 0xe5 ;; (* PUSH IY *)
          emitByte 0xe1 ;; (* POP HL *)
          emitByte 0x5d ;; (* LD E, L *)
          emitByte 0xe1 (* POP HL *)
      | _ =>
          report_fatal_instr_problem (getName MCII opcode)
            "Allowed register are A, B, C, D, E, H, L."
      end
  | Z80.H =>
      reg1 <- getReg (Operands MI 1) ;; (* IN: r' *)
      match reg1 with
      | Z80.A => emitByte 0x67
      | Z80.B => emitByte 0x60
      | Z80.C => emitByte 0x61
      | Z80.D => emitByte 0x62
      | Z80.E => emitByte 0x63
      | Z80.H => emitByte 0x64
      | Z80.L => emitByte 0x65
      | Z80.IXH =>
          emitByte 0xd5 ;; (* PUSH DE *)
          emitByte 0xdd ;;
          emitByte 0xe5 ;; (* PUSH IX *)
          emitByte 0xd1 ;; (* POP DE *)
          emitByte 0x62 ;; (* LD H, D *)
          emitByte 0xd1 (* POP DE *)
      | Z80.IXL =>
          emitByte 0xd5 ;; (* PUSH DE *)
          emitByte 0xdd ;;
          emitByte 0xe5 ;; (* PUSH IX *)
          emitByte 0xd1 ;; (* POP DE *)
          emitByte 0x63 ;; (* LD H, E *)
          emitByte 0xd1 (* POP DE *)
      | Z80.IYH =>
          emitByte 0xd5 ;; (* PUSH DE *)
          emitByte 0xfd ;;
          emitByte 0xe5 ;; (* PUSH IY *)
          emitByte 0xd1 ;; (* POP DE *)
          emitByte 0x62 ;; (* LD H, D *)
          emitByte 0xd1 (* POP DE *)
      | Z80.IYL =>
          emitByte 0xd5 ;; (* PUSH DE *)
          emitByte 0xfd ;;
          emitByte 0xe5 ;; (* PUSH IY *)
          emitByte 0xd1 ;; (* POP DE *)
          emitByte 0x63 ;; (* LD H, E *)
          emitByte 0xd1 (* POP DE *)
      | _ =>
          report_fatal_instr_problem (getName MCII opcode)
            "Allowed register are A, B, C, D, E, H, L."
      end
  | Z80.L =>
      reg1 <- getReg (Operands MI 1) ;; (* IN: r' *)
      match reg1 with
      | Z80.A => emitByte 0x6f
      | Z80.B => emitByte 0x68
      | Z80.C => emitByte 0x69
      | Z80.D => emitByte 0x6a
      | Z80.E => emitByte 0x6b
      | Z80.H => emitByte 0x6c
      | Z80.L => emitByte 0x6d
      | Z80.IXH =>
          emitByte 0xd5 ;; (* PUSH DE *)
          emitByte 0xdd ;;
          emitByte 0xe5 ;; (* PUSH IX *)
          emitByte 0xd1 ;; (* POP DE *)
          emitByte 0x6a ;; (* LD L, D *)
          emitByte 0xd1 (* POP DE *)
      | Z80.IXL =>
          emitByte 0xd5 ;; (* PUSH DE *)
          emitByte 0xdd ;;
          emitByte 0xe5 ;; (* PUSH IX *)
          emitByte 0xd1 ;; (* POP DE *)
          emitByte 0x6b ;; (* LD L, E *)
          emitByte 0xd1 (* POP DE *)
      | Z80.IYH =>
          emitByte 0xd5 ;; (* PUSH DE *)
          emitByte 0xfd ;;
          emitByte 0xe5 ;; (* PUSH IY *)
          emitByte 0xd1 ;; (* POP DE *)
          emitByte 0x6a ;; (* LD L, D *)
          emitByte 0xd1 (* POP DE *)
      | Z80.IYL =>
          emitByte 0xd5 ;; (* PUSH DE *)
          emitByte 0xfd ;;
          emitByte 0xe5 ;; (* PUSH IY *)
          emitByte 0xd1 ;; (* POP DE *)
          emitByte 0x6b ;; (* LD L, E *)
          emitByte 0xd1 (* POP DE *)
      | _ =>
          report_fatal_instr_problem (getName MCII opcode)
            "Allowed register are A, B, C, D, E, H, L."
      end
  | Z80.IXH =>
      reg1 <- getReg (Operands MI 1) ;; (* IN: r' *)
      match reg1 with
      | Z80.A =>
          emitByte 0xe5 ;; (* PUSH HL *)
          emitByte 0xdd ;;
          emitByte 0xe5 ;; (* PUSH IX *)
          emitByte 0xe1 ;; (* POP HL *)
          emitByte 0x67 ;; (* LD H, A *)
          emitByte 0xe5 ;; (* PUSH HL *)
          emitByte 0xdd ;;
          emitByte 0xe1 ;; (* POP IX *)
          emitByte 0xe1 (* POP HL *)
      | Z80.B =>
          emitByte 0xe5 ;; (* PUSH HL *)
          emitByte 0xdd ;;
          emitByte 0xe5 ;; (* PUSH IX *)
          emitByte 0xe1 ;; (* POP HL *)
          emitByte 0x60 ;; (* LD H, B *)
          emitByte 0xe5 ;; (* PUSH HL *)
          emitByte 0xdd ;;
          emitByte 0xe1 ;; (* POP IX *)
          emitByte 0xe1 (* POP HL *)
      | Z80.C =>
          emitByte 0xe5 ;; (* PUSH HL *)
          emitByte 0xdd ;;
          emitByte 0xe5 ;; (* PUSH IX *)
          emitByte 0xe1 ;; (* POP HL *)
          emitByte 0x61 ;; (* LD H, C *)
          emitByte 0xe5 ;; (* PUSH HL *)
          emitByte 0xdd ;;
          emitByte 0xe1 ;; (* POP IX *)
          emitByte 0xe1 (* POP HL *)
      | Z80.D =>
          emitByte 0xe5 ;; (* PUSH HL *)
          emitByte 0xdd ;;
          emitByte 0xe5 ;; (* PUSH IX *)
          emitByte 0xe1 ;; (* POP HL *)
          emitByte 0x62 ;; (* LD H, D *)
          emitByte 0xe5 ;; (* PUSH HL *)
          emitByte 0xdd ;;
          emitByte 0xe1 ;; (* POP IX *)
          emitByte 0xe1 (* POP HL *)
      | Z80.E =>
          emitByte 0xe5 ;; (* PUSH HL *)
          emitByte 0xdd ;;
          emitByte 0xe5 ;; (* PUSH IX *)
          emitByte 0xe1 ;; (* POP HL *)
          emitByte 0x63 ;; (* LD H, E *)
          emitByte 0xe5 ;; (* PUSH HL *)
          emitByte 0xdd ;;
          emitByte 0xe1 ;; (* POP IX *)
          emitByte 0xe1 (* POP HL *)
      | Z80.H =>
          emitByte 0xd5 ;; (* PUSH DE *)
          emitByte 0xdd ;;
          emitByte 0xe5 ;; (* PUSH IX *)
          emitByte 0xd1 ;; (* POP DE *)
          emitByte 0x54 ;; (* LD D, H *)
          emitByte 0xd5 ;; (* PUSH DE *)
          emitByte 0xdd ;;
          emitByte 0xe1 ;; (* POP IX *)
          emitByte 0xd1 (* POP DE *)
      | Z80.L =>
          emitByte 0xd5 ;; (* PUSH DE *)
          emitByte 0xdd ;;
          emitByte 0xe5 ;; (* PUSH IX *)
          emitByte 0xd1 ;; (* POP DE *)
          emitByte 0x55 ;; (* LD D, L *)
          emitByte 0xd5 ;; (* PUSH DE *)
          emitByte 0xdd ;;
          emitByte 0xe1 ;; (* POP IX *)
          emitByte 0xd1 (* POP DE *)
      | Z80.IXH =>
          emitByte 0xe5 ;; (* PUSH HL *)
          emitByte 0xdd ;;
          emitByte 0xe5 ;; (* PUSH IX *)
          emitByte 0xe1 ;; (* POP HL *)
          emitByte 0x64 ;; (* LD H, H *)
          emitByte 0xe5 ;; (* PUSH HL *)
          emitByte 0xdd ;;
          emitByte 0xe1 ;; (* POP IX *)
          emitByte 0xe1 (* POP HL *)
      | Z80.IXL =>
          emitByte 0xe5 ;; (* PUSH HL *)
          emitByte 0xdd ;;
          emitByte 0xe5 ;; (* PUSH IX *)
          emitByte 0xe1 ;; (* POP HL *)
          emitByte 0x65 ;; (* LD H, L *)
          emitByte 0xe5 ;; (* PUSH HL *)
          emitByte 0xdd ;;
          emitByte 0xe1 ;; (* POP IX *)
          emitByte 0xe1 (* POP HL *)
      | Z80.IYH =>
          emitByte 0xe5 ;; (* PUSH HL *)
          emitByte 0xd5 ;; (* PUSH DE *)
          emitByte 0xdd ;;
          emitByte 0xe5 ;; (* PUSH IX *)
          emitByte 0xe1 ;; (* POP HL *)
          emitByte 0xfd ;;
          emitByte 0xe5 ;; (* PUSH IY *)
          emitByte 0xd1 ;; (* POP DE *)
          emitByte 0x62 ;; (* LD H, D *)
          emitByte 0xe5 ;; (* PUSH HL *)
          emitByte 0xdd ;;
          emitByte 0xe1 ;; (* POP IX *)
          emitByte 0xd1 ;; (* POP DE *)
          emitByte 0xe1 (* POP HL *)
      | Z80.IYL =>
          emitByte 0xe5 ;; (* PUSH HL *)
          emitByte 0xd5 ;; (* PUSH DE *)
          emitByte 0xdd ;;
          emitByte 0xe5 ;; (* PUSH IX *)
          emitByte 0xe1 ;; (* POP HL *)
          emitByte 0xfd ;;
          emitByte 0xe5 ;; (* PUSH IY *)
          emitByte 0xd1 ;; (* POP DE *)
          emitByte 0x63 ;; (* LD H, E *)
          emitByte 0xe5 ;; (* PUSH HL *)
          emitByte 0xdd ;;
          emitByte 0xe1 ;; (* POP IX *)
          emitByte 0xd1 ;; (* POP DE *)
          emitByte 0xe1 (* POP HL *)
      | _ =>
          report_fatal_instr_problem (getName MCII opcode)
            "Allowed register are A, B, C, D, E, H, L."
      end
  | Z80.IXL =>
      reg1 <- getReg (Operands MI 1) ;; (* IN: r' *)
      match reg1 with
      | Z80.A =>
          emitByte 0xe5 ;; (* PUSH HL *)
          emitByte 0xdd ;;
          emitByte 0xe5 ;; (* PUSH IX *)
          emitByte 0xe1 ;; (* POP HL *)
          emitByte 0x6f ;; (* LD L, A *)
          emitByte 0xe5 ;; (* PUSH HL *)
          emitByte 0xdd ;;
          emitByte 0xe1 ;; (* POP IX *)
          emitByte 0xe1 (* POP HL *)
      | Z80.B =>
          emitByte 0xe5 ;; (* PUSH HL *)
          emitByte 0xdd ;;
          emitByte 0xe5 ;; (* PUSH IX *)
          emitByte 0xe1 ;; (* POP HL *)
          emitByte 0x68 ;; (* LD L, B *)
          emitByte 0xe5 ;; (* PUSH HL *)
          emitByte 0xdd ;;
          emitByte 0xe1 ;; (* POP IX *)
          emitByte 0xe1 (* POP HL *)
      | Z80.C =>
          emitByte 0xe5 ;; (* PUSH HL *)
          emitByte 0xdd ;;
          emitByte 0xe5 ;; (* PUSH IX *)
          emitByte 0xe1 ;; (* POP HL *)
          emitByte 0x69 ;; (* LD L, C *)
          emitByte 0xe5 ;; (* PUSH HL *)
          emitByte 0xdd ;;
          emitByte 0xe1 ;; (* POP IX *)
          emitByte 0xe1 (* POP HL *)
      | Z80.D =>
          emitByte 0xe5 ;; (* PUSH HL *)
          emitByte 0xdd ;;
          emitByte 0xe5 ;; (* PUSH IX *)
          emitByte 0xe1 ;; (* POP HL *)
          emitByte 0x6a ;; (* LD L, D *)
          emitByte 0xe5 ;; (* PUSH HL *)
          emitByte 0xdd ;;
          emitByte 0xe1 ;; (* POP IX *)
          emitByte 0xe1 (* POP HL *)
      | Z80.E =>
          emitByte 0xe5 ;; (* PUSH HL *)
          emitByte 0xdd ;;
          emitByte 0xe5 ;; (* PUSH IX *)
          emitByte 0xe1 ;; (* POP HL *)
          emitByte 0x6b ;; (* LD L, E *)
          emitByte 0xe5 ;; (* PUSH HL *)
          emitByte 0xdd ;;
          emitByte 0xe1 ;; (* POP IX *)
          emitByte 0xe1 (* POP HL *)
      | Z80.H =>
          emitByte 0xd5 ;; (* PUSH DE *)
          emitByte 0xdd ;;
          emitByte 0xe5 ;; (* PUSH IX *)
          emitByte 0xd1 ;; (* POP DE *)
          emitByte 0x5c ;; (* LD E, H *)
          emitByte 0xd5 ;; (* PUSH DE *)
          emitByte 0xdd ;;
          emitByte 0xe1 ;; (* POP IX *)
          emitByte 0xd1 (* POP DE *)
      | Z80.L =>
          emitByte 0xd5 ;; (* PUSH DE *)
          emitByte 0xdd ;;
          emitByte 0xe5 ;; (* PUSH IX *)
          emitByte 0xd1 ;; (* POP DE *)
          emitByte 0x5d ;; (* LD E, L *)
          emitByte 0xd5 ;; (* PUSH DE *)
          emitByte 0xdd ;;
          emitByte 0xe1 ;; (* POP IX *)
          emitByte 0xd1 (* POP DE *)
      | Z80.IXH =>
          emitByte 0xe5 ;; (* PUSH HL *)
          emitByte 0xdd ;;
          emitByte 0xe5 ;; (* PUSH IX *)
          emitByte 0xe1 ;; (* POP HL *)
          emitByte 0x6c ;; (* LD L, H *)
          emitByte 0xe5 ;; (* PUSH HL *)
          emitByte 0xdd ;;
          emitByte 0xe1 ;; (* POP IX *)
          emitByte 0xe1 (* POP HL *)
      | Z80.IXL =>
          emitByte 0xe5 ;; (* PUSH HL *)
          emitByte 0xdd ;;
          emitByte 0xe5 ;; (* PUSH IX *)
          emitByte 0xe1 ;; (* POP HL *)
          emitByte 0x6d ;; (* LD L, L *)
          emitByte 0xe5 ;; (* PUSH HL *)
          emitByte 0xdd ;;
          emitByte 0xe1 ;; (* POP IX *)
          emitByte 0xe1 (* POP HL *)
      | Z80.IYH =>
          emitByte 0xe5 ;; (* PUSH HL *)
          emitByte 0xd5 ;; (* PUSH DE *)
          emitByte 0xdd ;;
          emitByte 0xe5 ;; (* PUSH IX *)
          emitByte 0xe1 ;; (* POP HL *)
          emitByte 0xfd ;;
          emitByte 0xe5 ;; (* PUSH IY *)
          emitByte 0xd1 ;; (* POP DE *)
          emitByte 0x6a ;; (* LD L, D *)
          emitByte 0xe5 ;; (* PUSH HL *)
          emitByte 0xdd ;;
          emitByte 0xe1 ;; (* POP IX *)
          emitByte 0xd1 ;; (* POP DE *)
          emitByte 0xe1 (* POP HL *)
      | Z80.IYL =>
          emitByte 0xe5 ;; (* PUSH HL *)
          emitByte 0xd5 ;; (* PUSH DE *)
          emitByte 0xdd ;;
          emitByte 0xe5 ;; (* PUSH IX *)
          emitByte 0xe1 ;; (* POP HL *)
          emitByte 0xfd ;;
          emitByte 0xe5 ;; (* PUSH IY *)
          emitByte 0xd1 ;; (* POP DE *)
          emitByte 0x6b ;; (* LD L, E *)
          emitByte 0xe5 ;; (* PUSH HL *)
          emitByte 0xdd ;;
          emitByte 0xe1 ;; (* POP IX *)
          emitByte 0xd1 ;; (* POP DE *)
          emitByte 0xe1 (* POP HL *)
      | _ =>
          report_fatal_instr_problem (getName MCII opcode)
            "Allowed register are A, B, C, D, E, H, L."
      end
  | Z80.IYH =>
      reg1 <- getReg (Operands MI 1) ;; (* IN: r' *)
      match reg1 with
      | Z80.A =>
          emitByte 0xe5 ;; (* PUSH HL *)
          emitByte 0xfd ;;
          emitByte 0xe5 ;; (* PUSH IY *)
          emitByte 0xe1 ;; (* POP HL *)
          emitByte 0x67 ;; (* LD H, A *)
          emitByte 0xe5 ;; (* PUSH HL *)
          emitByte 0xfd ;;
          emitByte 0xe1 ;; (* POP IY *)
          emitByte 0xe1 (* POP HL *)
      | Z80.B =>
          emitByte 0xe5 ;; (* PUSH HL *)
          emitByte 0xfd ;;
          emitByte 0xe5 ;; (* PUSH IY *)
          emitByte 0xe1 ;; (* POP HL *)
          emitByte 0x60 ;; (* LD H, B *)
          emitByte 0xe5 ;; (* PUSH HL *)
          emitByte 0xfd ;;
          emitByte 0xe1 ;; (* POP IY *)
          emitByte 0xe1 (* POP HL *)
      | Z80.C =>
          emitByte 0xe5 ;; (* PUSH HL *)
          emitByte 0xfd ;;
          emitByte 0xe5 ;; (* PUSH IY *)
          emitByte 0xe1 ;; (* POP HL *)
          emitByte 0x61 ;; (* LD H, C *)
          emitByte 0xe5 ;; (* PUSH HL *)
          emitByte 0xfd ;;
          emitByte 0xe1 ;; (* POP IY *)
          emitByte 0xe1 (* POP HL *)
      | Z80.D =>
          emitByte 0xe5 ;; (* PUSH HL *)
          emitByte 0xfd ;;
          emitByte 0xe5 ;; (* PUSH IY *)
          emitByte 0xe1 ;; (* POP HL *)
          emitByte 0x62 ;; (* LD H, D *)
          emitByte 0xe5 ;; (* PUSH HL *)
          emitByte 0xfd ;;
          emitByte 0xe1 ;; (* POP IY *)
          emitByte 0xe1 (* POP HL *)
      | Z80.E =>
          emitByte 0xe5 ;; (* PUSH HL *)
          emitByte 0xfd ;;
          emitByte 0xe5 ;; (* PUSH IY *)
          emitByte 0xe1 ;; (* POP HL *)
          emitByte 0x63 ;; (* LD H, E *)
          emitByte 0xe5 ;; (* PUSH HL *)
          emitByte 0xfd ;;
          emitByte 0xe1 ;; (* POP IY *)
          emitByte 0xe1 (* POP HL *)
      | Z80.H =>
          emitByte 0xd5 ;; (* PUSH DE *)
          emitByte 0xfd ;;
          emitByte 0xe5 ;; (* PUSH IY *)
          emitByte 0xd1 ;; (* POP DE *)
          emitByte 0x54 ;; (* LD D, H *)
          emitByte 0xd5 ;; (* PUSH DE *)
          emitByte 0xfd ;;
          emitByte 0xe1 ;; (* POP IY *)
          emitByte 0xd1 (* POP DE *)
      | Z80.L =>
          emitByte 0xd5 ;; (* PUSH DE *)
          emitByte 0xfd ;;
          emitByte 0xe5 ;; (* PUSH IY *)
          emitByte 0xd1 ;; (* POP DE *)
          emitByte 0x55 ;; (* LD D, L *)
          emitByte 0xd5 ;; (* PUSH DE *)
          emitByte 0xfd ;;
          emitByte 0xe1 ;; (* POP IY *)
          emitByte 0xd1 (* POP DE *)
      | Z80.IXH =>
          emitByte 0xe5 ;; (* PUSH HL *)
          emitByte 0xd5 ;; (* PUSH DE *)
          emitByte 0xfd ;;
          emitByte 0xe5 ;; (* PUSH IY *)
          emitByte 0xe1 ;; (* POP HL *)
          emitByte 0xdd ;;
          emitByte 0xe5 ;; (* PUSH IX *)
          emitByte 0xd1 ;; (* POP DE *)
          emitByte 0x62 ;; (* LD H, D *)
          emitByte 0xe5 ;; (* PUSH HL *)
          emitByte 0xfd ;;
          emitByte 0xe1 ;; (* POP IY *)
          emitByte 0xd1 ;; (* POP DE *)
          emitByte 0xe1 (* POP HL *)
      | Z80.IXL =>
          emitByte 0xe5 ;; (* PUSH HL *)
          emitByte 0xd5 ;; (* PUSH DE *)
          emitByte 0xfd ;;
          emitByte 0xe5 ;; (* PUSH IY *)
          emitByte 0xe1 ;; (* POP HL *)
          emitByte 0xdd ;;
          emitByte 0xe5 ;; (* PUSH IX *)
          emitByte 0xd1 ;; (* POP DE *)
          emitByte 0x63 ;; (* LD H, E *)
          emitByte 0xe5 ;; (* PUSH HL *)
          emitByte 0xfd ;;
          emitByte 0xe1 ;; (* POP IY *)
          emitByte 0xd1 ;; (* POP DE *)
          emitByte 0xe1 (* POP HL *)
      | Z80.IYH =>
          emitByte 0xe5 ;; (* PUSH HL *)
          emitByte 0xfd ;;
          emitByte 0xe5 ;; (* PUSH IY *)
          emitByte 0xe1 ;; (* POP HL *)
          emitByte 0x64 ;; (* LD H, H *)
          emitByte 0xe5 ;; (* PUSH HL *)
          emitByte 0xfd ;;
          emitByte 0xe1 ;; (* POP IY *)
          emitByte 0xe1 (* POP HL *)
      | Z80.IYL =>
          emitByte 0xe5 ;; (* PUSH HL *)
          emitByte 0xfd ;;
          emitByte 0xe5 ;; (* PUSH IY *)
          emitByte 0xe1 ;; (* POP HL *)
          emitByte 0x65 ;; (* LD H, L *)
          emitByte 0xe5 ;; (* PUSH HL *)
          emitByte 0xfd ;;
          emitByte 0xe1 ;; (* POP IY *)
          emitByte 0xe1 (* POP HL *)
      | _ =>
          report_fatal_instr_problem (getName MCII opcode)
            "Allowed register are A, B, C, D, E, H, L."
      end
  | Z80.IYL =>
      reg1 <- getReg (Operands MI 1) ;; (* IN: r' *)
      match reg1 with
      | Z80.A =>
          emitByte 0xe5 ;; (* PUSH HL *)
          emitByte 0xfd ;;
          emitByte 0xe5 ;; (* PUSH IY *)
          emitByte 0xe1 ;; (* POP HL *)
          emitByte 0x6f ;; (* LD L, A *)
          emitByte 0xe5 ;; (* PUSH HL *)
          emitByte 0xfd ;;
          emitByte 0xe1 ;; (* POP IY *)
          emitByte 0xe1 (* POP HL *)
      | Z80.B =>
          emitByte 0xe5 ;; (* PUSH HL *)
          emitByte 0xfd ;;
          emitByte 0xe5 ;; (* PUSH IY *)
          emitByte 0xe1 ;; (* POP HL *)
          emitByte 0x68 ;; (* LD L, B *)
          emitByte 0xe5 ;; (* PUSH HL *)
          emitByte 0xfd ;;
          emitByte 0xe1 ;; (* POP IY *)
          emitByte 0xe1 (* POP HL *)
      | Z80.C =>
          emitByte 0xe5 ;; (* PUSH HL *)
          emitByte 0xfd ;;
          emitByte 0xe5 ;; (* PUSH IY *)
          emitByte 0xe1 ;; (* POP HL *)
          emitByte 0x69 ;; (* LD L, C *)
          emitByte 0xe5 ;; (* PUSH HL *)
          emitByte 0xfd ;;
          emitByte 0xe1 ;; (* POP IY *)
          emitByte 0xe1 (* POP HL *)
      | Z80.D =>
          emitByte 0xe5 ;; (* PUSH HL *)
          emitByte 0xfd ;;
          emitByte 0xe5 ;; (* PUSH IY *)
          emitByte 0xe1 ;; (* POP HL *)
          emitByte 0x6a ;; (* LD L, D *)
          emitByte 0xe5 ;; (* PUSH HL *)
          emitByte 0xfd ;;
          emitByte 0xe1 ;; (* POP IY *)
          emitByte 0xe1 (* POP HL *)
      | Z80.E =>
          emitByte 0xe5 ;; (* PUSH HL *)
          emitByte 0xfd ;;
          emitByte 0xe5 ;; (* PUSH IY *)
          emitByte 0xe1 ;; (* POP HL *)
          emitByte 0x6b ;; (* LD L, E *)
          emitByte 0xe5 ;; (* PUSH HL *)
          emitByte 0xfd ;;
          emitByte 0xe1 ;; (* POP IY *)
          emitByte 0xe1 (* POP HL *)
      | Z80.H =>
          emitByte 0xd5 ;; (* PUSH DE *)
          emitByte 0xfd ;;
          emitByte 0xe5 ;; (* PUSH IY *)
          emitByte 0xd1 ;; (* POP DE *)
          emitByte 0x5c ;; (* LD E, H *)
          emitByte 0xd5 ;; (* PUSH DE *)
          emitByte 0xfd ;;
          emitByte 0xe1 ;; (* POP IY *)
          emitByte 0xd1 (* POP DE *)
      | Z80.L =>
          emitByte 0xd5 ;; (* PUSH DE *)
          emitByte 0xfd ;;
          emitByte 0xe5 ;; (* PUSH IY *)
          emitByte 0xd1 ;; (* POP DE *)
          emitByte 0x5d ;; (* LD E, L *)
          emitByte 0xd5 ;; (* PUSH DE *)
          emitByte 0xfd ;;
          emitByte 0xe1 ;; (* POP IY *)
          emitByte 0xd1 (* POP DE *)
      | Z80.IXH =>
          emitByte 0xe5 ;; (* PUSH HL *)
          emitByte 0xd5 ;; (* PUSH DE *)
          emitByte 0xfd ;;
          emitByte 0xe5 ;; (* PUSH IY *)
          emitByte 0xe1 ;; (* POP HL *)
          emitByte 0xdd ;;
          emitByte 0xe5 ;; (* PUSH IX *)
          emitByte 0xd1 ;; (* POP DE *)
          emitByte 0x6a ;; (* LD L, D *)
          emitByte 0xe5 ;; (* PUSH HL *)
          emitByte 0xfd ;;
          emitByte 0xe1 ;; (* POP IY *)
          emitByte 0xd1 ;; (* POP DE *)
          emitByte 0xe1 (* POP HL *)
      | Z80.IXL =>
          emitByte 0xe5 ;; (* PUSH HL *)
          emitByte 0xd5 ;; (* PUSH DE *)
          emitByte 0xfd ;;
          emitByte 0xe5 ;; (* PUSH IY *)
          emitByte 0xe1 ;; (* POP HL *)
          emitByte 0xdd ;;
          emitByte 0xe5 ;; (* PUSH IX *)
          emitByte 0xd1 ;; (* POP DE *)
          emitByte 0x6b ;; (* LD L, E *)
          emitByte 0xe5 ;; (* PUSH HL *)
          emitByte 0xfd ;;
          emitByte 0xe1 ;; (* POP IY *)
          emitByte 0xd1 ;; (* POP DE *)
          emitByte 0xe1 (* POP HL *)
      | Z80.IYH =>
          emitByte 0xe5 ;; (* PUSH HL *)
          emitByte 0xfd ;;
          emitByte 0xe5 ;; (* PUSH IY *)
          emitByte 0xe1 ;; (* POP HL *)
          emitByte 0x6c ;; (* LD L, H *)
          emitByte 0xe5 ;; (* PUSH HL *)
          emitByte 0xfd ;;
          emitByte 0xe1 ;; (* POP IY *)
          emitByte 0xe1 (* POP HL *)
      | Z80.IYL =>
          emitByte 0xe5 ;; (* PUSH HL *)
          emitByte 0xfd ;;
          emitByte 0xe5 ;; (* PUSH IY *)
          emitByte 0xe1 ;; (* POP HL *)
          emitByte 0x6d ;; (* LD L, L *)
          emitByte 0xe5 ;; (* PUSH HL *)
          emitByte 0xfd ;;
          emitByte 0xe1 ;; (* POP IY *)
          emitByte 0xe1 (* POP HL *)
      | _ =>
          report_fatal_instr_problem (getName MCII opcode)
            "Allowed register are A, B, C, D, E, H, L."
      end
  | _ =>
      report_fatal_instr_problem (getName MCII opcode) "Allowed register are A, B, C, D, E, H, L."
  end.

(** [case Z80::LD8go] *)
Definition case_LD8go : M unit :=
  check_num_operands (getName MCII opcode) 3 numOperands ;;
  when (notM (andM (isReg (Operands MI 0)) (isReg (Operands MI 1))))
    (report_fatal_instr_problem (getName MCII opcode) "First two operands should be registers.") ;;
  when (notM (isImm (Operands MI 2)))
    (report_fatal_instr_problem (getName MCII opcode) "Third operand should be immediate.") ;;
  reg0 <- getReg (Operands MI 0) ;;
  match reg0 with
  | Z80.IXH =>
      emitByte 0xe5 ;; (* PUSH HL *)
      emitByte 0xdd ;;
      emitByte 0xe5 ;; (* PUSH IX *)
      emitByte 0xe1 ;; (* POP HL *)
      reg1 <- getReg (Operands MI 1) ;;
      match reg1 with
      | Z80.IX => emitByte 0xdd
      | Z80.IY => emitByte 0xfd
      | _ =>
          report_fatal_instr_problem (getName MCII opcode)
            "Allowed second operand registers are IX, IY."
      end ;;
      emitByte 0x66 ;;
      imm2 <- getImm (Operands MI 2) ;; emitByte imm2 ;; (* LD H, (IX|Y + Imm) *)
      emitByte 0xe5 ;; (* PUSH HL *)
      emitByte 0xdd ;;
      emitByte 0xe1 ;; (* POP IX *)
      emitByte 0xe1 (* POP HL *)
  | Z80.IXL =>
      emitByte 0xe5 ;; (* PUSH HL *)
      emitByte 0xdd ;;
      emitByte 0xe5 ;; (* PUSH IX *)
      emitByte 0xe1 ;; (* POP HL *)
      reg1 <- getReg (Operands MI 1) ;;
      match reg1 with
      | Z80.IX => emitByte 0xdd
      | Z80.IY => emitByte 0xfd
      | _ =>
          report_fatal_instr_problem (getName MCII opcode)
            "Allowed second operand registers are IX, IY."
      end ;;
      emitByte 0x6e ;;
      imm2 <- getImm (Operands MI 2) ;; emitByte imm2 ;; (* LD L, (IX|Y + Imm) *)
      emitByte 0xe5 ;; (* PUSH HL *)
      emitByte 0xdd ;;
      emitByte 0xe1 ;; (* POP IX *)
      emitByte 0xe1 (* POP HL *)
  | Z80.IYH =>
      emitByte 0xe5 ;; (* PUSH HL *)
      emitByte 0xfd ;;
      emitByte 0xe5 ;; (* PUSH IY *)
      emitByte 0xe1 ;; (* POP HL *)
      reg1 <- getReg (Operands MI 1) ;;
      match reg1 with
      | Z80.IX => emitByte 0xdd
      | Z80.IY => emitByte 0xfd
      | _ =>
          report_fatal_instr_problem (getName MCII opcode)
            "Allowed second operand registers are IX, IY."
      end ;;
      emitByte 0x66 ;;
      imm2 <- getImm (Operands MI 2) ;; emitByte imm2 ;; (* LD H, (IX|Y + Imm) *)
      emitByte 0xe5 ;; (* PUSH HL *)
      emitByte 0xfd ;;
      emitByte 0xe1 ;; (* POP IY *)
      emitByte 0xe1 (* POP HL *)
  | Z80.IYL =>
      emitByte 0xe5 ;; (* PUSH HL *)
      emitByte 0xfd ;;
      emitByte 0xe5 ;; (* PUSH IY *)
      emitByte 0xe1 ;; (* POP HL *)
      reg1 <- getReg (Operands MI 1) ;;
      match reg1 with
      | Z80.IX => emitByte 0xdd
      | Z80.IY => emitByte 0xfd
      | _ =>
          report_fatal_instr_problem (getName MCII opcode)
            "Allowed second operand registers are IX, IY."
      end ;;
      emitByte 0x6e ;;
      imm2 <- getImm (Operands MI 2) ;; emitByte imm2 ;; (* LD L, (IX|Y + Imm) *)
      emitByte 0xe5 ;; (* PUSH HL *)
      emitByte 0xfd ;;
      emitByte 0xe1 ;; (* POP IY *)
      emitByte 0xe1 (* POP HL *)
  | _ =>
      reg1 <- getReg (Operands MI 1) ;;
      match reg1 with
      | Z80.IX => emitByte 0xdd
      | Z80.IY => emitByte 0xfd
      | _ =>
          report_fatal_instr_problem (getName MCII opcode)
            "Allowed second operand registers are IX, IY."
      end ;;
      reg0 <- getReg (Operands MI 0) ;;
      match reg0 with
      | Z80.A => emitByte 0x7e
      | Z80.B => emitByte 0x46
      | Z80.C => emitByte 0x4e
      | Z80.D => emitByte 0x56
      | Z80.E => emitByte 0x5e
      | Z80.H => emitByte 0x66
      | Z80.L => emitByte 0x6e
      | _ =>
          report_fatal_instr_problem (getName MCII opcode)
            "Allowed first operand registers are A, B, C, D, E, H, L."
      end ;;
      imm2 <- getImm (Operands MI 2) ;; emitByte imm2
  end.

(** [case Z80::LD8gp] *)
Definition case_LD8gp : M unit :=
  check_num_operands (getName MCII opcode) 2 numOperands ;;
  when (notM (andM (isReg (Operands MI 0)) (isReg (Operands MI 1))))
    (report_fatal_instr_problem (getName MCII opcode) "Both operands should be registers.") ;;
  reg1 <- getReg (Operands MI 1) ;;
  match reg1 with
  | Z80.HL =>
      reg0 <- getReg (Operands MI 0) ;;
      match reg0 with
      | Z80.A => emitByte 0x7e
      | Z80.B => emitByte 0x46
      | Z80.C => emitByte 0x4e
      | Z80.D => emitByte 0x56
      | Z80.E => emitByte 0x5e
      | Z80.H => emitByte 0x66
      | Z80.L => emitByte 0x6e
      | Z80.IXH =>
          emitByte 0xd5 ;; (* PUSH DE *)
          emitByte 0xdd ;;
          emitByte 0xe5 ;; (* PUSH IX *)
          emitByte 0xd1 ;; (* POP DE *)
          emitByte 0x56 ;; (* LD D, (HL) *)
          emitByte 0xd5 ;; (* PUSH DE *)
          emitByte 0xdd ;;
          emitByte 0xe1 ;; (* POP IX *)
          emitByte 0xd1 (* POP DE *)
      | Z80.IXL =>
          emitByte 0xd5 ;; (* PUSH DE *)
          emitByte 0xdd ;;
          emitByte 0xe5 ;; (* PUSH IX *)
          emitByte 0xd1 ;; (* POP DE *)
          emitByte 0x5e ;; (* LD E, (HL) *)
          emitByte 0xd5 ;; (* PUSH DE *)
          emitByte 0xdd ;;
          emitByte 0xe1 ;; (* POP IX *)
          emitByte 0xd1 (* POP DE *)
      | Z80.IYH =>
          emitByte 0xd5 ;; (* PUSH DE *)
          emitByte 0xfd ;;
          emitByte 0xe5 ;; (* PUSH IY *)
          emitByte 0xd1 ;; (* POP DE *)
          emitByte 0x56 ;; (* LD D, (HL) *)
          emitByte 0xd5 ;; (* PUSH DE *)
          emitByte 0xfd ;;
          emitByte 0xe1 ;; (* POP IY *)
          emitByte 0xd1 (* POP DE *)
      | Z80.IYL =>
          emitByte 0xd5 ;; (* PUSH DE *)
          emitByte 0xfd ;;
          emitByte 0xe5 ;; (* PUSH IY *)
          emitByte 0xd1 ;; (* POP DE *)
          emitByte 0x5e ;; (* LD E, (HL) *)
          emitByte 0xd5 ;; (* PUSH DE *)
          emitByte 0xfd ;;
          emitByte 0xe1 ;; (* POP IY *)
          emitByte 0xd1 (* POP DE *)
      | _ =>
          report_fatal_instr_problem (getName MCII opcode)
            "Allowed first operand registers are A, B, C, D, E, H, L."
      end
  | Z80.IX =>
      reg0 <- getReg (Operands MI 0) ;;
      match reg0 with
      | Z80.A =>
          emitByte 0xdd ;;
          emitByte 0x7e ;;
          emitByte 0x00
      | Z80.B =>
          emitByte 0xdd ;;
          emitByte 0x46 ;;
          emitByte 0x00
      | Z80.C =>
          emitByte 0xdd ;;
          emitByte 0x4e ;;
          emitByte 0x00
      | Z80.D =>
          emitByte 0xdd ;;
          emitByte 0x56 ;;
          emitByte 0x00
      | Z80.E =>
          emitByte 0xdd ;;
          emitByte 0x5e ;;
          emitByte 0x00
      | Z80.H =>
          emitByte 0xdd ;;
          emitByte 0x66 ;;
          emitByte 0x00
      | Z80.L =>
          emitByte 0xdd ;;
          emitByte 0x6e ;;
          emitByte 0x00
      | Z80.IXH =>
          emitByte 0xd5 ;; (* PUSH DE *)
          emitByte 0xdd ;;
          emitByte 0xe5 ;; (* PUSH IX *)
          emitByte 0xd1 ;; (* POP DE *)
          emitByte 0xdd ;;
          emitByte 0x56 ;;
          emitByte 0x00 ;; (* LD D, (IX+0) *)
          emitByte 0xd5 ;; (* PUSH DE *)
          emitByte 0xdd ;;
          emitByte 0xe1 ;; (* POP IX *)
          emitByte 0xd1 (* POP DE *)
      | Z80.IXL =>
          emitByte 0xd5 ;; (* PUSH DE *)
          emitByte 0xdd ;;
          emitByte 0xe5 ;; (* PUSH IX *)
          emitByte 0xd1 ;; (* POP DE *)
          emitByte 0xdd ;;
          emitByte 0x5e ;;
          emitByte 0x00 ;; (* LD E, (IX+0) *)
          emitByte 0xd5 ;; (* PUSH DE *)
          emitByte 0xdd ;;
          emitByte 0xe1 ;; (* POP IX *)
          emitByte 0xd1 (* POP DE *)
      | Z80.IYH =>
          emitByte 0xd5 ;; (* PUSH DE *)
          emitByte 0xfd ;;
          emitByte 0xe5 ;; (* PUSH IY *)
          emitByte 0xd1 ;; (* POP DE *)
          emitByte 0xdd ;;
          emitByte 0x56 ;;
          emitByte 0x00 ;; (* LD D, (IX+0) *)
          emitByte 0xd5 ;; (* PUSH DE *)
          emitByte 0xfd ;;
          emitByte 0xe1 ;; (* POP IY *)
          emitByte 0xd1 (* POP DE *)
      | Z80.IYL =>
          emitByte 0xd5 ;; (* PUSH DE *)
          emitByte 0xfd ;;
          emitByte 0xe5 ;; (* PUSH IY *)
          emitByte 0xd1 ;; (* POP DE *)
          emitByte 0xdd ;;
          emitByte 0x5e ;;
          emitByte 0x00 ;; (* LD E, (IX+0) *)
          emitByte 0xd5 ;; (* PUSH DE *)
          emitByte 0xfd ;;
          emitByte 0xe1 ;; (* POP IY *)
          emitByte 0xd1 (* POP DE *)
      | _ =>
          report_fatal_instr_problem (getName MCII opcode)
            "Allowed first operand registers are A, B, C, D, E, H, L."
      end
  | Z80.IY =>
      reg0 <- getReg (Operands MI 0) ;;
      match reg0 with
      | Z80.A =>
          emitByte 0xfd ;;
          emitByte 0x7e ;;
          emitByte 0x00
      | Z80.B =>
          emitByte 0xfd ;;
          emitByte 0x46 ;;
          emitByte 0x00
      | Z80.C =>
          emitByte 0xfd ;;
          emitByte 0x4e ;;
          emitByte 0x00
      | Z80.D =>
          emitByte 0xfd ;;
          emitByte 0x56 ;;
          emitByte 0x00
      | Z80.E =>
          emitByte 0xfd ;;
          emitByte 0x5e ;;
          emitByte 0x00
      | Z80.H =>
          emitByte 0xfd ;;
          emitByte 0x66 ;;
          emitByte 0x00
      | Z80.L =>
          emitByte 0xfd ;;
          emitByte 0x6e ;;
          emitByte 0x00
      | Z80.IXH =>
          emitByte 0xd5 ;; (* PUSH DE *)
          emitByte 0xdd ;;
          emitByte 0xe5 ;; (* PUSH IX *)
          emitByte 0xd1 ;; (* POP DE *)
          emitByte 0xfd ;;
          emitByte 0x56 ;;
          emitByte 0x00 ;; (* LD D, (IY+0) *)
          emitByte 0xd5 ;; (* PUSH DE *)
          emitByte 0xdd ;;
          emitByte 0xe1 ;; (* POP IX *)
          emitByte 0xd1 (* POP DE *)
      | Z80.IXL =>
          emitByte 0xd5 ;; (* PUSH DE *)
          emitByte 0xdd ;;
          emitByte 0xe5 ;; (* PUSH IX *)
          emitByte 0xd1 ;; (* POP DE *)
          emitByte 0xfd ;;
          emitByte 0x5e ;;
          emitByte 0x00 ;; (* LD E, (IY+0) *)
          emitByte 0xd5 ;; (* PUSH DE *)
          emitByte 0xdd ;;
          emitByte 0xe1 ;; (* POP IX *)
          emitByte 0xd1 (* POP DE *)
      | Z80.IYH =>
          emitByte 0xd5 ;; (* PUSH DE *)
          emitByte 0xfd ;;
          emitByte 0xe5 ;; (* PUSH IY *)
          emitByte 0xd1 ;; (* POP DE *)
          emitByte 0xfd ;;
          emitByte 0x56 ;;
          emitByte 0x00 ;; (* LD D, (IY+0) *)
          emitByte 0xd5 ;; (* PUSH DE *)
          emitByte 0xfd ;;
          emitByte 0xe1 ;; (* POP IY *)
          emitByte 0xd1 (* POP DE *)
      | Z80.IYL =>
          emitByte 0xd5 ;; (* PUSH DE *)
          emitByte 0xfd ;;
          emitByte 0xe5 ;; (* PUSH IY *)
          emitByte 0xd1 ;; (* POP DE *)
          emitByte 0xfd ;;
          emitByte 0x5e ;;
          emitByte 0x00 ;; (* LD E, (IY+0) *)
          emitByte 0xd5 ;; (* PUSH DE *)
          emitByte 0xfd ;;
          emitByte 0xe1 ;; (* POP IY *)
          emitByte 0xd1 (* POP DE *)
      | _ =>
          report_fatal_instr_problem (getName MCII opcode)
            "Allowed first operand registers are A, B, C, D, E, H, L."
      end
  | _ => report_fatal_instr_problem (getName MCII opcode) "Allowed registers are HL, IX, IY."
  end.

(** [case Z80::LD8ma] *)
Definition case_LD8ma : M unit :=
  check_num_operands (getName MCII opcode) 1 numOperands ;;
  emitByte 0x32 ;;
  ifelse (isExpr (Operands MI 0))
    (Offset <- getCurByte ;; expr0 <- getExpr (Operands MI 0) ;;
     Fixups_push_back (MCFixup_create Offset expr0 (FK_Target Z80.fixup_16) (getLoc MI)) ;;
     emitByte 0x00 ;;
     emitByte 0x00)
    (ifelse (isImm (Operands MI 0))
       (imm0 <- getImm (Operands MI 0) ;; emitByte (Z.land (Z.shiftr (uint16_t imm0) 0) 0xff) ;;
        imm0 <- getImm (Operands MI 0) ;; emitByte (Z.land (Z.shiftr (uint16_t imm0) 8) 0xff))
       (report_fatal_instr_problem (getName MCII opcode)
          "Operand should be an expression or immediate.")).

(** [case Z80::LD8og] *)
Definition case_LD8og : M unit :=
  check_num_operands (getName MCII opcode) 3 numOperands ;;
  when (notM (andM (isReg (Operands MI 0)) (isReg (Operands MI 2))))
    (report_fatal_instr_problem (getName MCII opcode)
       "First and third operand should be registers.") ;;
  when (notM (isImm (Operands MI 1)))
    (report_fatal_instr_problem (getName MCII opcode) "Second operand should be immediate.") ;;
  reg2 <- getReg (Operands MI 2) ;;
  match reg2 with
  | Z80.IXH =>
      emitByte 0xe5 ;; (* PUSH HL *)
      emitByte 0xdd ;;
      emitByte 0xe5 ;; (* PUSH IX *)
      emitByte 0xe1 ;; (* POP HL *)
      reg0 <- getReg (Operands MI 0) ;;
      match reg0 with
      | Z80.IX => emitByte 0xdd
      | Z80.IY => emitByte 0xfd
      | _ =>
          report_fatal_instr_problem (getName MCII opcode)
            "Allowed first operand registers are IX, IY."
      end ;;
      emitByte 0x74 ;;
      imm1 <- getImm (Operands MI 1) ;; emitByte imm1 ;; (* LD (IX|Y + Imm), H *)
      emitByte 0xe5 ;; (* PUSH HL *)
      emitByte 0xdd ;;
      emitByte 0xe1 ;; (* POP IX *)
      emitByte 0xe1 (* POP HL *)
  | Z80.IXL =>
      emitByte 0xe5 ;; (* PUSH HL *)
      emitByte 0xdd ;;
      emitByte 0xe5 ;; (* PUSH IX *)
      emitByte 0xe1 ;; (* POP HL *)
      reg0 <- getReg (Operands MI 0) ;;
      match reg0 with
      | Z80.IX => emitByte 0xdd
      | Z80.IY => emitByte 0xfd
      | _ =>
          report_fatal_instr_problem (getName MCII opcode)
            "Allowed first operand registers are IX, IY."
      end ;;
      emitByte 0x75 ;;
      imm1 <- getImm (Operands MI 1) ;; emitByte imm1 ;; (* LD (IX|Y + Imm), L *)
      emitByte 0xe5 ;; (* PUSH HL *)
      emitByte 0xdd ;;
      emitByte 0xe1 ;; (* POP IX *)
      emitByte 0xe1 (* POP HL *)
  | Z80.IYH =>
      emitByte 0xe5 ;; (* PUSH HL *)
      emitByte 0xfd ;;
      emitByte 0xe5 ;; (* PUSH IY *)
      emitByte 0xe1 ;; (* POP HL *)
      reg0 <- getReg (Operands MI 0) ;;
      match reg0 with
      | Z80.IX => emitByte 0xdd
      | Z80.IY => emitByte 0xfd
      | _ =>
          report_fatal_instr_problem (getName MCII opcode)
            "Allowed first operand registers are IX, IY."
      end ;;
      emitByte 0x74 ;;
      imm1 <- getImm (Operands MI 1) ;; emitByte imm1 ;; (* LD (IX|Y + Imm), H *)
      emitByte 0xe5 ;; (* PUSH HL *)
      emitByte 0xfd ;;
      emitByte 0xe1 ;; (* POP IY *)
      emitByte 0xe1 (* POP HL *)
  | Z80.IYL =>
      emitByte 0xe5 ;; (* PUSH HL *)
      emitByte 0xfd ;;
      emitByte 0xe5 ;; (* PUSH IY *)
      emitByte 0xe1 ;; (* POP HL *)
      reg0 <- getReg (Operands MI 0) ;;
      match reg0 with
      | Z80.IX => emitByte 0xdd
      | Z80.IY => emitByte 0xfd
      | _ =>
          report_fatal_instr_problem (getName MCII opcode)
            "Allowed first operand registers are IX, IY."
      end ;;
      emitByte 0x75 ;;
      imm1 <- getImm (Operands MI 1) ;; emitByte imm1 ;; (* LD (IX|Y + Imm), L *)
      emitByte 0xe5 ;; (* PUSH HL *)
      emitByte 0xfd ;;
      emitByte 0xe1 ;; (* POP IY *)
      emitByte 0xe1 (* POP HL *)
  | _ =>
      reg0 <- getReg (Operands MI 0) ;;
      match reg0 with
      | Z80.IX => emitByte 0xdd
      | Z80.IY => emitByte 0xfd
      | _ =>
          report_fatal_instr_problem (getName MCII opcode)
            "Allowed first operand registers are IX, IY."
      end ;;
      reg2 <- getReg (Operands MI 2) ;;
      match reg2 with
      | Z80.A => emitByte 0x77
      | Z80.B => emitByte 0x70
      | Z80.C => emitByte 0x71
      | Z80.D => emitByte 0x72
      | Z80.E => emitByte 0x73
      | Z80.H => emitByte 0x74
      | Z80.L => emitByte 0x75
      | _ =>
          report_fatal_instr_problem (getName MCII opcode)
            "Allowed third operand registers are A, B, C, D, E, H, L."
      end ;;
      imm1 <- getImm (Operands MI 1) ;; emitByte imm1
  end.

(** [case Z80::LD8oi] *)
Definition case_LD8oi : M unit :=
  check_num_operands (getName MCII opcode) 3 numOperands ;;
  when (notM (isReg (Operands MI 0)))
    (report_fatal_instr_problem (getName MCII opcode) "First operand should be register.") ;;
  when (notM (andM (isImm (Operands MI 1)) (isImm (Operands MI 2))))
    (report_fatal_instr_problem (getName MCII opcode)
       "Second and third  operand should be immediate.") ;;
  reg0 <- getReg (Operands MI 0) ;;
  match reg0 with
  | Z80.IX => emitByte 0xdd
  | Z80.IY => emitByte 0xfd
  | _ => report_fatal_instr_problem (getName MCII opcode) "Allowed registers are IX, IY."
  end ;;
  emitByte 0x36 ;;
  imm1 <- getImm (Operands MI 1) ;; emitByte imm1 ;;
  imm2 <- getImm (Operands MI 2) ;; emitByte imm2.

(** [case Z80::LD8pg] *)
Definition case_LD8pg : M unit :=
  check_num_operands (getName MCII opcode) 2 numOperands ;;
  when (notM (andM (isReg (Operands MI 0)) (isReg (Operands MI 1))))
    (report_fatal_instr_problem (getName MCII opcode) "Both operands should be registers.") ;;
  reg0 <- getReg (Operands MI 0) ;;
  match reg0 with
  | Z80.HL =>
      reg1 <- getReg (Operands MI 1) ;;
      match reg1 with
      | Z80.A => emitByte 0x77
      | Z80.B => emitByte 0x70
      | Z80.C => emitByte 0x71
      | Z80.D => emitByte 0x72
      | Z80.E => emitByte 0x73
      | Z80.H => emitByte 0x74
      | Z80.L => emitByte 0x75
      | Z80.IXH =>
          emitByte 0xd5 ;; (* PUSH DE *)
          emitByte 0xdd ;;
          emitByte 0xe5 ;; (* PUSH IX *)
          emitByte 0xd1 ;; (* POP DE *)
          emitByte 0x72 ;; (* LD (HL), D *)
          emitByte 0xd1 (* POP DE *)
      | Z80.IXL =>
          emitByte 0xd5 ;; (* PUSH DE *)
          emitByte 0xdd ;;
          emitByte 0xe5 ;; (* PUSH IX *)
          emitByte 0xd1 ;; (* POP DE *)
          emitByte 0x73 ;; (* LD (HL), E *)
          emitByte 0xd1 (* POP DE *)
      | Z80.IYH =>
          emitByte 0xd5 ;; (* PUSH DE *)
          emitByte 0xfd ;;
          emitByte 0xe5 ;; (* PUSH IY *)
          emitByte 0xd1 ;; (* POP DE *)
          emitByte 0x72 ;; (* LD (HL), D *)
          emitByte 0xd1 (* POP DE *)
      | Z80.IYL =>
          emitByte 0xd5 ;; (* PUSH DE *)
          emitByte 0xfd ;;
          emitByte 0xe5 ;; (* PUSH IY *)
          emitByte 0xd1 ;; (* POP DE *)
          emitByte 0x73 ;; (* LD (HL), E *)
          emitByte 0xd1 (* POP DE *)
      | _ =>
          report_fatal_instr_problem (getName MCII opcode)
            "Allowed first operand registers are A, B, C, D, E, H, L."
      end
  | Z80.IX =>
      reg1 <- getReg (Operands MI 1) ;;
      match reg1 with
      | Z80.A =>
          emitByte 0xdd ;;
          emitByte 0x77 ;;
          emitByte 0x00
      | Z80.B =>
          emitByte 0xdd ;;
          emitByte 0x70 ;;
          emitByte 0x00
      | Z80.C =>
          emitByte 0xdd ;;
          emitByte 0x71 ;;
          emitByte 0x00
      | Z80.D =>
          emitByte 0xdd ;;
          emitByte 0x72 ;;
          emitByte 0x00
      | Z80.E =>
          emitByte 0xdd ;;
          emitByte 0x73 ;;
          emitByte 0x00
      | Z80.H =>
          emitByte 0xdd ;;
          emitByte 0x74 ;;
          emitByte 0x00
      | Z80.L =>
          emitByte 0xdd ;;
          emitByte 0x75 ;;
          emitByte 0x00
      | Z80.IXH =>
          emitByte 0xd5 ;; (* PUSH DE *)
          emitByte 0xdd ;;
          emitByte 0xe5 ;; (* PUSH IX *)
          emitByte 0xd1 ;; (* POP DE *)
          emitByte 0xdd ;;
          emitByte 0x72 ;;
          emitByte 0x00 ;; (* LD (IX+0), D *)
          emitByte 0xd1 (* POP DE *)
      | Z80.IXL =>
          emitByte 0xd5 ;; (* PUSH DE *)
          emitByte 0xdd ;;
          emitByte 0xe5 ;; (* PUSH IX *)
          emitByte 0xd1 ;; (* POP DE *)
          emitByte 0xdd ;;
          emitByte 0x73 ;;
          emitByte 0x00 ;; (* LD (IX+0), E *)
          emitByte 0xd1 (* POP DE *)
      | Z80.IYH =>
          emitByte 0xd5 ;; (* PUSH DE *)
          emitByte 0xfd ;;
          emitByte 0xe5 ;; (* PUSH IY *)
          emitByte 0xd1 ;; (* POP DE *)
          emitByte 0xdd ;;
          emitByte 0x72 ;;
          emitByte 0x00 ;; (* LD (IX+0), D *)
          emitByte 0xd1 (* POP DE *)
      | Z80.IYL =>
          emitByte 0xd5 ;; (* PUSH DE *)
          emitByte 0xfd ;;
          emitByte 0xe5 ;; (* PUSH IY *)
          emitByte 0xd1 ;; (* POP DE *)
          emitByte 0xdd ;;
          emitByte 0x73 ;;
          emitByte 0x00 ;; (* LD (IX+0), E *)
          emitByte 0xd1 (* POP DE *)
      | _ =>
          report_fatal_instr_problem (getName MCII opcode)
            "Allowed first operand registers are A, B, C, D, E, H, L."
      end
  | Z80.IY =>
      reg1 <- getReg (Operands MI 1) ;;
      match reg1 with
      | Z80.A =>
          emitByte 0xfd ;;
          emitByte 0x77 ;;
          emitByte 0x00
      | Z80.B =>
          emitByte 0xfd ;;
          emitByte 0x70 ;;
          emitByte 0x00
      | Z80.C =>
          emitByte 0xfd ;;
          emitByte 0x71 ;;
          emitByte 0x00
      | Z80.D =>
          emitByte 0xfd ;;
          emitByte 0x72 ;;
          emitByte 0x00
      | Z80.E =>
          emitByte 0xfd ;;
          emitByte 0x73 ;;
          emitByte 0x00
      | Z80.H =>
          emitByte 0xfd ;;
          emitByte 0x74 ;;
          emitByte 0x00
      | Z80.L =>
          emitByte 0xfd ;;
          emitByte 0x75 ;;
          emitByte 0x00
      | Z80.IXH =>
          emitByte 0xd5 ;; (* PUSH DE *)
          emitByte 0xdd ;;
          emitByte 0xe5 ;; (* PUSH IX *)
          emitByte 0xd1 ;; (* POP DE *)
          emitByte 0xfd ;;
          emitByte 0x72 ;;
          emitByte 0x00 ;; (* LD (IY+0), D *)
          emitByte 0xd1 (* POP DE *)
      | Z80.IXL =>
          emitByte 0xd5 ;; (* PUSH DE *)
          emitByte 0xdd ;;
          emitByte 0xe5 ;; (* PUSH IX *)
          emitByte 0xd1 ;; (* POP DE *)
          emitByte 0xfd ;;
          emitByte 0x73 ;;
          emitByte 0x00 ;; (* LD (IY+0), E *)
          emitByte 0xd1 (* POP DE *)
      | Z80.IYH =>
          emitByte 0xd5 ;; (* PUSH DE *)
          emitByte 0xfd ;;
          emitByte 0xe5 ;; (* PUSH IY *)
          emitByte 0xd1 ;; (* POP DE *)
          emitByte 0xfd ;;
          emitByte 0x72 ;;
          emitByte 0x00 ;; (* LD (IY+0), D *)
          emitByte 0xd1 (* POP DE *)
      | Z80.IYL =>
          emitByte 0xd5 ;; (* PUSH DE *)
          emitByte 0xfd ;;
          emitByte 0xe5 ;; (* PUSH IY *)
          emitByte 0xd1 ;; (* POP DE *)
          emitByte 0xfd ;;
          emitByte 0x73 ;;
          emitByte 0x00 ;; (* LD (IY+0), E *)
          emitByte 0xd1 (* POP DE *)
      | _ =>
          report_fatal_instr_problem (getName MCII opcode)
            "Allowed first operand registers are A, B, C, D, E, H, L."
      end
  | _ => report_fatal_instr_problem (getName MCII opcode) "Allowed registers are HL, IX, IY."
  end.

(** [case Z80::LD8ri] *)
Definition case_LD8ri : M unit :=
  check_num_operands (getName MCII opcode) 2 numOperands ;;
  when (notM (isReg (Operands MI 0)))
    (report_fatal_instr_problem (getName MCII opcode) "First operand should be register.") ;;
  when (notM (isImm (Operands MI 1)))
    (report_fatal_instr_problem (getName MCII opcode) "Second operand should be immediate.") ;;
  reg0 <- getReg (Operands MI 0) ;;
  match reg0 with
  | Z80.A =>
      emitByte 0x3e ;;
      imm1 <- getImm (Operands MI 1) ;; emitByte imm1
  | Z80.B =>
      emitByte 0x06 ;;
      imm1 <- getImm (Operands MI 1) ;; emitByte imm1
  | Z80.C =>
      emitByte 0x0e ;;
      imm1 <- getImm (Operands MI 1) ;; emitByte imm1
  | Z80.D =>
      emitByte 0x16 ;;
      imm1 <- getImm (Operands MI 1) ;; emitByte imm1
  | Z80.E =>
      emitByte 0x1e ;;
      imm1 <- getImm (Operands MI 1) ;; emitByte imm1
  | Z80.H =>
      emitByte 0x26 ;;
      imm1 <- getImm (Operands MI 1) ;; emitByte imm1
  | Z80.L =>
      emitByte 0x2e ;;
      imm1 <- getImm (Operands MI 1) ;; emitByte imm1
  | Z80.IXH =>
      emitByte 0xe5 ;; (* PUSH HL *)
      emitByte 0xdd ;;
      emitByte 0xe5 ;; (* PUSH IX *)
      emitByte 0xe1 ;; (* POP HL *)
      emitByte 0x26 ;;
      imm1 <- getImm (Operands MI 1) ;; emitByte imm1 ;; (* LD H, Imm *)
      emitByte 0xe5 ;; (* PUSH HL *)
      emitByte 0xdd ;;
      emitByte 0xe1 ;; (* POP IX *)
      emitByte 0xe1 (* POP HL *)
  | Z80.IXL =>
      emitByte 0xe5 ;; (* PUSH HL *)
      emitByte 0xdd ;;
      emitByte 0xe5 ;; (* PUSH IX *)
      emitByte 0xe1 ;; (* POP HL *)
      emitByte 0x2e ;;
      imm1 <- getImm (Operands MI 1) ;; emitByte imm1 ;; (* LD L, Imm *)
      emitByte 0xe5 ;; (* PUSH HL *)
      emitByte 0xdd ;;
      emitByte 0xe1 ;; (* POP IX *)
      emitByte 0xe1 (* POP HL *)
  | Z80.IYH =>
      emitByte 0xe5 ;; (* PUSH HL *)
      emitByte 0xfd ;;
      emitByte 0xe5 ;; (* PUSH IY *)
      emitByte 0xe1 ;; (* POP HL *)
      emitByte 0x26 ;;
      imm1 <- getImm (Operands MI 1) ;; emitByte imm1 ;; (* LD H, Imm *)
      emitByte 0xe5 ;; (* PUSH HL *)
      emitByte 0xfd ;;
      emitByte 0xe1 ;; (* POP IY *)
      emitByte 0xe1 (* POP HL *)
  | Z80.IYL =>
      emitByte 0xe5 ;; (* PUSH HL *)
      emitByte 0xfd ;;
      emitByte 0xe5 ;; (* PUSH IY *)
      emitByte 0xe1 ;; (* POP HL *)
      emitByte 0x2e ;;
      imm1 <- getImm (Operands MI 1) ;; emitByte imm1 ;; (* LD L, Imm *)
      emitByte 0xe5 ;; (* PUSH HL *)
      emitByte 0xfd ;;
      emitByte 0xe1 ;; (* POP IY *)
      emitByte 0xe1 (* POP HL *)
  | _ =>
      report_fatal_instr_problem (getName MCII opcode)
        "Allowed first operand registers are A, B, C, D, E, H, L."
  end.

(** [case Z80::LD8pi] *)
Definition case_LD8pi : M unit :=
  check_num_operands (getName MCII opcode) 2 numOperands ;;
  when (notM (isReg (Operands MI 0)))
    (report_fatal_instr_problem (getName MCII opcode) "First operand should be register.") ;;
  when (notM (isImm (Operands MI 1)))
    (report_fatal_instr_problem (getName MCII opcode) "Second operand should be immediate.") ;;
  reg0 <- getReg (Operands MI 0) ;;
  match reg0 with
  | Z80.HL => emitByte 0x36
  | Z80.IX =>
      emitByte 0xdd ;;
      emitByte 0x36 ;;
      emitByte 0x00
  | Z80.IY =>
      emitByte 0xfd ;;
      emitByte 0x36 ;;
      emitByte 0x00
  | _ => report_fatal_instr_problem (getName MCII opcode) "Allowed registers are HL, IX, IY."
  end ;;
  imm1 <- getImm (Operands MI 1) ;; emitByte imm1.

(** [case Z80::LDD16] *)
Definition case_LDD16 : M unit :=
  check_num_operands (getName MCII opcode) 0 numOperands ;;
  emitByte 0xed ;;
  emitByte 0xa8.

(** [case Z80::LDDR16] *)
Definition case_LDDR16 : M unit :=
  check_num_operands (getName MCII opcode) 0 numOperands ;;
  emitByte 0xed ;;
  emitByte 0xb8.

(** [case Z80::LDI16] *)
Definition case_LDI16 : M unit :=
  check_num_operands (getName MCII opcode) 0 numOperands ;;
  emitByte 0xed ;;
  emitByte 0xa0.

(** [case Z80::LDIR16] *)
Definition case_LDIR16 : M unit :=
  check_num_operands (getName MCII opcode) 0 numOperands ;;
  emitByte 0xed ;;
  emitByte 0xb0.

(** [case Z80::LEA16ro] *)
Definition case_LEA16ro : M unit :=
  check_num_operands (getName MCII opcode) 3 numOperands ;;
  when (notM (andM (isReg (Operands MI 0)) (isReg (Operands MI 1))))
    (report_fatal_instr_problem (getName MCII opcode) "First two operands should be registers.") ;;
  when (notM (isImm (Operands MI 2)))
    (report_fatal_instr_problem (getName MCII opcode) "Third operand should be immediate.") ;;
  emitByte 0xf5 ;; (* PUSH AF *)
  when (reg0 <- getReg (Operands MI 0) ;; ret (negb (Z80.Register_eqb Z80.BC reg0)))
    (emitByte 0xc5 (* PUSH BC *)) ;;
  emitByte 0x06 ;;
  emitByte 0x00 ;; (* LD B, 0 *)
  emitByte 0x0e ;;
  imm2 <- getImm (Operands MI 2) ;; emitByte imm2 ;; (* LD C, Imm *)
  reg1 <- getReg (Operands MI 1) ;;
  match reg1 with
  | Z80.IX =>
      when (reg0 <- getReg (Operands MI 0) ;; reg1 <- getReg (Operands MI 1) ;; ret (negb (Z80.Register_eqb reg0 reg1)))
        (emitByte 0xdd ;;
         emitByte 0xe5 (* PUSH IX *)) ;;
      emitByte 0xdd ;;
      emitByte 0x09 ;; (* ADD IX, BC *)
      when (reg0 <- getReg (Operands MI 0) ;; reg1 <- getReg (Operands MI 1) ;; ret (negb (Z80.Register_eqb reg0 reg1)))
        (emitByte 0xdd ;;
         emitByte 0xe5 (* PUSH IX *))
  | Z80.IY =>
      when (reg0 <- getReg (Operands MI 0) ;; reg1 <- getReg (Operands MI 1) ;; ret (negb (Z80.Register_eqb reg0 reg1)))
        (emitByte 0xfd ;;
         emitByte 0xe5 (* PUSH IY *)) ;;
      emitByte 0xfd ;;
      emitByte 0x09 ;; (* ADD IY, BC *)
      when (reg0 <- getReg (Operands MI 0) ;; reg1 <- getReg (Operands MI 1) ;; ret (negb (Z80.Register_eqb reg0 reg1)))
        (emitByte 0xfd ;;
         emitByte 0xe5 (* PUSH IY *))
  | _ =>
      report_fatal_instr_problem (getName MCII opcode)
        "Allowed registers in the second operand are IX, IY."
  end ;;
  when (reg0 <- getReg (Operands MI 0) ;; reg1 <- getReg (Operands MI 1) ;; ret (negb (Z80.Register_eqb reg0 reg1)))
    (reg0 <- getReg (Operands MI 0) ;;
     match reg0 with
     | Z80.BC => emitByte 0xc1 (* POP BC *)
     | Z80.DE => emitByte 0xd1 (* POP DE *)
     | Z80.HL => emitByte 0xe1 (* POP HL *)
     | Z80.IX =>
         emitByte 0xdd ;;
         emitByte 0xe1 (* POP IX *)
     | Z80.IY =>
         emitByte 0xfd ;;
         emitByte 0xe1 (* POP IY *)
     | _ =>
         report_fatal_instr_problem (getName MCII opcode)
           "Allowed registers in the first operand are BC, DE, HL, IX, IY."
     end ;;
     reg1 <- getReg (Operands MI 1) ;;
     match reg1 with
     | Z80.IX =>
         emitByte 0xdd ;;
         emitByte 0xe1 (* POP IX *)
     | Z80.IY =>
         emitByte 0xfd ;;
         emitByte 0xe1 (* POP IY *)
     | _ =>
         report_fatal_instr_problem (getName MCII opcode)
           "Allowed registers in the second operand are IX, IY."
     end) ;;
  when (reg0 <- getReg (Operands MI 0) ;; ret (negb (Z80.Register_eqb Z80.BC reg0)))
    (emitByte 0xc1 (* POP BC *)) ;;
  emitByte 0xf1 (* POP AF *).

(** [case Z80::NEG] *)
Definition case_NEG : M unit :=
  check_num_operands (getName MCII opcode) 0 numOperands ;;
  emitByte 0xed ;;
  emitByte 0x44.

(** [case Z80::NOP] *)
Definition case_NOP : M unit :=
  check_num_operands (getName MCII opcode) 0 numOperands ;;
  emitByte 0x00.

(** [case Z80::OR8ai] *)
Definition case_OR8ai : M unit :=
  check_num_operands (getName MCII opcode) 1 numOperands ;;
  when (notM (isImm (Operands MI 0)))
    (report_fatal_instr_problem (getName MCII opcode) "Operand should be immediate.") ;;
  emitByte 0xf6 ;;
  imm0 <- getImm (Operands MI 0) ;; emitByte imm0.

(** [case Z80::OR8ao] *)
Definition case_OR8ao : M unit :=
  check_num_operands (getName MCII opcode) 2 numOperands ;;
  when (notM (isReg (Operands MI 0)))
    (report_fatal_instr_problem (getName MCII opcode) "First operand should be register.") ;;
  when (notM (isImm (Operands MI 1)))
    (report_fatal_instr_problem (getName MCII opcode) "Second operand should be immediate.") ;;
  reg0 <- getReg (Operands MI 0) ;;
  match reg0 with
  | Z80.IX => emitByte 0xdd
  | Z80.IY => emitByte 0xfd
  | _ => report_fatal_instr_problem (getName MCII opcode) "Allowed registers are IX, IY."
  end ;;
  emitByte 0xb6 ;;
  imm1 <- getImm (Operands MI 1) ;; emitByte imm1.

(** [case Z80::OR8ap] *)
Definition case_OR8ap : M unit :=
  check_num_operands (getName MCII opcode) 1 numOperands ;;
  when (notM (isReg (Operands MI 0)))
    (report_fatal_instr_problem (getName MCII opcode) "Operand should be register.") ;;
  reg0 <- getReg (Operands MI 0) ;;
  match reg0 with
  | Z80.HL => ret tt
  | _ => report_fatal_instr_problem (getName MCII opcode) "The only allowed register is HL."
  end ;;
  emitByte 0xb6.

(** [case Z80::OR8ar] *)
Definition case_OR8ar : M unit :=
  check_num_operands (getName MCII opcode) 1 numOperands ;;
  when (notM (isReg (Operands MI 0)))
    (report_fatal_instr_problem (getName MCII opcode) "Operand should be register.") ;;
  reg0 <- getReg (Operands MI 0) ;;
  match reg0 with
  | Z80.A => emitByte 0xb7
  | Z80.B => emitByte 0xb0
  | Z80.C => emitByte 0xb1
  | Z80.D => emitByte 0xb2
  | Z80.E => emitByte 0xb3
  | Z80.H => emitByte 0xb4
  | Z80.L => emitByte 0xb5
  | Z80.IXH =>
      emitByte 0xe5 ;; (* PUSH HL *)
      emitByte 0xdd ;;
      emitByte 0xe5 ;; (* PUSH IX *)
      emitByte 0xe1 ;; (* POP HL *)
      emitByte 0xb4 ;; (* OR A, H *)
      emitByte 0xe1 (* POP HL *)
  | Z80.IXL =>
      emitByte 0xe5 ;; (* PUSH HL *)
      emitByte 0xdd ;;
      emitByte 0xe5 ;; (* PUSH IX *)
      emitByte 0xe1 ;; (* POP HL *)
      emitByte 0xb5 ;; (* OR A, L *)
      emitByte 0xe1 (* POP HL *)
  | Z80.IYH =>
      emitByte 0xe5 ;; (* PUSH HL *)
      emitByte 0xfd ;;
      emitByte 0xe5 ;; (* PUSH IY *)
      emitByte 0xe1 ;; (* POP HL *)
      emitByte 0xb4 ;; (* OR A, H *)
      emitByte 0xe1 (* POP HL *)
  | Z80.IYL =>
      emitByte 0xe5 ;; (* PUSH HL *)
      emitByte 0xfd ;;
      emitByte 0xe5 ;; (* PUSH IY *)
      emitByte 0xe1 ;; (* POP HL *)
      emitByte 0xb5 ;; (* OR A, L *)
      emitByte 0xe1 (* POP HL *)
  | _ =>
      report_fatal_instr_problem (getName MCII opcode) "Allowed register are A, B, C, D, E, H, L."
  end.

(** [case Z80::OUTD16] *)
Definition case_OUTD16 : M unit :=
  check_num_operands (getName MCII opcode) 0 numOperands ;;
  emitByte 0xed ;;
  emitByte 0xab.

(** [case Z80::OUTDR16] *)
Definition case_OUTDR16 : M unit :=
  check_num_operands (getName MCII opcode) 0 numOperands ;;
  emitByte 0xed ;;
  emitByte 0xbb.

(** [case Z80::OUTI16] *)
Definition case_OUTI16 : M unit :=
  check_num_operands (getName MCII opcode) 0 numOperands ;;
  emitByte 0xed ;;
  emitByte 0xa3.

(** [case Z80::OUTIR16] *)
Definition case_OUTIR16 : M unit :=
  check_num_operands (getName MCII opcode) 0 numOperands ;;
  emitByte 0xed ;;
  emitByte 0xb3.

(** [case Z80::POP16AF] *)
Definition case_POP16AF : M unit :=
  check_num_operands (getName MCII opcode) 0 numOperands ;;
  emitByte 0xf1.

(** [case Z80::POP16r] *)
Definition case_POP16r : M unit :=
  check_num_operands (getName MCII opcode) 1 numOperands ;;
  when (notM (isReg (Operands MI 0)))
    (report_fatal_instr_problem (getName MCII opcode) "Operand should be register.") ;;
  reg0 <- getReg (Operands MI 0) ;;
  match reg0 with
  | Z80.BC => emitByte 0xc1
  | Z80.DE => emitByte 0xd1
  | Z80.HL => emitByte 0xe1
  | Z80.IX =>
      emitByte 0xdd ;;
      emitByte 0xe1
  | Z80.IY =>
      emitByte 0xfd ;;
      emitByte 0xe1
  | _ =>
      report_fatal_instr_problem (getName MCII opcode) "Allowed registers are BC, DE, HL, IX, IY."
  end.

(** [case Z80::PUSH16AF] *)
Definition case_PUSH16AF : M unit :=
  check_num_operands (getName MCII opcode) 0 numOperands ;;
  emitByte 0xf5.

(** [case Z80::PUSH16r] *)
Definition case_PUSH16r : M unit :=
  check_num_operands (getName MCII opcode) 1 numOperands ;;
  when (notM (isReg (Operands MI 0)))
    (report_fatal_instr_problem (getName MCII opcode) "Operand should be register.") ;;
  reg0 <- getReg (Operands MI 0) ;;
  match reg0 with
  | Z80.BC => emitByte 0xc5
  | Z80.DE => emitByte 0xd5
  | Z80.HL => emitByte 0xe5
  | Z80.IX =>
      emitByte 0xdd ;;
      emitByte 0xe5
  | Z80.IY =>
      emitByte 0xfd ;;
      emitByte 0xe5
  | _ =>
      report_fatal_instr_problem (getName MCII opcode) "Allowed registers are BC, DE, HL, IX, IY."
  end.

(** [case Z80::RES8bg] *)
Definition case_RES8bg : M unit :=
  check_num_operands (getName MCII opcode) 2 numOperands ;;
  when (notM (isImm (Operands MI 0)))
    (report_fatal_instr_problem (getName MCII opcode) "First operand should be immediate.") ;;
  when (imm0 <- getImm (Operands MI 0) ;; ret (8 <=? uint8_t imm0))
    (report_fatal_instr_problem (getName MCII opcode) "First operand should be in range 0..7.") ;;
  when (notM (isReg (Operands MI 1)))
    (report_fatal_instr_problem (getName MCII opcode) "Second operand should be register.") ;;
  reg1 <- getReg (Operands MI 1) ;;
  match reg1 with
  | Z80.A =>
      emitByte 0xcb ;;
      imm0 <- getImm (Operands MI 0) ;; emitByte (Z.lor (Z.shiftl (uint8_t imm0) 3) 0x87)
  | Z80.B =>
      emitByte 0xcb ;;
      imm0 <- getImm (Operands MI 0) ;; emitByte (Z.lor (Z.shiftl (uint8_t imm0) 3) 0x80)
  | Z80.C =>
      emitByte 0xcb ;;
      imm0 <- getImm (Operands MI 0) ;; emitByte (Z.lor (Z.shiftl (uint8_t imm0) 3) 0x81)
  | Z80.D =>
      emitByte 0xcb ;;
      imm0 <- getImm (Operands MI 0) ;; emitByte (Z.lor (Z.shiftl (uint8_t imm0) 3) 0x82)
  | Z80.E =>
      emitByte 0xcb ;;
      imm0 <- getImm (Operands MI 0) ;; emitByte (Z.lor (Z.shiftl (uint8_t imm0) 3) 0x83)
  | Z80.H =>
      emitByte 0xcb ;;
      imm0 <- getImm (Operands MI 0) ;; emitByte (Z.lor (Z.shiftl (uint8_t imm0) 3) 0x84)
  | Z80.L =>
      emitByte 0xcb ;;
      imm0 <- getImm (Operands MI 0) ;; emitByte (Z.lor (Z.shiftl (uint8_t imm0) 3) 0x85)
  | Z80.IXH =>
      emitByte 0xe5 ;; (* PUSH HL *)
      emitByte 0xdd ;;
      emitByte 0xe5 ;; (* PUSH IX *)
      emitByte 0xe1 ;; (* POP HL *)
      emitByte 0xcb ;;
      imm0 <- getImm (Operands MI 0) ;; emitByte (Z.lor (Z.shiftl (uint8_t imm0) 3) 0x84) ;; (* RESn A, H *)
      emitByte 0xe1 (* POP HL *)
  | Z80.IXL =>
      emitByte 0xe5 ;; (* PUSH HL *)
      emitByte 0xdd ;;
      emitByte 0xe5 ;; (* PUSH IX *)
      emitByte 0xe1 ;; (* POP HL *)
      emitByte 0xcb ;;
      imm0 <- getImm (Operands MI 0) ;; emitByte (Z.lor (Z.shiftl (uint8_t imm0) 3) 0x85) ;; (* RESn A, L *)
      emitByte 0xe1 (* POP HL *)
  | Z80.IYH =>
      emitByte 0xe5 ;; (* PUSH HL *)
      emitByte 0xfd ;;
      emitByte 0xe5 ;; (* PUSH IY *)
      emitByte 0xe1 ;; (* POP HL *)
      emitByte 0xcb ;;
      imm0 <- getImm (Operands MI 0) ;; emitByte (Z.lor (Z.shiftl (uint8_t imm0) 3) 0x84) ;; (* RESn A, H *)
      emitByte 0xe1 (* POP HL *)
  | Z80.IYL =>
      emitByte 0xe5 ;; (* PUSH HL *)
      emitByte 0xfd ;;
      emitByte 0xe5 ;; (* PUSH IY *)
      emitByte 0xe1 ;; (* POP HL *)
      emitByte 0xcb ;;
      imm0 <- getImm (Operands MI 0) ;; emitByte (Z.lor (Z.shiftl (uint8_t imm0) 3) 0x85) ;; (* RESn A, L *)
      emitByte 0xe1 (* POP HL *)
  | _ =>
      report_fatal_instr_problem (getName MCII opcode) "Allowed register are A, B, C, D, E, H, L."
  end.

(** [case Z80::RES8bo] *)
Definition case_RES8bo : M unit :=
  check_num_operands (getName MCII opcode) 3 numOperands ;;
  when (notM (isImm (Operands MI 0)))
    (report_fatal_instr_problem (getName MCII opcode) "First operand should be immediate.") ;;
  when (imm0 <- getImm (Operands MI 0) ;; ret (8 <=? uint8_t imm0))
    (report_fatal_instr_problem (getName MCII opcode) "First operand should be in range 0..7.") ;;
  when (notM (isReg (Operands MI 1)))
    (report_fatal_instr_problem (getName MCII opcode) "Second operand should be register.") ;;
  when (notM (isImm (Operands MI 2)))
    (report_fatal_instr_problem (getName MCII opcode) "Third operand should be immediate.") ;;
  reg1 <- getReg (Operands MI 1) ;;
  match reg1 with
  | Z80.IX => emitByte 0xdd
  | Z80.IY => emitByte 0xfd
  | _ => report_fatal_instr_problem (getName MCII opcode) "Allowed registers are IX, IY."
  end ;;
  emitByte 0xcb ;;
  imm2 <- getImm (Operands MI 2) ;; emitByte imm2 ;;
  imm0 <- getImm (Operands MI 0) ;; emitByte (Z.lor (Z.shiftl (uint8_t imm0) 3) 0x86).

(** [case Z80::RES8bp] *)
Definition case_RES8bp : M unit :=
  check_num_operands (getName MCII opcode) 2 numOperands ;;
  when (notM (isImm (Operands MI 0)))
    (report_fatal_instr_problem (getName MCII opcode) "First operand should be immediate.") ;;
  when (imm0 <- getImm (Operands MI 0) ;; ret (8 <=? uint8_t imm0))
    (report_fatal_instr_problem (getName MCII opcode) "First operand should be in range 0..7.") ;;
  when (notM (isReg (Operands MI 1)))
    (report_fatal_instr_problem (getName MCII opcode) "Second operand should be register.") ;;
  reg1 <- getReg (Operands MI 1) ;;
  match reg1 with
  | Z80.HL => ret tt
  | _ => report_fatal_instr_problem (getName MCII opcode) "The only allowed register is HL."
  end ;;
  emitByte 0xcb ;;
  imm0 <- getImm (Operands MI 0) ;; emitByte (Z.lor (Z.shiftl (uint8_t imm0) 3) 0x86).

(** [case Z80::RET16] *)
Definition case_RET16 : M unit :=
  check_num_operands (getName MCII opcode) 0 numOperands ;;
  emitByte 0xc9.

(** [case Z80::RET16CC] *)
Definition case_RET16CC : M unit :=
  check_num_operands (getName MCII opcode) 1 numOperands ;;
  when (notM (isImm (Operands MI 0)))
    (report_fatal_instr_problem (getName MCII opcode) "Operand should be immediate.") ;;
  when (imm0 <- getImm (Operands MI 0) ;; ret (8 <=? uint8_t imm0))
    (report_fatal_instr_problem (getName MCII opcode) "Operand should be in range 0..7.") ;;
  imm0 <- getImm (Operands MI 0) ;; emitByte (Z.lor (Z.shiftl (uint8_t imm0) 3) 0xc0).

(** [case Z80::RETI16] *)
Definition case_RETI16 : M unit :=
  check_num_operands (getName MCII opcode) 0 numOperands ;;
  emitByte 0xed ;;
  emitByte 0x4d.

(** [case Z80::RETN16] *)
Definition case_RETN16 : M unit :=
  check_num_operands (getName MCII opcode) 0 numOperands ;;
  emitByte 0xed ;;
  emitByte 0x45.

(** [case Z80::RL8o] *)
Definition case_RL8o : M unit :=
  check_num_operands (getName MCII opcode) 2 numOperands ;;
  when (notM (isReg (Operands MI 0)))
    (report_fatal_instr_problem (getName MCII opcode) "First operand should be register.") ;;
  when (notM (isImm (Operands MI 1)))
    (report_fatal_instr_problem (getName MCII opcode) "Second operand should be immediate.") ;;
  reg0 <- getReg (Operands MI 0) ;;
  match reg0 with
  | Z80.IX => emitByte 0xdd
  | Z80.IY => emitByte 0xfd
  | _ => report_fatal_instr_problem (getName MCII opcode) "Allowed registers are IX, IY."
  end ;;
  emitByte 0xcb ;;
  imm1 <- getImm (Operands MI 1) ;; emitByte imm1 ;;
  emitByte 0x16.

(** [case Z80::RL8p] *)
Definition case_RL8p : M unit :=
  check_num_operands (getName MCII opcode) 1 numOperands ;;
  when (notM (isReg (Operands MI 0)))
    (report_fatal_instr_problem (getName MCII opcode) "Operand should be register.") ;;
  reg0 <- getReg (Operands MI 0) ;;
  match reg0 with
  | Z80.HL => ret tt
  | _ => report_fatal_instr_problem (getName MCII opcode) "The only allowed register is HL."
  end ;;
  emitByte 0xcb ;;
  emitByte 0x16.

(** [case Z80::RL8r] *)
Definition case_RL8r : M unit :=
  when (ret (numOperands =? 0)%nat)
    (report_fatal_instr_problem (getName MCII opcode) "Operand missing.") ;;
  when (notM (isReg (Operands MI 0)))
    (report_fatal_instr_problem (getName MCII opcode) "An operand should be an register.") ;;
  reg0 <- getReg (Operands MI 0) ;;
  match reg0 with
  | Z80.A =>
      emitByte 0xcb ;;
      emitByte 0x17
  | Z80.B =>
      emitByte 0xcb ;;
      emitByte 0x10
  | Z80.C =>
      emitByte 0xcb ;;
      emitByte 0x11
  | Z80.D =>
      emitByte 0xcb ;;
      emitByte 0x12
  | Z80.E =>
      emitByte 0xcb ;;
      emitByte 0x13
  | Z80.H =>
      emitByte 0xcb ;;
      emitByte 0x14
  | Z80.L =>
      emitByte 0xcb ;;
      emitByte 0x15
  | Z80.IXH =>
      emitByte 0xe5 ;; (* PUSH HL *)
      emitByte 0xdd ;;
      emitByte 0xe5 ;; (* PUSH IX *)
      emitByte 0xe1 ;; (* POP HL *)
      emitByte 0xcb ;;
      emitByte 0x14 ;; (* RL H *)
      emitByte 0xe5 ;; (* PUSH HL *)
      emitByte 0xdd ;;
      emitByte 0xe1 ;; (* POP IX *)
      emitByte 0xe1 (* POP HL *)
  | Z80.IXL =>
      emitByte 0xe5 ;; (* PUSH HL *)
      emitByte 0xdd ;;
      emitByte 0xe5 ;; (* PUSH IX *)
      emitByte 0xe1 ;; (* POP HL *)
      emitByte 0xcb ;;
      emitByte 0x15 ;; (* RL L *)
      emitByte 0xe5 ;; (* PUSH HL *)
      emitByte 0xdd ;;
      emitByte 0xe1 ;; (* POP IX *)
      emitByte 0xe1 (* POP HL *)
  | Z80.IYH =>
      emitByte 0xe5 ;; (* PUSH HL *)
      emitByte 0xfd ;;
      emitByte 0xe5 ;; (* PUSH IY *)
      emitByte 0xe1 ;; (* POP HL *)
      emitByte 0xcb ;;
      emitByte 0x14 ;; (* RL H *)
      emitByte 0xe5 ;; (* PUSH HL *)
      emitByte 0xfd ;;
      emitByte 0xe1 ;; (* POP IY *)
      emitByte 0xe1 (* POP HL *)
  | Z80.IYL =>
      emitByte 0xe5 ;; (* PUSH HL *)
      emitByte 0xfd ;;
      emitByte 0xe5 ;; (* PUSH IY *)
      emitByte 0xe1 ;; (* POP HL *)
      emitByte 0xcb ;;
      emitByte 0x15 ;; (* RL L *)
      emitByte 0xe5 ;; (* PUSH HL *)
      emitByte 0xfd ;;
      emitByte 0xe1 ;; (* POP IY *)
      emitByte 0xe1 (* POP HL *)
  | _ =>
      report_fatal_instr_problem (getName MCII opcode) "Allowed register are A, B, C, D, E, H, L."
  end.

(** [case Z80::RLC8o] *)
Definition case_RLC8o : M unit :=
  check_num_operands (getName MCII opcode) 2 numOperands ;;
  when (notM (isReg (Operands MI 0)))
    (report_fatal_instr_problem (getName MCII opcode) "First operand should be register.") ;;
  when (notM (isImm (Operands MI 1)))
    (report_fatal_instr_problem (getName MCII opcode) "Second operand should be immediate.") ;;
  reg0 <- getReg (Operands MI 0) ;;
  match reg0 with
  | Z80.IX => emitByte 0xdd
  | Z80.IY => emitByte 0xfd
  | _ => report_fatal_instr_problem (getName MCII opcode) "Allowed registers are IX, IY."
  end ;;
  emitByte 0xcb ;;
  imm1 <- getImm (Operands MI 1) ;; emitByte imm1 ;;
  emitByte 0x06.

(** [case Z80::RLC8p] *)
Definition case_RLC8p : M unit :=
  check_num_operands (getName MCII opcode) 1 numOperands ;;
  when (notM (isReg (Operands MI 0)))
    (report_fatal_instr_problem (getName MCII opcode) "Operand should be register.") ;;
  reg0 <- getReg (Operands MI 0) ;;
  match reg0 with
  | Z80.HL => ret tt
  | _ => report_fatal_instr_problem (getName MCII opcode) "The only allowed register is HL."
  end ;;
  emitByte 0xcb ;;
  emitByte 0x06.

(** [case Z80::RLC8r] *)
Definition case_RLC8r : M unit :=
  when (ret (numOperands =? 0)%nat)
    (report_fatal_instr_problem (getName MCII opcode) "Operand missing.") ;;
  when (notM (isReg (Operands MI 0)))
    (report_fatal_instr_problem (getName MCII opcode) "An operand should be an register.") ;;
  reg0 <- getReg (Operands MI 0) ;;
  match reg0 with
  | Z80.A =>
      emitByte 0xcb ;;
      emitByte 0x07
  | Z80.B =>
      emitByte 0xcb ;;
      emitByte 0x00
  | Z80.C =>
      emitByte 0xcb ;;
      emitByte 0x01
  | Z80.D =>
      emitByte 0xcb ;;
      emitByte 0x02
  | Z80.E =>
      emitByte 0xcb ;;
      emitByte 0x03
  | Z80.H =>
      emitByte 0xcb ;;
      emitByte 0x04
  | Z80.L =>
      emitByte 0xcb ;;
      emitByte 0x05
  | Z80.IXH =>
      emitByte 0xe5 ;; (* PUSH HL *)
      emitByte 0xdd ;;
      emitByte 0xe5 ;; (* PUSH IX *)
      emitByte 0xe1 ;; (* POP HL *)
      emitByte 0xcb ;;
      emitByte 0x04 ;; (* RLC H *)
      emitByte 0xe5 ;; (* PUSH HL *)
      emitByte 0xdd ;;
      emitByte 0xe1 ;; (* POP IX *)
      emitByte 0xe1 (* POP HL *)
  | Z80.IXL =>
      emitByte 0xe5 ;; (* PUSH HL *)
      emitByte 0xdd ;;
      emitByte 0xe5 ;; (* PUSH IX *)
      emitByte 0xe1 ;; (* POP HL *)
      emitByte 0xcb ;;
      emitByte 0x05 ;; (* RLC L *)
      emitByte 0xe5 ;; (* PUSH HL *)
      emitByte 0xdd ;;
      emitByte 0xe1 ;; (* POP IX *)
      emitByte 0xe1 (* POP HL *)
  | Z80.IYH =>
      emitByte 0xe5 ;; (* PUSH HL *)
      emitByte 0xfd ;;
      emitByte 0xe5 ;; (* PUSH IY *)
      emitByte 0xe1 ;; (* POP HL *)
      emitByte 0xcb ;;
      emitByte 0x04 ;; (* RLC H *)
      emitByte 0xe5 ;; (* PUSH HL *)
      emitByte 0xfd ;;
      emitByte 0xe1 ;; (* POP IY *)
      emitByte 0xe1 (* POP HL *)
  | Z80.IYL =>
      emitByte 0xe5 ;; (* PUSH HL *)
      emitByte 0xfd ;;
      emitByte 0xe5 ;; (* PUSH IY *)
      emitByte 0xe1 ;; (* POP HL *)
      emitByte 0xcb ;;
      emitByte 0x05 ;; (* RLC L *)
      emitByte 0xe5 ;; (* PUSH HL *)
      emitByte 0xfd ;;
      emitByte 0xe1 ;; (* POP IY *)
      emitByte 0xe1 (* POP HL *)
  | _ =>
      report_fatal_instr_problem (getName MCII opcode) "Allowed register are A, B, C, D, E, H, L."
  end.

(** [case Z80::RR8o] *)
Definition case_RR8o : M unit :=
  check_num_operands (getName MCII opcode) 2 numOperands ;;
  when (notM (isReg (Operands MI 0)))
    (report_fatal_instr_problem (getName MCII opcode) "First operand should be register.") ;;
  when (notM (isImm (Operands MI 1)))
    (report_fatal_instr_problem (getName MCII opcode) "Second operand should be immediate.") ;;
  reg0 <- getReg (Operands MI 0) ;;
  match reg0 with
  | Z80.IX => emitByte 0xdd
  | Z80.IY => emitByte 0xfd
  | _ => report_fatal_instr_problem (getName MCII opcode) "Allowed registers are IX, IY."
  end ;;
  emitByte 0xcb ;;
  imm1 <- getImm (Operands MI 1) ;; emitByte imm1 ;;
  emitByte 0x1e.

(** [case Z80::RR8p] *)
Definition case_RR8p : M unit :=
  check_num_operands (getName MCII opcode) 1 numOperands ;;
  when (notM (isReg (Operands MI 0)))
    (report_fatal_instr_problem (getName MCII opcode) "Operand should be register.") ;;
  reg0 <- getReg (Operands MI 0) ;;
  match reg0 with
  | Z80.HL => ret tt
  | _ => report_fatal_instr_problem (getName MCII opcode) "The only allowed register is HL."
  end ;;
  emitByte 0xcb ;;
  emitByte 0x1e.

(** [case Z80::RR8r] *)
Definition case_RR8r : M unit :=
  when (ret (numOperands =? 0)%nat)
    (report_fatal_instr_problem (getName MCII opcode) "Operand missing.") ;;
  when (notM (isReg (Operands MI 0)))
    (report_fatal_instr_problem (getName MCII opcode) "An operand should be an register.") ;;
  reg0 <- getReg (Operands MI 0) ;;
  match reg0 with
  | Z80.A =>
      emitByte 0xcb ;;
      emitByte 0x1f
  | Z80.B =>
      emitByte 0xcb ;;
      emitByte 0x18
  | Z80.C =>
      emitByte 0xcb ;;
      emitByte 0x19
  | Z80.D =>
      emitByte 0xcb ;;
      emitByte 0x1a
  | Z80.E =>
      emitByte 0xcb ;;
      emitByte 0x1b
  | Z80.H =>
      emitByte 0xcb ;;
      emitByte 0x1c
  | Z80.L =>
      emitByte 0xcb ;;
      emitByte 0x1d
  | Z80.IXH =>
      emitByte 0xe5 ;; (* PUSH HL *)
      emitByte 0xdd ;;
      emitByte 0xe5 ;; (* PUSH IX *)
      emitByte 0xe1 ;; (* POP HL *)
      emitByte 0xcb ;;
      emitByte 0x1c ;; (* RR H *)
      emitByte 0xe5 ;; (* PUSH HL *)
      emitByte 0xdd ;;
      emitByte 0xe1 ;; (* POP IX *)
      emitByte 0xe1 (* POP HL *)
  | Z80.IXL =>
      emitByte 0xe5 ;; (* PUSH HL *)
      emitByte 0xdd ;;
      emitByte 0xe5 ;; (* PUSH IX *)
      emitByte 0xe1 ;; (* POP HL *)
      emitByte 0xcb ;;
      emitByte 0x1d ;; (* RR L *)
      emitByte 0xe5 ;; (* PUSH HL *)
      emitByte 0xdd ;;
      emitByte 0xe1 ;; (* POP IX *)
      emitByte 0xe1 (* POP HL *)
  | Z80.IYH =>
      emitByte 0xe5 ;; (* PUSH HL *)
      emitByte 0xfd ;;
      emitByte 0xe5 ;; (* PUSH IY *)
      emitByte 0xe1 ;; (* POP HL *)
      emitByte 0xcb ;;
      emitByte 0x1c ;; (* RR H *)
      emitByte 0xe5 ;; (* PUSH HL *)
      emitByte 0xfd ;;
      emitByte 0xe1 ;; (* POP IY *)
      emitByte 0xe1 (* POP HL *)
  | Z80.IYL =>
      emitByte 0xe5 ;; (* PUSH HL *)
      emitByte 0xfd ;;
      emitByte 0xe5 ;; (* PUSH IY *)
      emitByte 0xe1 ;; (* POP HL *)
      emitByte 0xcb ;;
      emitByte 0x1d ;; (* RR L *)
      emitByte 0xe5 ;; (* PUSH HL *)
      emitByte 0xfd ;;
      emitByte 0xe1 ;; (* POP IY *)
      emitByte 0xe1 (* POP HL *)
  | _ =>
      report_fatal_instr_problem (getName MCII opcode) "Allowed register are A, B, C, D, E, H, L."
  end.

(** [case Z80::RRC8o] *)
Definition case_RRC8o : M unit :=
  check_num_operands (getName MCII opcode) 2 numOperands ;;
  when (notM (isReg (Operands MI 0)))
    (report_fatal_instr_problem (getName MCII opcode) "First operand should be register.") ;;
  when (notM (isImm (Operands MI 1)))
    (report_fatal_instr_problem (getName MCII opcode) "Second operand should be immediate.") ;;
  reg0 <- getReg (Operands MI 0) ;;
  match reg0 with
  | Z80.IX => emitByte 0xdd
  | Z80.IY => emitByte 0xfd
  | _ => report_fatal_instr_problem (getName MCII opcode) "Allowed registers are IX, IY."
  end ;;
  emitByte 0xcb ;;
  imm1 <- getImm (Operands MI 1) ;; emitByte imm1 ;;
  emitByte 0x0e.

(** [case Z80::RRC8p] *)
Definition case_RRC8p : M unit :=
  check_num_operands (getName MCII opcode) 1 numOperands ;;
  when (notM (isReg (Operands MI 0)))
    (report_fatal_instr_problem (getName MCII opcode) "Operand should be register.") ;;
  reg0 <- getReg (Operands MI 0) ;;
  match reg0 with
  | Z80.HL => ret tt
  | _ => report_fatal_instr_problem (getName MCII opcode) "The only allowed register is HL."
  end ;;
  emitByte 0xcb ;;
  emitByte 0x0e.

(** [case Z80::RRC8r] *)
Definition case_RRC8r : M unit :=
  when (ret (numOperands =? 0)%nat)
    (report_fatal_instr_problem (getName MCII opcode) "Operand missing.") ;;
  when (notM (isReg (Operands MI 0)))
    (report_fatal_instr_problem (getName MCII opcode) "An operand should be an register.") ;;
  reg0 <- getReg (Operands MI 0) ;;
  match reg0 with
  | Z80.A =>
      emitByte 0xcb ;;
      emitByte 0x0f
  | Z80.B =>
      emitByte 0xcb ;;
      emitByte 0x08
  | Z80.C =>
      emitByte 0xcb ;;
      emitByte 0x09
  | Z80.D =>
      emitByte 0xcb ;;
      emitByte 0x0a
  | Z80.E =>
      emitByte 0xcb ;;
      emitByte 0x0b
  | Z80.H =>
      emitByte 0xcb ;;
      emitByte 0x0c
  | Z80.L =>
      emitByte 0xcb ;;
      emitByte 0x0d
  | Z80.IXH =>
      emitByte 0xe5 ;; (* PUSH HL *)
      emitByte 0xdd ;;
      emitByte 0xe5 ;; (* PUSH IX *)
      emitByte 0xe1 ;; (* POP HL *)
      emitByte 0xcb ;;
      emitByte 0x0c ;; (* RRC H *)
      emitByte 0xe5 ;; (* PUSH HL *)
      emitByte 0xdd ;;
      emitByte 0xe1 ;; (* POP IX *)
      emitByte 0xe1 (* POP HL *)
  | Z80.IXL =>
      emitByte 0xe5 ;; (* PUSH HL *)
      emitByte 0xdd ;;
      emitByte 0xe5 ;; (* PUSH IX *)
      emitByte 0xe1 ;; (* POP HL *)
      emitByte 0xcb ;;
      emitByte 0x0d ;; (* RRC L *)
      emitByte 0xe5 ;; (* PUSH HL *)
      emitByte 0xdd ;;
      emitByte 0xe1 ;; (* POP IX *)
      emitByte 0xe1 (* POP HL *)
  | Z80.IYH =>
      emitByte 0xe5 ;; (* PUSH HL *)
      emitByte 0xfd ;;
      emitByte 0xe5 ;; (* PUSH IY *)
      emitByte 0xe1 ;; (* POP HL *)
      emitByte 0xcb ;;
      emitByte 0x0c ;; (* RRC H *)
      emitByte 0xe5 ;; (* PUSH HL *)
      emitByte 0xfd ;;
      emitByte 0xe1 ;; (* POP IY *)
      emitByte 0xe1 (* POP HL *)
  | Z80.IYL =>
      emitByte 0xe5 ;; (* PUSH HL *)
      emitByte 0xfd ;;
      emitByte 0xe5 ;; (* PUSH IY *)
      emitByte 0xe1 ;; (* POP HL *)
      emitByte 0xcb ;;
      emitByte 0x0d ;; (* RRC L *)
      emitByte 0xe5 ;; (* PUSH HL *)
      emitByte 0xfd ;;
      emitByte 0xe1 ;; (* POP IY *)
      emitByte 0xe1 (* POP HL *)
  | _ =>
      report_fatal_instr_problem (getName MCII opcode) "Allowed register are A, B, C, D, E, H, L."
  end.

(** [case Z80::SBC16SP] *)
Definition case_SBC16SP : M unit :=
  check_num_operands (getName MCII opcode) 0 numOperands ;;
  emitByte 0xed ;;
  emitByte 0x72.

(** [case Z80::SBC16aa] *)
Definition case_SBC16aa : M unit :=
  check_num_operands (getName MCII opcode) 0 numOperands ;;
  emitByte 0xed ;;
  emitByte 0x62.

(** [case Z80::SBC16ao] *)
Definition case_SBC16ao : M unit :=
  check_num_operands (getName MCII opcode) 1 numOperands ;;
  emitByte 0xed ;;
  when (notM (isReg (Operands MI 0)))
    (report_fatal_instr_problem (getName MCII opcode) "Operand should be register.") ;;
  reg0 <- getReg (Operands MI 0) ;;
  match reg0 with
  | Z80.BC => emitByte 0x42
  | Z80.DE => emitByte 0x52
  | _ => report_fatal_instr_problem (getName MCII opcode) "Allowed registers are BC, DE."
  end.

(** [case Z80::SBC8ai] *)
Definition case_SBC8ai : M unit :=
  check_num_operands (getName MCII opcode) 1 numOperands ;;
  when (notM (isImm (Operands MI 0)))
    (report_fatal_instr_problem (getName MCII opcode) "Operand should be immediate.") ;;
  emitByte 0xde ;;
  imm0 <- getImm (Operands MI 0) ;; emitByte imm0.

(** [case Z80::SBC8ao] *)
Definition case_SBC8ao : M unit :=
  check_num_operands (getName MCII opcode) 2 numOperands ;;
  when (notM (isReg (Operands MI 0)))
    (report_fatal_instr_problem (getName MCII opcode) "First operand should be register.") ;;
  when (notM (isImm (Operands MI 1)))
    (report_fatal_instr_problem (getName MCII opcode) "Second operand should be immediate.") ;;
  reg0 <- getReg (Operands MI 0) ;;
  match reg0 with
  | Z80.IX => emitByte 0xdd
  | Z80.IY => emitByte 0xfd
  | _ => report_fatal_instr_problem (getName MCII opcode) "Allowed registers are IX, IY."
  end ;;
  emitByte 0x9e ;;
  imm1 <- getImm (Operands MI 1) ;; emitByte imm1.

(** [case Z80::SBC8ap] *)
Definition case_SBC8ap : M unit :=
  check_num_operands (getName MCII opcode) 1 numOperands ;;
  when (notM (isReg (Operands MI 0)))
    (report_fatal_instr_problem (getName MCII opcode) "Operand should be register.") ;;
  reg0 <- getReg (Operands MI 0) ;;
  match reg0 with
  | Z80.HL => ret tt
  | _ => report_fatal_instr_problem (getName MCII opcode) "The only allowed register is HL."
  end ;;
  emitByte 0x9e.

(** [case Z80::SBC8ar] *)
Definition case_SBC8ar : M unit :=
  check_num_operands (getName MCII opcode) 1 numOperands ;;
  when (notM (isReg (Operands MI 0)))
    (report_fatal_instr_problem (getName MCII opcode) "Operand should be register.") ;;
  reg0 <- getReg (Operands MI 0) ;;
  match reg0 with
  | Z80.A => emitByte 0x9f
  | Z80.B => emitByte 0x98
  | Z80.C => emitByte 0x99
  | Z80.D => emitByte 0x9a
  | Z80.E => emitByte 0x9b
  | Z80.H => emitByte 0x9c
  | Z80.L => emitByte 0x9d
  | Z80.IXH =>
      emitByte 0xe5 ;; (* PUSH HL *)
      emitByte 0xdd ;;
      emitByte 0xe5 ;; (* PUSH IX *)
      emitByte 0xe1 ;; (* POP HL *)
      emitByte 0x9c ;; (* SBC A, H *)
      emitByte 0xe1 (* POP HL *)
  | Z80.IXL =>
      emitByte 0xe5 ;; (* PUSH HL *)
      emitByte 0xdd ;;
      emitByte 0xe5 ;; (* PUSH IX *)
      emitByte 0xe1 ;; (* POP HL *)
      emitByte 0x9d ;; (* SBC A, L *)
      emitByte 0xe1 (* POP HL *)
  | Z80.IYH =>
      emitByte 0xe5 ;; (* PUSH HL *)
      emitByte 0xfd ;;
      emitByte 0xe5 ;; (* PUSH IY *)
      emitByte 0xe1 ;; (* POP HL *)
      emitByte 0x9c ;; (* SBC A, H *)
      emitByte 0xe1 (* POP HL *)
  | Z80.IYL =>
      emitByte 0xe5 ;; (* PUSH HL *)
      emitByte 0xfd ;;
      emitByte 0xe5 ;; (* PUSH IY *)
      emitByte 0xe1 ;; (* POP HL *)
      emitByte 0x9d ;; (* SBC A, L *)
      emitByte 0xe1 (* POP HL *)
  | _ =>
      report_fatal_instr_problem (getName MCII opcode) "Allowed register are A, B, C, D, E, H, L."
  end.

(** [case Z80::SCF] *)
Definition case_SCF : M unit :=
  check_num_operands (getName MCII opcode) 0 numOperands ;;
  emitByte 0x37.

(** [case Z80::SET8bg] *)
Definition case_SET8bg : M unit :=
  check_num_operands (getName MCII opcode) 2 numOperands ;;
  when (notM (isImm (Operands MI 0)))
    (report_fatal_instr_problem (getName MCII opcode) "First operand should be immediate.") ;;
  when (imm0 <- getImm (Operands MI 0) ;; ret (8 <=? uint8_t imm0))
    (report_fatal_instr_problem (getName MCII opcode) "First operand should be in range 0..7.") ;;
  when (notM (isReg (Operands MI 1)))
    (report_fatal_instr_problem (getName MCII opcode) "Second operand should be register.") ;;
  reg1 <- getReg (Operands MI 1) ;;
  match reg1 with
  | Z80.A =>
      emitByte 0xcb ;;
      imm0 <- getImm (Operands MI 0) ;; emitByte (Z.lor (Z.shiftl (uint8_t imm0) 3) 0xc7)
  | Z80.B =>
      emitByte 0xcb ;;
      imm0 <- getImm (Operands MI 0) ;; emitByte (Z.lor (Z.shiftl (uint8_t imm0) 3) 0xc0)
  | Z80.C =>
      emitByte 0xcb ;;
      imm0 <- getImm (Operands MI 0) ;; emitByte (Z.lor (Z.shiftl (uint8_t imm0) 3) 0xc1)
  | Z80.D =>
      emitByte 0xcb ;;
      imm0 <- getImm (Operands MI 0) ;; emitByte (Z.lor (Z.shiftl (uint8_t imm0) 3) 0xc2)
  | Z80.E =>
      emitByte 0xcb ;;
      imm0 <- getImm (Operands MI 0) ;; emitByte (Z.lor (Z.shiftl (uint8_t imm0) 3) 0xc3)
  | Z80.H =>
      emitByte 0xcb ;;
      imm0 <- getImm (Operands MI 0) ;; emitByte (Z.lor (Z.shiftl (uint8_t imm0) 3) 0xc4)
  | Z80.L =>
      emitByte 0xcb ;;
      imm0 <- getImm (Operands MI 0) ;; emitByte (Z.lor (Z.shiftl (uint8_t imm0) 3) 0xc5)
  | Z80.IXH =>
      emitByte 0xe5 ;; (* PUSH HL *)
      emitByte 0xdd ;;
      emitByte 0xe5 ;; (* PUSH IX *)
      emitByte 0xe1 ;; (* POP HL *)
      emitByte 0xcb ;;
      imm0 <- getImm (Operands MI 0) ;; emitByte (Z.lor (Z.shiftl (uint8_t imm0) 3) 0xc4) ;; (* SETn A, H *)
      emitByte 0xe1 (* POP HL *)
  | Z80.IXL =>
      emitByte 0xe5 ;; (* PUSH HL *)
      emitByte 0xdd ;;
      emitByte 0xe5 ;; (* PUSH IX *)
      emitByte 0xe1 ;; (* POP HL *)
      emitByte 0xcb ;;
      imm0 <- getImm (Operands MI 0) ;; emitByte (Z.lor (Z.shiftl (uint8_t imm0) 3) 0xc5) ;; (* SETn A, L *)
      emitByte 0xe1 (* POP HL *)
  | Z80.IYH =>
      emitByte 0xe5 ;; (* PUSH HL *)
      emitByte 0xfd ;;
      emitByte 0xe5 ;; (* PUSH IY *)
      emitByte 0xe1 ;; (* POP HL *)
      emitByte 0xcb ;;
      imm0 <- getImm (Operands MI 0) ;; emitByte (Z.lor (Z.shiftl (uint8_t imm0) 3) 0xc4) ;; (* SETn A, H *)
      emitByte 0xe1 (* POP HL *)
  | Z80.IYL =>
      emitByte 0xe5 ;; (* PUSH HL *)
      emitByte 0xfd ;;
      emitByte 0xe5 ;; (* PUSH IY *)
      emitByte 0xe1 ;; (* POP HL *)
      emitByte 0xcb ;;
      imm0 <- getImm (Operands MI 0) ;; emitByte (Z.lor (Z.shiftl (uint8_t imm0) 3) 0xc5) ;; (* SETn A, L *)
      emitByte 0xe1 (* POP HL *)
  | _ =>
      report_fatal_instr_problem (getName MCII opcode) "Allowed register are A, B, C, D, E, H, L."
  end.

(** [case Z80::SET8bo] *)
Definition case_SET8bo : M unit :=
  check_num_operands (getName MCII opcode) 3 numOperands ;;
  when (notM (isImm (Operands MI 0)))
    (report_fatal_instr_problem (getName MCII opcode) "First operand should be immediate.") ;;
  when (imm0 <- getImm (Operands MI 0) ;; ret (8 <=? uint8_t imm0))
    (report_fatal_instr_problem (getName MCII opcode) "First operand should be in range 0..7.") ;;
  when (notM (isReg (Operands MI 1)))
    (report_fatal_instr_problem (getName MCII opcode) "Second operand should be register.") ;;
  when (notM (isImm (Operands MI 2)))
    (report_fatal_instr_problem (getName MCII opcode) "Third operand should be immediate.") ;;
  reg1 <- getReg (Operands MI 1) ;;
  match reg1 with
  | Z80.IX => emitByte 0xdd
  | Z80.IY => emitByte 0xfd
  | _ => report_fatal_instr_problem (getName MCII opcode) "Allowed registers are IX, IY."
  end ;;
  emitByte 0xcb ;;
  imm2 <- getImm (Operands MI 2) ;; emitByte imm2 ;;
  imm0 <- getImm (Operands MI 0) ;; emitByte (Z.lor (Z.shiftl (uint8_t imm0) 3) 0xc6).

(** [case Z80::SET8bp] *)
Definition case_SET8bp : M unit :=
  check_num_operands (getName MCII opcode) 2 numOperands ;;
  when (notM (isImm (Operands MI 0)))
    (report_fatal_instr_problem (getName MCII opcode) "First operand should be immediate.") ;;
  when (imm0 <- getImm (Operands MI 0) ;; ret (8 <=? uint8_t imm0))
    (report_fatal_instr_problem (getName MCII opcode) "First operand should be in range 0..7.") ;;
  when (notM (isReg (Operands MI 1)))
    (report_fatal_instr_problem (getName MCII opcode) "Second operand should be register.") ;;
  reg1 <- getReg (Operands MI 1) ;;
  match reg1 with
  | Z80.HL => ret tt
  | _ => report_fatal_instr_problem (getName MCII opcode) "The only allowed register is HL."
  end ;;
  emitByte 0xcb ;;
  imm0 <- getImm (Operands MI 0) ;; emitByte (Z.lor (Z.shiftl (uint8_t imm0) 3) 0xc6).

(** [case Z80::SLA8o] *)
Definition case_SLA8o : M unit :=
  check_num_operands (getName MCII opcode) 2 numOperands ;;
  when (notM (isReg (Operands MI 0)))
    (report_fatal_instr_problem (getName MCII opcode) "First operand should be register.") ;;
  when (notM (isImm (Operands MI 1)))
    (report_fatal_instr_problem (getName MCII opcode) "Second operand should be immediate.") ;;
  reg0 <- getReg (Operands MI 0) ;;
  match reg0 with
  | Z80.IX => emitByte 0xdd
  | Z80.IY => emitByte 0xfd
  | _ => report_fatal_instr_problem (getName MCII opcode) "Allowed registers are IX, IY."
  end ;;
  emitByte 0xcb ;;
  imm1 <- getImm (Operands MI 1) ;; emitByte imm1 ;;
  emitByte 0x26.

(** [case Z80::SLA8p] *)
Definition case_SLA8p : M unit :=
  check_num_operands (getName MCII opcode) 1 numOperands ;;
  when (notM (isReg (Operands MI 0)))
    (report_fatal_instr_problem (getName MCII opcode) "Operand should be register.") ;;
  reg0 <- getReg (Operands MI 0) ;;
  match reg0 with
  | Z80.HL => ret tt
  | _ => report_fatal_instr_problem (getName MCII opcode) "The only allowed register is HL."
  end ;;
  emitByte 0xcb ;;
  emitByte 0x26.

(** [case Z80::SLA8r] *)
Definition case_SLA8r : M unit :=
  when (ret (numOperands =? 0)%nat)
    (report_fatal_instr_problem (getName MCII opcode) "Operand missing.") ;;
  when (notM (isReg (Operands MI 0)))
    (report_fatal_instr_problem (getName MCII opcode) "An operand should be an register.") ;;
  reg0 <- getReg (Operands MI 0) ;;
  match reg0 with
  | Z80.A =>
      emitByte 0xcb ;;
      emitByte 0x27
  | Z80.B =>
      emitByte 0xcb ;;
      emitByte 0x20
  | Z80.C =>
      emitByte 0xcb ;;
      emitByte 0x21
  | Z80.D =>
      emitByte 0xcb ;;
      emitByte 0x22
  | Z80.E =>
      emitByte 0xcb ;;
      emitByte 0x23
  | Z80.H =>
      emitByte 0xcb ;;
      emitByte 0x24
  | Z80.L =>
      emitByte 0xcb ;;
      emitByte 0x25
  | Z80.IXH =>
      emitByte 0xe5 ;; (* PUSH HL *)
      emitByte 0xdd ;;
      emitByte 0xe5 ;; (* PUSH IX *)
      emitByte 0xe1 ;; (* POP HL *)
      emitByte 0xcb ;;
      emitByte 0x24 ;; (* SLA H *)
      emitByte 0xe5 ;; (* PUSH HL *)
      emitByte 0xdd ;;
      emitByte 0xe1 ;; (* POP IX *)
      emitByte 0xe1 (* POP HL *)
  | Z80.IXL =>
      emitByte 0xe5 ;; (* PUSH HL *)
      emitByte 0xdd ;;
      emitByte 0xe5 ;; (* PUSH IX *)
      emitByte 0xe1 ;; (* POP HL *)
      emitByte 0xcb ;;
      emitByte 0x25 ;; (* SLA L *)
      emitByte 0xe5 ;; (* PUSH HL *)
      emitByte 0xdd ;;
      emitByte 0xe1 ;; (* POP IX *)
      emitByte 0xe1 (* POP HL *)
  | Z80.IYH =>
      emitByte 0xe5 ;; (* PUSH HL *)
      emitByte 0xfd ;;
      emitByte 0xe5 ;; (* PUSH IY *)
      emitByte 0xe1 ;; (* POP HL *)
      emitByte 0xcb ;;
      emitByte 0x24 ;; (* SLA H *)
      emitByte 0xe5 ;; (* PUSH HL *)
      emitByte 0xfd ;;
      emitByte 0xe1 ;; (* POP IY *)
      emitByte 0xe1 (* POP HL *)
  | Z80.IYL =>
      emitByte 0xe5 ;; (* PUSH HL *)
      emitByte 0xfd ;;
      emitByte 0xe5 ;; (* PUSH IY *)
      emitByte 0xe1 ;; (* POP HL *)
      emitByte 0xcb ;;
      emitByte 0x25 ;; (* SLA L *)
      emitByte 0xe5 ;; (* PUSH HL *)
      emitByte 0xfd ;;
      emitByte 0xe1 ;; (* POP IY *)
      emitByte 0xe1 (* POP HL *)
  | _ =>
      report_fatal_instr_problem (getName MCII opcode) "Allowed register are A, B, C, D, E, H, L."
  end.

(** [case Z80::SRA8o] *)
Definition case_SRA8o : M unit :=
  check_num_operands (getName MCII opcode) 2 numOperands ;;
  when (notM (isReg (Operands MI 0)))
    (report_fatal_instr_problem (getName MCII opcode) "First operand should be register.") ;;
  when (notM (isImm (Operands MI 1)))
    (report_fatal_instr_problem (getName MCII opcode) "Second operand should be immediate.") ;;
  reg0 <- getReg (Operands MI 0) ;;
  match reg0 with
  | Z80.IX => emitByte 0xdd
  | Z80.IY => emitByte 0xfd
  | _ => report_fatal_instr_problem (getName MCII opcode) "Allowed registers are IX, IY."
  end ;;
  emitByte 0xcb ;;
  imm1 <- getImm (Operands MI 1) ;; emitByte imm1 ;;
  emitByte 0x2e.

(** [case Z80::SRA8p] *)
Definition case_SRA8p : M unit :=
  check_num_operands (getName MCII opcode) 1 numOperands ;;
  when (notM (isReg (Operands MI 0)))
    (report_fatal_instr_problem (getName MCII opcode) "Operand should be register.") ;;
  reg0 <- getReg (Operands MI 0) ;;
  match reg0 with
  | Z80.HL => ret tt
  | _ => report_fatal_instr_problem (getName MCII opcode) "The only allowed register is HL."
  end ;;
  emitByte 0xcb ;;
  emitByte 0x2e.

(** [case Z80::SRA8r] *)
Definition case_SRA8r : M unit :=
  when (ret (numOperands =? 0)%nat)
    (report_fatal_instr_problem (getName MCII opcode) "Operand missing.") ;;
  when (notM (isReg (Operands MI 0)))
    (report_fatal_instr_problem (getName MCII opcode) "An operand should be an register.") ;;
  reg0 <- getReg (Operands MI 0) ;;
  match reg0 with
  | Z80.A =>
      emitByte 0xcb ;;
      emitByte 0x2f
  | Z80.B =>
      emitByte 0xcb ;;
      emitByte 0x28
  | Z80.C =>
      emitByte 0xcb ;;
      emitByte 0x29
  | Z80.D =>
      emitByte 0xcb ;;
      emitByte 0x2a
  | Z80.E =>
      emitByte 0xcb ;;
      emitByte 0x2b
  | Z80.H =>
      emitByte 0xcb ;;
      emitByte 0x2c
  | Z80.L =>
      emitByte 0xcb ;;
      emitByte 0x2d
  | Z80.IXH =>
      emitByte 0xe5 ;; (* PUSH HL *)
      emitByte 0xdd ;;
      emitByte 0xe5 ;; (* PUSH IX *)
      emitByte 0xe1 ;; (* POP HL *)
      emitByte 0xcb ;;
      emitByte 0x2c ;; (* SRA H *)
      emitByte 0xe5 ;; (* PUSH HL *)
      emitByte 0xdd ;;
      emitByte 0xe1 ;; (* POP IX *)
      emitByte 0xe1 (* POP HL *)
  | Z80.IXL =>
      emitByte 0xe5 ;; (* PUSH HL *)
      emitByte 0xdd ;;
      emitByte 0xe5 ;; (* PUSH IX *)
      emitByte 0xe1 ;; (* POP HL *)
      emitByte 0xcb ;;
      emitByte 0x2d ;; (* SRA L *)
      emitByte 0xe5 ;; (* PUSH HL *)
      emitByte 0xdd ;;
      emitByte 0xe1 ;; (* POP IX *)
      emitByte 0xe1 (* POP HL *)
  | Z80.IYH =>
      emitByte 0xe5 ;; (* PUSH HL *)
      emitByte 0xfd ;;
      emitByte 0xe5 ;; (* PUSH IY *)
      emitByte 0xe1 ;; (* POP HL *)
      emitByte 0xcb ;;
      emitByte 0x2c ;; (* SRA H *)
      emitByte 0xe5 ;; (* PUSH HL *)
      emitByte 0xfd ;;
      emitByte 0xe1 ;; (* POP IY *)
      emitByte 0xe1 (* POP HL *)
  | Z80.IYL =>
      emitByte 0xe5 ;; (* PUSH HL *)
      emitByte 0xfd ;;
      emitByte 0xe5 ;; (* PUSH IY *)
      emitByte 0xe1 ;; (* POP HL *)
      emitByte 0xcb ;;
      emitByte 0x2d ;; (* SRA L *)
      emitByte 0xe5 ;; (* PUSH HL *)
      emitByte 0xfd ;;
      emitByte 0xe1 ;; (* POP IY *)
      emitByte 0xe1 (* POP HL *)
  | _ =>
      report_fatal_instr_problem (getName MCII opcode) "Allowed register are A, B, C, D, E, H, L."
  end.

(** [case Z80::SRL8o] *)
Definition case_SRL8o : M unit :=
  check_num_operands (getName MCII opcode) 2 numOperands ;;
  when (notM (isReg (Operands MI 0)))
    (report_fatal_instr_problem (getName MCII opcode) "First operand should be register.") ;;
  when (notM (isImm (Operands MI 1)))
    (report_fatal_instr_problem (getName MCII opcode) "Second operand should be immediate.") ;;
  reg0 <- getReg (Operands MI 0) ;;
  match reg0 with
  | Z80.IX => emitByte 0xdd
  | Z80.IY => emitByte 0xfd
  | _ => report_fatal_instr_problem (getName MCII opcode) "Allowed registers are IX, IY."
  end ;;
  emitByte 0xcb ;;
  imm1 <- getImm (Operands MI 1) ;; emitByte imm1 ;;
  emitByte 0x3e.

(** [case Z80::SRL8p] *)
Definition case_SRL8p : M unit :=
  check_num_operands (getName MCII opcode) 1 numOperands ;;
  when (notM (isReg (Operands MI 0)))
    (report_fatal_instr_problem (getName MCII opcode) "Operand should be register.") ;;
  reg0 <- getReg (Operands MI 0) ;;
  match reg0 with
  | Z80.HL => ret tt
  | _ => report_fatal_instr_problem (getName MCII opcode) "The only allowed register is HL."
  end ;;
  emitByte 0xcb ;;
  emitByte 0x3e.

(** [case Z80::SRL8r] *)
Definition case_SRL8r : M unit :=
  when (ret (numOperands =? 0)%nat)
    (report_fatal_instr_problem (getName MCII opcode) "Operand missing.") ;;
  when (notM (isReg (Operands MI 0)))
    (report_fatal_instr_problem (getName MCII opcode) "An operand should be an register.") ;;
  reg0 <- getReg (Operands MI 0) ;;
  match reg0 with
  | Z80.A =>
      emitByte 0xcb ;;
      emitByte 0x3f
  | Z80.B =>
      emitByte 0xcb ;;
      emitByte 0x38
  | Z80.C =>
      emitByte 0xcb ;;
      emitByte 0x39
  | Z80.D =>
      emitByte 0xcb ;;
      emitByte 0x3a
  | Z80.E =>
      emitByte 0xcb ;;
      emitByte 0x3b
  | Z80.H =>
      emitByte 0xcb ;;
      emitByte 0x3c
  | Z80.L =>
      emitByte 0xcb ;;
      emitByte 0x3d
  | Z80.IXH =>
      emitByte 0xe5 ;; (* PUSH HL *)
      emitByte 0xdd ;;
      emitByte 0xe5 ;; (* PUSH IX *)
      emitByte 0xe1 ;; (* POP HL *)
      emitByte 0xcb ;;
      emitByte 0x3c ;; (* SRL H *)
      emitByte 0xe5 ;; (* PUSH HL *)
      emitByte 0xdd ;;
      emitByte 0xe1 ;; (* POP IX *)
      emitByte 0xe1 (* POP HL *)
  | Z80.IXL =>
      emitByte 0xe5 ;; (* PUSH HL *)
      emitByte 0xdd ;;
      emitByte 0xe5 ;; (* PUSH IX *)
      emitByte 0xe1 ;; (* POP HL *)
      emitByte 0xcb ;;
      emitByte 0x3d ;; (* SRL L *)
      emitByte 0xe5 ;; (* PUSH HL *)
      emitByte 0xdd ;;
      emitByte 0xe1 ;; (* POP IX *)
      emitByte 0xe1 (* POP HL *)
  | Z80.IYH =>
      emitByte 0xe5 ;; (* PUSH HL *)
      emitByte 0xfd ;;
      emitByte 0xe5 ;; (* PUSH IY *)
      emitByte 0xe1 ;; (* POP HL *)
      emitByte 0xcb ;;
      emitByte 0x3c ;; (* SRL H *)
      emitByte 0xe5 ;; (* PUSH HL *)
      emitByte 0xfd ;;
      emitByte 0xe1 ;; (* POP IY *)
      emitByte 0xe1 (* POP HL *)
  | Z80.IYL =>
      emitByte 0xe5 ;; (* PUSH HL *)
      emitByte 0xfd ;;
      emitByte 0xe5 ;; (* PUSH IY *)
      emitByte 0xe1 ;; (* POP HL *)
      emitByte 0xcb ;;
      emitByte 0x3d ;; (* SRL L *)
      emitByte 0xe5 ;; (* PUSH HL *)
      emitByte 0xfd ;;
      emitByte 0xe1 ;; (* POP IY *)
      emitByte 0xe1 (* POP HL *)
  | _ =>
      report_fatal_instr_problem (getName MCII opcode) "Allowed register are A, B, C, D, E, H, L."
  end.

(** [case Z80::SUB8ai] *)
Definition case_SUB8ai : M unit :=
  check_num_operands (getName MCII opcode) 1 numOperands ;;
  when (notM (isImm (Operands MI 0)))
    (report_fatal_instr_problem (getName MCII opcode) "Operand should be immediate.") ;;
  emitByte 0xd6 ;;
  imm0 <- getImm (Operands MI 0) ;; emitByte imm0.

(** [case Z80::SUB8ao] *)
Definition case_SUB8ao : M unit :=
  check_num_operands (getName MCII opcode) 2 numOperands ;;
  when (notM (isReg (Operands MI 0)))
    (report_fatal_instr_problem (getName MCII opcode) "First operand should be register.") ;;
  when (notM (isImm (Operands MI 1)))
    (report_fatal_instr_problem (getName MCII opcode) "Second operand should be immediate.") ;;
  reg0 <- getReg (Operands MI 0) ;;
  match reg0 with
  | Z80.IX => emitByte 0xdd
  | Z80.IY => emitByte 0xfd
  | _ => report_fatal_instr_problem (getName MCII opcode) "Allowed registers are IX, IY."
  end ;;
  emitByte 0x96 ;;
  imm1 <- getImm (Operands MI 1) ;; emitByte imm1.

(** [case Z80::SUB8ap] *)
Definition case_SUB8ap : M unit :=
  check_num_operands (getName MCII opcode) 1 numOperands ;;
  when (notM (isReg (Operands MI 0)))
    (report_fatal_instr_problem (getName MCII opcode) "Operand should be register.") ;;
  reg0 <- getReg (Operands MI 0) ;;
  match reg0 with
  | Z80.HL => ret tt
  | _ => report_fatal_instr_problem (getName MCII opcode) "The only allowed register is HL."
  end ;;
  emitByte 0x96.

(** [case Z80::SUB8ar] *)
Definition case_SUB8ar : M unit :=
  check_num_operands (getName MCII opcode) 1 numOperands ;;
  when (notM (isReg (Operands MI 0)))
    (report_fatal_instr_problem (getName MCII opcode) "Operand should be register.") ;;
  reg0 <- getReg (Operands MI 0) ;;
  match reg0 with
  | Z80.A => emitByte 0x97
  | Z80.B => emitByte 0x90
  | Z80.C => emitByte 0x91
  | Z80.D => emitByte 0x92
  | Z80.E => emitByte 0x93
  | Z80.H => emitByte 0x94
  | Z80.L => emitByte 0x95
  | Z80.IXH =>
      emitByte 0xe5 ;; (* PUSH HL *)
      emitByte 0xdd ;;
      emitByte 0xe5 ;; (* PUSH IX *)
      emitByte 0xe1 ;; (* POP HL *)
      emitByte 0x94 ;; (* SUB A, H *)
      emitByte 0xe1 (* POP HL *)
  | Z80.IXL =>
      emitByte 0xe5 ;; (* PUSH HL *)
      emitByte 0xdd ;;
      emitByte 0xe5 ;; (* PUSH IX *)
      emitByte 0xe1 ;; (* POP HL *)
      emitByte 0x95 ;; (* SUB A, L *)
      emitByte 0xe1 (* POP HL *)
  | Z80.IYH =>
      emitByte 0xe5 ;; (* PUSH HL *)
      emitByte 0xfd ;;
      emitByte 0xe5 ;; (* PUSH IY *)
      emitByte 0xe1 ;; (* POP HL *)
      emitByte 0x94 ;; (* SUB A, H *)
      emitByte 0xe1 (* POP HL *)
  | Z80.IYL =>
      emitByte 0xe5 ;; (* PUSH HL *)
      emitByte 0xfd ;;
      emitByte 0xe5 ;; (* PUSH IY *)
      emitByte 0xe1 ;; (* POP HL *)
      emitByte 0x95 ;; (* SUB A, L *)
      emitByte 0xe1 (* POP HL *)
  | _ =>
      report_fatal_instr_problem (getName MCII opcode) "Allowed register are A, B, C, D, E, H, L."
  end.

(** [case Z80::XOR8ai] *)
Definition case_XOR8ai : M unit :=
  check_num_operands (getName MCII opcode) 1 numOperands ;;
  when (notM (isImm (Operands MI 0)))
    (report_fatal_instr_problem (getName MCII opcode) "Operand should be immediate.") ;;
  emitByte 0xee ;;
  imm0 <- getImm (Operands MI 0) ;; emitByte imm0.

(** [case Z80::XOR8ao] *)
Definition case_XOR8ao : M unit :=
  check_num_operands (getName MCII opcode) 2 numOperands ;;
  when (notM (isReg (Operands MI 0)))
    (report_fatal_instr_problem (getName MCII opcode) "First operand should be register.") ;;
  when (notM (isImm (Operands MI 1)))
    (report_fatal_instr_problem (getName MCII opcode) "Second operand should be immediate.") ;;
  reg0 <- getReg (Operands MI 0) ;;
  match reg0 with
  | Z80.IX => emitByte 0xdd
  | Z80.IY => emitByte 0xfd
  | _ => report_fatal_instr_problem (getName MCII opcode) "Allowed registers are IX, IY."
  end ;;
  emitByte 0xae ;;
  imm1 <- getImm (Operands MI 1) ;; emitByte imm1.

(** [case Z80::XOR8ap] *)
Definition case_XOR8ap : M unit :=
  check_num_operands (getName MCII opcode) 1 numOperands ;;
  when (notM (isReg (Operands MI 0)))
    (report_fatal_instr_problem (getName MCII opcode) "Operand should be register.") ;;
  reg0 <- getReg (Operands MI 0) ;;
  match reg0 with
  | Z80.HL => ret tt
  | _ => report_fatal_instr_problem (getName MCII opcode) "The only allowed register is HL."
  end ;;
  emitByte 0xae.

(** [case Z80::XOR8ar] *)
Definition case_XOR8ar : M unit :=
  check_num_operands (getName MCII opcode) 1 numOperands ;;
  when (notM (isReg (Operands MI 0)))
    (report_fatal_instr_problem (getName MCII opcode) "Operand should be register.") ;;
  reg0 <- getReg (Operands MI 0) ;;
  match reg0 with
  | Z80.A => emitByte 0xaf
  | Z80.B => emitByte 0xa8
  | Z80.C => emitByte 0xa9
  | Z80.D => emitByte 0xaa
  | Z80.E => emitByte 0xab
  | Z80.H => emitByte 0xac
  | Z80.L => emitByte 0xad
  | Z80.IXH =>
      emitByte 0xe5 ;; (* PUSH HL *)
      emitByte 0xdd ;;
      emitByte 0xe5 ;; (* PUSH IX *)
      emitByte 0xe1 ;; (* POP HL *)
      emitByte 0xac ;; (* XOR A, H *)
      emitByte 0xe1 (* POP HL *)
  | Z80.IXL =>
      emitByte 0xe5 ;; (* PUSH HL *)
      emitByte 0xdd ;;
      emitByte 0xe5 ;; (* PUSH IX *)
      emitByte 0xe1 ;; (* POP HL *)
      emitByte 0xad ;; (* XOR A, L *)
      emitByte 0xe1 (* POP HL *)
  | Z80.IYH =>
      emitByte 0xe5 ;; (* PUSH HL *)
      emitByte 0xfd ;;
      emitByte 0xe5 ;; (* PUSH IY *)
      emitByte 0xe1 ;; (* POP HL *)
      emitByte 0xac ;; (* XOR A, H *)
      emitByte 0xe1 (* POP HL *)
  | Z80.IYL =>
      emitByte 0xe5 ;; (* PUSH HL *)
      emitByte 0xfd ;;
      emitByte 0xe5 ;; (* PUSH IY *)
      emitByte 0xe1 ;; (* POP HL *)
      emitByte 0xad ;; (* XOR A, L *)
      emitByte 0xe1 (* POP HL *)
  | _ =>
      report_fatal_instr_problem (getName MCII opcode) "Allowed register are A, B, C, D, E, H, L."
  end.

(** *** The function

    The body of [encodeInstruction]: the mode check, the pseudo
    instructions, then the switch over the opcode. *)
Definition encodeInstruction_body : M unit :=
  if EZ80Mode =? Z.land (TSFlags Desc) ModeMask then
    report_fatal_error "EZ80 machine instructions not supported (yet?)"
  else if isPseudo Desc then
    match opcode with
    | Z80.JQ => case_JQ
    | Z80.JQCC => case_JQCC
    | _ => report_fatal_error ("Not supported pseudo instr: " ++ print_MI MI)%string
    end
  else
  match opcode with
  | Z80.ADC8ai => case_ADC8ai
  | Z80.ADC8ao => case_ADC8ao
  | Z80.ADC8ap => case_ADC8ap
  | Z80.ADC8ar => case_ADC8ar
  | Z80.ADD16SP => case_ADD16SP
  | Z80.ADD16aa => case_ADD16aa
  | Z80.ADD16ao => case_ADD16ao
  | Z80.ADD8ai => case_ADD8ai
  | Z80.ADD8ao => case_ADD8ao
  | Z80.ADD8ap => case_ADD8ap
  | Z80.ADD8ar => case_ADD8ar
  | Z80.AND8ai => case_AND8ai
  | Z80.AND8ao => case_AND8ao
  | Z80.AND8ap => case_AND8ap
  | Z80.AND8ar => case_AND8ar
  | Z80.BIT8bg => case_BIT8bg
  | Z80.BIT8bo => case_BIT8bo
  | Z80.BIT8bp => case_BIT8bp
  | Z80.CALL16 => case_CALL16
  | Z80.CALL16CC => case_CALL16CC
  | Z80.CCF => case_CCF
  | Z80.CP8ai => case_CP8ai
  | Z80.CP8ao => case_CP8ao
  | Z80.CP8ap => case_CP8ap
  | Z80.CP8ar => case_CP8ar
  | Z80.CPD16 => case_CPD16
  | Z80.CPDR16 => case_CPDR16
  | Z80.CPI16 => case_CPI16
  | Z80.CPIR16 => case_CPIR16
  | Z80.CPL => case_CPL
  | Z80.DEC16SP => case_DEC16SP
  | Z80.DEC16r => case_DEC16r
  | Z80.DEC8o => case_DEC8o
  | Z80.DEC8p => case_DEC8p
  | Z80.DEC8r => case_DEC8r
  | Z80.DI => case_DI
  | Z80.EI => case_EI
  | Z80.EX16DE => case_EX16DE
  | Z80.EX16SP => case_EX16SP
  | Z80.EXAF => case_EXAF
  | Z80.EXX => case_EXX
  | Z80.INC16SP => case_INC16SP
  | Z80.INC16r => case_INC16r
  | Z80.INC8o => case_INC8o
  | Z80.INC8p => case_INC8p
  | Z80.INC8r => case_INC8r
  | Z80.IND16 => case_IND16
  | Z80.INDR16 => case_INDR16
  | Z80.INI16 => case_INI16
  | Z80.INIR16 => case_INIR16
  | Z80.JP16r => case_JP16r
  | Z80.LD16SP => case_LD16SP
  | Z80.LD16am => case_LD16am
  | Z80.LD16ma => case_LD16ma
  | Z80.LD16mo => case_LD16mo
  | Z80.LD16om => case_LD16om
  | Z80.LD16ri => case_LD16ri
  | Z80.LD8am => case_LD8am
  | Z80.LD8gg
  | Z80.LD8xx
  | Z80.LD8yy => case_LD8gg
  | Z80.LD8go => case_LD8go
  | Z80.LD8gp => case_LD8gp
  | Z80.LD8ma => case_LD8ma
  | Z80.LD8og => case_LD8og
  | Z80.LD8oi => case_LD8oi
  | Z80.LD8pg => case_LD8pg
  | Z80.LD8ri => case_LD8ri
  | Z80.LD8pi => case_LD8pi
  | Z80.LDD16 => case_LDD16
  | Z80.LDDR16 => case_LDDR16
  | Z80.LDI16 => case_LDI16
  | Z80.LDIR16 => case_LDIR16
  | Z80.LEA16ro => case_LEA16ro
  | Z80.NEG => case_NEG
  | Z80.NOP => case_NOP
  | Z80.OR8ai => case_OR8ai
  | Z80.OR8ao => case_OR8ao
  | Z80.OR8ap => case_OR8ap
  | Z80.OR8ar => case_OR8ar
  | Z80.OUTD16 => case_OUTD16
  | Z80.OUTDR16 (* OTDR *) => case_OUTDR16
  | Z80.OUTI16 => case_OUTI16
  | Z80.OUTIR16 (* OTIR *) => case_OUTIR16
  | Z80.POP16AF => case_POP16AF
  | Z80.POP16r => case_POP16r
  | Z80.PUSH16AF => case_PUSH16AF
  | Z80.PUSH16r => case_PUSH16r
  | Z80.RES8bg => case_RES8bg
  | Z80.RES8bo => case_RES8bo
  | Z80.RES8bp => case_RES8bp
  | Z80.RET16 => case_RET16
  | Z80.RET16CC => case_RET16CC
  | Z80.RETI16 => case_RETI16
  | Z80.RETN16 => case_RETN16
  | Z80.RL8o => case_RL8o
  | Z80.RL8p => case_RL8p
  | Z80.RL8r => case_RL8r
  | Z80.RLC8o => case_RLC8o
  | Z80.RLC8p => case_RLC8p
  | Z80.RLC8r => case_RLC8r
  | Z80.RR8o => case_RR8o
  | Z80.RR8p => case_RR8p
  | Z80.RR8r => case_RR8r
  | Z80.RRC8o => case_RRC8o
  | Z80.RRC8p => case_RRC8p
  | Z80.RRC8r => case_RRC8r
  | Z80.SBC16SP => case_SBC16SP
  | Z80.SBC16aa => case_SBC16aa
  | Z80.SBC16ao => case_SBC16ao
  | Z80.SBC8ai => case_SBC8ai
  | Z80.SBC8ao => case_SBC8ao
  | Z80.SBC8ap => case_SBC8ap
  | Z80.SBC8ar => case_SBC8ar
  | Z80.SCF => case_SCF
  | Z80.SET8bg => case_SET8bg
  | Z80.SET8bo => case_SET8bo
  | Z80.SET8bp => case_SET8bp
  | Z80.SLA8o => case_SLA8o
  | Z80.SLA8p => case_SLA8p
  | Z80.SLA8r => case_SLA8r
  | Z80.SRA8o => case_SRA8o
  | Z80.SRA8p => case_SRA8p
  | Z80.SRA8r => case_SRA8r
  | Z80.SRL8o => case_SRL8o
  | Z80.SRL8p => case_SRL8p
  | Z80.SRL8r => case_SRL8r
  | Z80.SUB8ai => case_SUB8ai
  | Z80.SUB8ao => case_SUB8ao
  | Z80.SUB8ap => case_SUB8ap
  | Z80.SUB8ar => case_SUB8ar
  | Z80.XOR8ai => case_XOR8ai
  | Z80.XOR8ao => case_XOR8ao
  | Z80.XOR8ap => case_XOR8ap
  | Z80.XOR8ar => case_XOR8ar
  | Z80.ADC16SP
  | Z80.ADC16aa
  | Z80.ADC16ao
  | Z80.JP16
  | Z80.JP16CC
  | Z80.JR
  | Z80.JRCC
  | Z80.LD16or
  | Z80.LD16pr
  | Z80.LD16ro
  | Z80.LD16rp =>
      report_fatal_instr_problem (getName MCII opcode) "Not implemented."
  | _ =>
      report_fatal_error
        ("Not supported instr: " ++ getName MCII opcode ++ " " ++ print_MI MI)%string
  end.

(** [encodeInstruction]: [CurByte] starts at 0; the result is the outcome
    of the call together with the final counter and what the call has
    appended to the two sinks. *)
Definition encodeInstruction : Outcome unit * EmitState :=
  encodeInstruction_body {| CurByte := 0; Emitted := [] |}.

End Encoder.


(** ** [Z80ELFStreamer.cpp] *)

(** The constructor of [Z80ELFStreamer], as a function of the ELF header
    flags of the assembler before it and of the constant
    [ELF::EF_Z80_MACH_Z80] (declared with the ELF format, outside this
    directory): the flags it leaves in the assembler.  [EFlags] is an
    [unsigned]. *)
Definition Z80ELFStreamer_EFlags (EF_Z80_MACH_Z80 EFlags : Z) : Z :=
  unsigned (Z.lor (unsigned EFlags) EF_Z80_MACH_Z80).

(** ** [Z80MCTargetDesc.cpp] *)

(** [Z80_MC::ParseZ80Triple]; of the triple it looks at the outcome of
    [TT.getArch() == Triple::ez80] only. *)
Definition ParseZ80Triple (TT_is_ez80 : bool) : string :=
  if TT_is_ez80 then "+24bit-mode,-16bit-mode"
  else "-24bit-mode,+16bit-mode".

(** [empty ()] of a string. *)
Definition empty (s : string) : bool :=
  match s with
  | EmptyString => true
  | _ => false
  end.

(** [Z80_MC::createZ80MCSubtargetInfo]: the feature string it hands to
    [createZ80MCSubtargetInfoImpl]. *)
Definition createZ80MCSubtargetInfo (TT_is_ez80 : bool) (FS : string) : string :=
  let ArchFS := ParseZ80Triple TT_is_ez80 in
  if negb (empty FS) then
    if negb (empty ArchFS) then (ArchFS ++ "," ++ FS)%string
    else FS
  else ArchFS.

(** The two targets [LLVMInitializeZ80TargetMC] knows. *)
Inductive LLVMTarget : Set :=
| TheZ80Target
| TheEZ80Target.

(** The registration functions it calls. *)
Inductive Registration : Set :=
| RegisterMCAsmInfoFn
| RegisterMCInstrInfo
| RegisterMCRegInfo
| RegisterMCSubtargetInfo
| RegisterMCInstPrinter
| RegisterAsmTargetStreamer
| RegisterMCCodeEmitter
| RegisterELFStreamer
| RegisterObjectTargetStreamer
| RegisterMCAsmBackend.

(** [LLVMInitializeZ80TargetMC]: the registrations it makes, in order;
    the loop over the two targets first, then the four calls for
    [getTheZ80Target ()]. *)
Definition LLVMInitializeZ80TargetMC : list (LLVMTarget * Registration) :=
  flat_map (fun T =>
              [(T, RegisterMCAsmInfoFn);
               (T, RegisterMCInstrInfo);
               (T, RegisterMCRegInfo);
               (T, RegisterMCSubtargetInfo);
               (T, RegisterMCInstPrinter);
               (T, RegisterAsmTargetStreamer)])
           [TheZ80Target; TheEZ80Target] ++
  [(TheZ80Target, RegisterMCCodeEmitter);
   (TheZ80Target, RegisterELFStreamer);
   (TheZ80Target, RegisterObjectTargetStreamer);
   (TheZ80Target, RegisterMCAsmBackend)].


(** * Properties *)

(** ** Vocabulary of the statements *)

(** A descriptor that lets the encoder reach the case of an opcode: not
    tagged as eZ80 mode, pseudo or not as stated, [n] operands. *)
Definition described (ModeMask EZ80Mode : Z) (d : MCInstrDesc)
    (pseudo : bool) (n : nat) : Prop :=
  (EZ80Mode =? Z.land (TSFlags d) ModeMask) = false /\
  isPseudo d = pseudo /\
  getNumOperands d = n.

(** [Q] holds of the final state whenever the call returns normally. *)
Definition accepted_then {A : Type} (r : Outcome A * EmitState)
    (Q : EmitState -> Prop) : Prop :=
  match r with
  | (Ok _, s) => Q s
  | _ => True
  end.

(** The call does not run into undefined behaviour. *)
Definition defined {A : Type} (r : Outcome A * EmitState) : Prop :=
  match r with
  | (Undefined, _) => False
  | _ => True
  end.

(** Number of placeholder bytes of a fixup kind: its bit width, from the
    table of [getFixupKindInfo], rounded up to whole bytes. *)
Definition placeholder_bytes (k : Z80.Fixups) : nat :=
  Z.to_nat ((TargetSize (Infos k) + 7) / 8).

(** [t] is exactly [n] zero bytes written to [OS]. *)
Fixpoint placeholders (n : nat) (t : list Event) : bool :=
  match n, t with
  | O, [] => true
  | S n', ToOS c :: t' => (c =? 0) && placeholders n' t'
  | _, _ => false
  end.

(** Which fixup kinds a call may push: [fixup_16] always, [fixup_8_pcrel]
    for [JQ] and [JQCC] when the matching switch is set. *)
Definition kind_allowed (jr jrcc : bool) (op : Z80.Opcode) (k : Z80.Fixups) : bool :=
  match k with
  | Z80.fixup_16 => true
  | Z80.fixup_8_pcrel =>
      match op with
      | Z80.JQ => jr
      | Z80.JQCC => jrcc
      | _ => false
      end
  | _ => false
  end.

(** The shape of what one call emits, read from the front with [n] bytes
    already written: bytes, then at most one fixup, created at offset [n]
    and followed by its placeholder bytes and nothing else. *)
Fixpoint well_shaped (jr jrcc : bool) (op : Z80.Opcode) (n : Z)
    (t : list Event) : bool :=
  match t with
  | [] => true
  | ToOS _ :: t' => well_shaped jr jrcc op (n + 1) t'
  | ToFixups f :: t' =>
      (getOffset f =? n) &&
      match getKind_of f with
      | FK_Target k => kind_allowed jr jrcc op k && placeholders (placeholder_bytes k) t'
      | _ => false
      end
  end.

(** The operands [encodeInstruction] hands to [emitByte] as they are (the
    8-bit immediates and displacements), by opcode. *)
Definition imm8_operands (op : Z80.Opcode) : list nat :=
  match op with
  | Z80.ADC8ai | Z80.ADD8ai | Z80.AND8ai | Z80.CP8ai | Z80.OR8ai | Z80.SBC8ai | Z80.SUB8ai
  | Z80.XOR8ai => [0]
  | Z80.ADC8ao | Z80.ADD8ao | Z80.AND8ao | Z80.CP8ao | Z80.DEC8o | Z80.INC8o | Z80.LD8og
  | Z80.LD8ri | Z80.LD8pi | Z80.OR8ao | Z80.RL8o | Z80.RLC8o | Z80.RR8o | Z80.RRC8o
  | Z80.SBC8ao | Z80.SLA8o | Z80.SRA8o | Z80.SRL8o | Z80.SUB8ao | Z80.XOR8ao => [1]
  | Z80.LD8oi => [1; 2]
  | Z80.BIT8bo | Z80.LD8go | Z80.LEA16ro | Z80.RES8bo | Z80.SET8bo => [2]
  | _ => []
  end%nat.

(** The operand written as a 16-bit immediate, by opcode. *)
Definition imm16_operand (op : Z80.Opcode) : option nat :=
  match op with
  | Z80.CALL16 | Z80.CALL16CC | Z80.LD16ma | Z80.LD16mo | Z80.LD8am | Z80.LD8ma => Some 0
  | Z80.LD16am | Z80.LD16om | Z80.LD16ri => Some 1
  | _ => None
  end%nat.

(** What the two [emitByte] calls for a 16-bit immediate [v] write:
    [(uint16_t (v) >> 0) & 0xff] and [(uint16_t (v) >> 8) & 0xff], each
    converted to [uint8_t]. *)
Definition imm16_lo (v : Z) : Z := uint8_t (Z.land (Z.shiftr (uint16_t v) 0) 0xff).
Definition imm16_hi (v : Z) : Z := uint8_t (Z.land (Z.shiftr (uint16_t v) 8) 0xff).

(** Where the opcode has a 16-bit immediate operand and the instruction
    carries an immediate there, the call has written bytes only and the
    last two are that immediate, low byte first. *)
Definition imm16_written (op : Z80.Opcode) (ops : list MCOperand)
    (t : list Event) : Prop :=
  match imm16_operand op with
  | Some k =>
      match nth_error ops k with
      | Some (Imm v) => exists pre, t = map ToOS (pre ++ [imm16_lo v; imm16_hi v])
      | _ => True
      end
  | None => True
  end.

(** [MI] with operand [k] replaced. *)
Fixpoint set_nth {A : Type} (k : nat) (x : A) (l : list A) : list A :=
  match k, l with
  | _, [] => []
  | O, _ :: l' => x :: l'
  | S k', y :: l' => y :: set_nth k' x l'
  end.

Definition setOperand (MI : MCInst) (k : nat) (o : MCOperand) : MCInst :=
  {| getOpcode := getOpcode MI;
     operands := set_nth k o (operands MI);
     getLoc := getLoc MI |}.

(** The opcodes of the last labelled group of the switch. *)
Definition not_implemented : list Z80.Opcode :=
  [Z80.ADC16SP; Z80.ADC16aa; Z80.ADC16ao; Z80.JP16; Z80.JP16CC; Z80.JR;
   Z80.JRCC; Z80.LD16or; Z80.LD16pr; Z80.LD16ro; Z80.LD16rp].

(** *** A descriptor table to run the encoder on

    The theorems below hold for any descriptor table and any values of the
    mode constants; the following ones instantiate them. *)

(** Modelled from the spec: [Z80II::ModeMask], declared with the target
    description; the mode is carried by the low bits of [TSFlags]. *)
Definition Z80II_ModeMask : Z := 3.

(** Modelled from the spec: the value of the mode field of a Z80-mode
    instruction. *)
Definition Z80II_Z80Mode : Z := 2.

(** Modelled from the spec: [Z80II::EZ80Mode], the value of the mode field
    that makes the encoder fail. *)
Definition Z80II_EZ80Mode : Z := 3.

(** Modelled from the spec: the operand counts of the generated table
    ([Z80GenInstrInfo.inc]), taken to be what the case of each opcode asks
    for. *)
Definition Z80_NumOperands (op : Z80.Opcode) : nat :=
  match op with
  | Z80.ADD16ao | Z80.BIT8bo | Z80.LD8go | Z80.LD8og | Z80.LD8oi | Z80.LEA16ro | Z80.RES8bo
  | Z80.SET8bo => 3
  | Z80.JQCC | Z80.ADC8ao | Z80.ADD16SP | Z80.ADD16aa | Z80.ADD8ao | Z80.AND8ao | Z80.BIT8bg
  | Z80.BIT8bp | Z80.CALL16CC | Z80.CP8ao | Z80.DEC8o | Z80.EX16SP | Z80.INC8o | Z80.LD16am
  | Z80.LD16ma | Z80.LD16mo | Z80.LD16om | Z80.LD16ri | Z80.LD8gg | Z80.LD8xx | Z80.LD8yy
  | Z80.LD8gp | Z80.LD8pg | Z80.LD8ri | Z80.LD8pi | Z80.OR8ao | Z80.RES8bg | Z80.RES8bp
  | Z80.RL8o | Z80.RLC8o | Z80.RR8o | Z80.RRC8o | Z80.SBC8ao | Z80.SET8bg | Z80.SET8bp
  | Z80.SLA8o | Z80.SRA8o | Z80.SRL8o | Z80.SUB8ao | Z80.XOR8ao => 2
  | Z80.JQ | Z80.ADC8ai | Z80.ADC8ap | Z80.ADC8ar | Z80.ADD8ai | Z80.ADD8ap | Z80.ADD8ar
  | Z80.AND8ai | Z80.AND8ap | Z80.AND8ar | Z80.CALL16 | Z80.CP8ai | Z80.CP8ap | Z80.CP8ar
  | Z80.DEC16r | Z80.DEC8p | Z80.DEC8r | Z80.INC16r | Z80.INC8p | Z80.INC8r | Z80.JP16r
  | Z80.LD16SP | Z80.LD8am | Z80.LD8ma | Z80.OR8ai | Z80.OR8ap | Z80.OR8ar | Z80.POP16r
  | Z80.PUSH16r | Z80.RET16CC | Z80.RL8p | Z80.RL8r | Z80.RLC8p | Z80.RLC8r | Z80.RR8p
  | Z80.RR8r | Z80.RRC8p | Z80.RRC8r | Z80.SBC16ao | Z80.SBC8ai | Z80.SBC8ap | Z80.SBC8ar
  | Z80.SLA8p | Z80.SLA8r | Z80.SRA8p | Z80.SRA8r | Z80.SRL8p | Z80.SRL8r | Z80.SUB8ai
  | Z80.SUB8ap | Z80.SUB8ar | Z80.XOR8ai | Z80.XOR8ap | Z80.XOR8ar => 1
  | _ => 0
  end.

(** Modelled from the spec: the mnemonics of the generated table. *)
Definition Z80_Name (op : Z80.Opcode) : string :=
  match op with
  | Z80.JQ => "JQ"
  | Z80.JQCC => "JQCC"
  | Z80.ADC8ai => "ADC8ai"
  | Z80.ADC8ao => "ADC8ao"
  | Z80.ADC8ap => "ADC8ap"
  | Z80.ADC8ar => "ADC8ar"
  | Z80.ADD16SP => "ADD16SP"
  | Z80.ADD16aa => "ADD16aa"
  | Z80.ADD16ao => "ADD16ao"
  | Z80.ADD8ai => "ADD8ai"
  | Z80.ADD8ao => "ADD8ao"
  | Z80.ADD8ap => "ADD8ap"
  | Z80.ADD8ar => "ADD8ar"
  | Z80.AND8ai => "AND8ai"
  | Z80.AND8ao => "AND8ao"
  | Z80.AND8ap => "AND8ap"
  | Z80.AND8ar => "AND8ar"
  | Z80.BIT8bg => "BIT8bg"
  | Z80.BIT8bo => "BIT8bo"
  | Z80.BIT8bp => "BIT8bp"
  | Z80.CALL16 => "CALL16"
  | Z80.CALL16CC => "CALL16CC"
  | Z80.CCF => "CCF"
  | Z80.CP8ai => "CP8ai"
  | Z80.CP8ao => "CP8ao"
  | Z80.CP8ap => "CP8ap"
  | Z80.CP8ar => "CP8ar"
  | Z80.CPD16 => "CPD16"
  | Z80.CPDR16 => "CPDR16"
  | Z80.CPI16 => "CPI16"
  | Z80.CPIR16 => "CPIR16"
  | Z80.CPL => "CPL"
  | Z80.DEC16SP => "DEC16SP"
  | Z80.DEC16r => "DEC16r"
  | Z80.DEC8o => "DEC8o"
  | Z80.DEC8p => "DEC8p"
  | Z80.DEC8r => "DEC8r"
  | Z80.DI => "DI"
  | Z80.EI => "EI"
  | Z80.EX16DE => "EX16DE"
  | Z80.EX16SP => "EX16SP"
  | Z80.EXAF => "EXAF"
  | Z80.EXX => "EXX"
  | Z80.INC16SP => "INC16SP"
  | Z80.INC16r => "INC16r"
  | Z80.INC8o => "INC8o"
  | Z80.INC8p => "INC8p"
  | Z80.INC8r => "INC8r"
  | Z80.IND16 => "IND16"
  | Z80.INDR16 => "INDR16"
  | Z80.INI16 => "INI16"
  | Z80.INIR16 => "INIR16"
  | Z80.JP16r => "JP16r"
  | Z80.LD16SP => "LD16SP"
  | Z80.LD16am => "LD16am"
  | Z80.LD16ma => "LD16ma"
  | Z80.LD16mo => "LD16mo"
  | Z80.LD16om => "LD16om"
  | Z80.LD16ri => "LD16ri"
  | Z80.LD8am => "LD8am"
  | Z80.LD8gg => "LD8gg"
  | Z80.LD8xx => "LD8xx"
  | Z80.LD8yy => "LD8yy"
  | Z80.LD8go => "LD8go"
  | Z80.LD8gp => "LD8gp"
  | Z80.LD8ma => "LD8ma"
  | Z80.LD8og => "LD8og"
  | Z80.LD8oi => "LD8oi"
  | Z80.LD8pg => "LD8pg"
  | Z80.LD8ri => "LD8ri"
  | Z80.LD8pi => "LD8pi"
  | Z80.LDD16 => "LDD16"
  | Z80.LDDR16 => "LDDR16"
  | Z80.LDI16 => "LDI16"
  | Z80.LDIR16 => "LDIR16"
  | Z80.LEA16ro => "LEA16ro"
  | Z80.NEG => "NEG"
  | Z80.NOP => "NOP"
  | Z80.OR8ai => "OR8ai"
  | Z80.OR8ao => "OR8ao"
  | Z80.OR8ap => "OR8ap"
  | Z80.OR8ar => "OR8ar"
  | Z80.OUTD16 => "OUTD16"
  | Z80.OUTDR16 => "OUTDR16"
  | Z80.OUTI16 => "OUTI16"
  | Z80.OUTIR16 => "OUTIR16"
  | Z80.POP16AF => "POP16AF"
  | Z80.POP16r => "POP16r"
  | Z80.PUSH16AF => "PUSH16AF"
  | Z80.PUSH16r => "PUSH16r"
  | Z80.RES8bg => "RES8bg"
  | Z80.RES8bo => "RES8bo"
  | Z80.RES8bp => "RES8bp"
  | Z80.RET16 => "RET16"
  | Z80.RET16CC => "RET16CC"
  | Z80.RETI16 => "RETI16"
  | Z80.RETN16 => "RETN16"
  | Z80.RL8o => "RL8o"
  | Z80.RL8p => "RL8p"
  | Z80.RL8r => "RL8r"
  | Z80.RLC8o => "RLC8o"
  | Z80.RLC8p => "RLC8p"
  | Z80.RLC8r => "RLC8r"
  | Z80.RR8o => "RR8o"
  | Z80.RR8p => "RR8p"
  | Z80.RR8r => "RR8r"
  | Z80.RRC8o => "RRC8o"
  | Z80.RRC8p => "RRC8p"
  | Z80.RRC8r => "RRC8r"
  | Z80.SBC16SP => "SBC16SP"
  | Z80.SBC16aa => "SBC16aa"
  | Z80.SBC16ao => "SBC16ao"
  | Z80.SBC8ai => "SBC8ai"
  | Z80.SBC8ao => "SBC8ao"
  | Z80.SBC8ap => "SBC8ap"
  | Z80.SBC8ar => "SBC8ar"
  | Z80.SCF => "SCF"
  | Z80.SET8bg => "SET8bg"
  | Z80.SET8bo => "SET8bo"
  | Z80.SET8bp => "SET8bp"
  | Z80.SLA8o => "SLA8o"
  | Z80.SLA8p => "SLA8p"
  | Z80.SLA8r => "SLA8r"
  | Z80.SRA8o => "SRA8o"
  | Z80.SRA8p => "SRA8p"
  | Z80.SRA8r => "SRA8r"
  | Z80.SRL8o => "SRL8o"
  | Z80.SRL8p => "SRL8p"
  | Z80.SRL8r => "SRL8r"
  | Z80.SUB8ai => "SUB8ai"
  | Z80.SUB8ao => "SUB8ao"
  | Z80.SUB8ap => "SUB8ap"
  | Z80.SUB8ar => "SUB8ar"
  | Z80.XOR8ai => "XOR8ai"
  | Z80.XOR8ao => "XOR8ao"
  | Z80.XOR8ap => "XOR8ap"
  | Z80.XOR8ar => "XOR8ar"
  | Z80.ADC16SP => "ADC16SP"
  | Z80.ADC16aa => "ADC16aa"
  | Z80.ADC16ao => "ADC16ao"
  | Z80.JP16 => "JP16"
  | Z80.JP16CC => "JP16CC"
  | Z80.JR => "JR"
  | Z80.JRCC => "JRCC"
  | Z80.LD16or => "LD16or"
  | Z80.LD16pr => "LD16pr"
  | Z80.LD16ro => "LD16ro"
  | Z80.LD16rp => "LD16rp"
  | Z80.OtherOpcode _ => "UNKNOWN"
  end.

(** Modelled from the spec: the generated descriptor table; [JQ] and [JQCC]
    are the pseudo instructions (section 4.1.1) and every opcode is tagged
    Z80 mode. *)
Definition Z80Insts : MCInstrInfo :=
  {| get := fun op =>
       {| getNumOperands := Z80_NumOperands op;
          TSFlags := Z80II_Z80Mode;
          isPseudo := match op with Z80.JQ | Z80.JQCC => true | _ => false end |};
     getName := Z80_Name |}.

(** Modelled from the spec: the text printed for an instruction in the two
    "not supported" messages. *)
Definition print_MCInst (MI : MCInst) : string :=
  ("<MCInst " ++ Z80_Name (getOpcode MI) ++ ">")%string.

(** The encoder as built by default (neither switch defined), on that
    table. *)
Definition encode (MI : MCInst) : Outcome unit * EmitState :=
  encodeInstruction false false Z80II_ModeMask Z80II_EZ80Mode Z80Insts print_MCInst MI.

(** ** Running the encoder symbolically

    Every case of the encoder is straight-line code between tests on the
    operands; [run] unfolds the monad and splits on whatever test the
    evaluation is waiting for, leaving one goal per path. *)

Ltac head_match f :=
  lazymatch f with
  | match ?y with _ => _ end => y
  | ?g _ => head_match g
  end.

Ltac scrutinee t :=
  match t with
  | match ?y with _ => _ end => scrutinee y
  | ?f _ => let r := head_match f in scrutinee r
  | _ => t
  end.

Ltac head_of t :=
  lazymatch t with
  | ?f _ => head_of f
  | _ => t
  end.

Ltac emit_eval :=
  lazy beta iota zeta delta
    [accepted_then defined bind ret when ifelse notM andM isReg isImm isExpr
     getReg getImm getExpr Operands nth_error operands getOpcode getLoc
     emitByte getCurByte Fixups_push_back CurByte Emitted
     report_fatal_error report_fatal_instr_problem undefined
     check_num_operands negb Z80.Register_eqb ExprKind_eqb getKind
     setOperand set_nth].

Ltac split_on y :=
  first
    [ is_var y; destruct y
    | lazymatch y with
      | (_ =? _)%nat => destruct y eqn:?
      | (_ =? _)%Z => destruct y eqn:?
      | (_ <=? _)%Z => destruct y eqn:?
      end ].

(** Use again the outcome of the tests already split on. *)
Ltac reuse_tests :=
  repeat match goal with
         | H : ?t = _ |- context [?t] => rewrite H
         end.

(** [run fin]: [fin] closes the goals of the paths that return normally. *)
Ltac run fin :=
  emit_eval;
  lazymatch goal with
  | |- True => exact I
  | |- match ?l with _ => _ end =>
      let y := scrutinee l in split_on y; run fin
  | |- _ => fin
  end.

(** Unfold the case the dispatcher has selected. *)
Ltac unfold_case :=
  lazymatch goal with
  | |- accepted_then (?c _) _ => let h := head_of c in unfold h
  | |- defined (?c _) => let h := head_of c in unfold h
  end.

(** Enter the encoder with a descriptor as [described]. *)
Ltac enter Hd :=
  let Hmode := fresh "Hmode" in
  let Hpseudo := fresh "Hpseudo" in
  destruct Hd as (Hmode & Hpseudo & _);
  unfold encodeInstruction, encodeInstruction_body;
  lazy zeta; cbn [getOpcode];
  rewrite Hmode, Hpseudo; cbv iota.

Ltac enter_case Hd c :=
  let Hnum := fresh "Hnum" in
  pose proof (proj2 (proj2 Hd)) as Hnum;
  enter Hd; unfold c; lazy zeta; cbn [getOpcode]; rewrite Hnum.

Ltac imm16_fin :=
  lazy beta iota delta [app];
  lazymatch goal with
  | |- exists pre, [ToOS ?a; _; _] = _ => exists [a]; reflexivity
  | |- exists pre, [ToOS ?a; ToOS ?b; _; _] = _ => exists [a; b]; reflexivity
  end.

(** Closing a path of an instruction with an 8-bit immediate at operand
    [k]: evaluate the second run, then look for the position of the byte
    that carries the immediate. *)
Ltac template_from lem n :=
  first
    [ solve [ lazymatch goal with
              | |- exists pre post, forall i, exists s', @?R i = _ /\ _ =>
                  apply (lem n R); intro; eexists; split; reflexivity
              end ]
    | lazymatch n with
      | 24%nat => fail
      | _ => template_from lem (S n)
      end ].


(** ** Vocabulary of the further properties *)

(** [Q] holds of the outcome and the final state, however the call ends. *)
Definition in_every_outcome {A : Type} (r : Outcome A * EmitState)
    (Q : Outcome A -> EmitState -> Prop) : Prop :=
  match r with
  | (o, s) => Q o s
  end.

Definition is_Ok {A : Type} (o : Outcome A) : bool :=
  match o with
  | Ok _ => true
  | _ => false
  end.

(** The sizes one call keeps to: the counter equals the number of bytes
    written, at most 18 bytes and one fixup; a call that does not return
    normally has written at most 12 bytes and pushed no fixup. *)
Definition within_bounds (o : Outcome unit) (s : EmitState) : bool :=
  let bytes := List.length (written (Emitted s)) in
  let fixups := List.length (pushed (Emitted s)) in
  (CurByte s =? Z.of_nat bytes) &&
  (bytes <=? 18)%nat &&
  (fixups <=? 1)%nat &&
  (is_Ok o || ((fixups =? 0)%nat && (bytes <=? 12)%nat)).

(** The outcome of a call that has written [bytes] and returned. *)
Definition emits (bytes : list Z) : Outcome unit * EmitState :=
  (Ok tt, {| CurByte := Z.of_nat (List.length bytes); Emitted := map ToOS bytes |}).

(** The instruction with other operands. *)
Definition withOperands (MI : MCInst) (ops : list MCOperand) : MCInst :=
  {| getOpcode := getOpcode MI; operands := ops; getLoc := getLoc MI |}.

(** *** The dispatch *)

(** The two opcodes of the switch over the pseudo instructions. *)
Definition is_pseudo_opcode (op : Z80.Opcode) : bool :=
  match op with
  | Z80.JQ | Z80.JQCC => true
  | _ => false
  end.

(** The opcodes with a case of their own that encodes something: all the
    named opcodes but the group that is not implemented. *)
Definition has_case (op : Z80.Opcode) : bool :=
  match op with
  | Z80.OtherOpcode _
  | Z80.ADC16SP | Z80.ADC16aa | Z80.ADC16ao | Z80.JP16 | Z80.JP16CC | Z80.JR
  | Z80.JRCC | Z80.LD16or | Z80.LD16pr | Z80.LD16ro | Z80.LD16rp => false
  | _ => true
  end.

(** The cases that begin with [if (!numOperands)] where the others call
    [check_num_operands]. *)
Definition count_only_nonzero (op : Z80.Opcode) : bool :=
  match op with
  | Z80.DEC16r | Z80.DEC8r | Z80.INC16r | Z80.INC8r | Z80.RL8r | Z80.RLC8r
  | Z80.RR8r | Z80.RRC8r | Z80.SLA8r | Z80.SRA8r | Z80.SRL8r => true
  | _ => false
  end.

(** What the case of [op] asks of the operand count [n] of the
    descriptor. *)
Definition count_accepted (op : Z80.Opcode) (n : nat) : bool :=
  if count_only_nonzero op then negb (n =? 0)%nat
  else (Z80_NumOperands op =? n)%nat.

(** The message of the case of [op] for an operand count it refuses. *)
Definition count_message (name : string) (op : Z80.Opcode) (n : nat) : string :=
  if count_only_nonzero op then (name ++ ": Operand missing.")%string
  else ("Invalid number of arguments for instruction " ++ name ++ ": " ++
        string_of_unsigned (Z80_NumOperands op) ++ " vs " ++
        string_of_unsigned n ++ ".")%string.

(** *** Errors

    The messages of [report_fatal_error], for an instruction with
    mnemonic [name] that prints as [printed]. *)
Inductive FatalMessage (name printed : string) : string -> Prop :=
| EZ80_not_supported :
    FatalMessage name printed "EZ80 machine instructions not supported (yet?)"
| pseudo_not_supported :
    FatalMessage name printed ("Not supported pseudo instr: " ++ printed)
| instr_not_supported :
    FatalMessage name printed ("Not supported instr: " ++ name ++ " " ++ printed)
| wrong_number_of_arguments (expct actual : nat) :
    expct <> actual ->
    FatalMessage name printed
      ("Invalid number of arguments for instruction " ++ name ++ ": " ++
       string_of_unsigned expct ++ " vs " ++ string_of_unsigned actual ++ ".")
| instr_problem (er : string) :
    FatalMessage name printed (name ++ ": " ++ er).

(** Where the call has failed, it has failed with one of the messages. *)
Definition fails_with_message (name printed : string) (o : Outcome unit)
    (s : EmitState) : Prop :=
  match o with
  | Fatal msg => FatalMessage name printed msg
  | _ => True
  end.

(** *** Immediates *)

(** The number of bits of an immediate at operand [k] that the case of
    [op] can see. *)
Definition imm_width (op : Z80.Opcode) (k : nat) : Z :=
  match imm16_operand op with
  | Some k16 => if (k16 =? k)%nat then 16 else 8
  | None => 8
  end.

(** The operand that is a bit number or a condition code. *)
Definition three_bit_operand (op : Z80.Opcode) : option nat :=
  match op with
  | Z80.BIT8bg | Z80.BIT8bo | Z80.BIT8bp
  | Z80.RES8bg | Z80.RES8bo | Z80.RES8bp
  | Z80.SET8bg | Z80.SET8bo | Z80.SET8bp
  | Z80.RET16CC => Some 0%nat
  | Z80.CALL16CC | Z80.JQCC => Some 1%nat
  | _ => None
  end.

(** [v] more in the byte at position [p] of what has been emitted. *)
Fixpoint add_at (p : nat) (v : Z) (t : list Event) : list Event :=
  match t, p with
  | [], _ => []
  | ToOS c :: t', O => ToOS (c + v) :: t'
  | e :: t', O => e :: t'
  | e :: t', S p' => e :: add_at p' v t'
  end.

(** *** Register fields

    The number of an 8-bit register in an instruction byte; 6 stands for
    the byte at the address in HL. *)
Definition reg8_code (r : Z80.Register) : option Z :=
  match r with
  | Z80.B => Some 0
  | Z80.C => Some 1
  | Z80.D => Some 2
  | Z80.E => Some 3
  | Z80.H => Some 4
  | Z80.L => Some 5
  | Z80.A => Some 7
  | _ => None
  end.

Definition memory_code : Z := 6.

(** For the opcodes with one 8-bit register operand: the position of
    that operand, the position of the byte that carries its number, the
    weight of the number in that byte, and the opcode with the byte at
    the address in HL in the place of the register. *)
Definition register_field (op : Z80.Opcode) : option (nat * nat * Z * Z80.Opcode) :=
  match op with
  | Z80.ADC8ar => Some (0%nat, 0%nat, 1, Z80.ADC8ap)
  | Z80.ADD8ar => Some (0%nat, 0%nat, 1, Z80.ADD8ap)
  | Z80.AND8ar => Some (0%nat, 0%nat, 1, Z80.AND8ap)
  | Z80.CP8ar => Some (0%nat, 0%nat, 1, Z80.CP8ap)
  | Z80.OR8ar => Some (0%nat, 0%nat, 1, Z80.OR8ap)
  | Z80.SBC8ar => Some (0%nat, 0%nat, 1, Z80.SBC8ap)
  | Z80.SUB8ar => Some (0%nat, 0%nat, 1, Z80.SUB8ap)
  | Z80.XOR8ar => Some (0%nat, 0%nat, 1, Z80.XOR8ap)
  | Z80.INC8r => Some (0%nat, 0%nat, 8, Z80.INC8p)
  | Z80.DEC8r => Some (0%nat, 0%nat, 8, Z80.DEC8p)
  | Z80.LD8ri => Some (0%nat, 0%nat, 8, Z80.LD8pi)
  | Z80.RLC8r => Some (0%nat, 1%nat, 1, Z80.RLC8p)
  | Z80.RRC8r => Some (0%nat, 1%nat, 1, Z80.RRC8p)
  | Z80.RL8r => Some (0%nat, 1%nat, 1, Z80.RL8p)
  | Z80.RR8r => Some (0%nat, 1%nat, 1, Z80.RR8p)
  | Z80.SLA8r => Some (0%nat, 1%nat, 1, Z80.SLA8p)
  | Z80.SRA8r => Some (0%nat, 1%nat, 1, Z80.SRA8p)
  | Z80.SRL8r => Some (0%nat, 1%nat, 1, Z80.SRL8p)
  | Z80.BIT8bg => Some (1%nat, 1%nat, 1, Z80.BIT8bp)
  | Z80.RES8bg => Some (1%nat, 1%nat, 1, Z80.RES8bp)
  | Z80.SET8bg => Some (1%nat, 1%nat, 1, Z80.SET8bp)
  | _ => None
  end.

(** *** The halves of the index registers

    The Z80 has no documented instruction on IXH, IXL, IYH, IYL.  The
    encoder writes, for an operand that is such a half, a sequence that
    moves the index register through HL or through DE, works on the
    matching half of that pair, and moves the pair back where the half
    was written. *)

(** The pair a half is moved through. *)
Inductive Shuttle : Set := viaHL | viaDE.

Definition PUSH_of (sh : Shuttle) : Z :=
  match sh with viaHL => 0xe5 | viaDE => 0xd5 end.

Definition POP_of (sh : Shuttle) : Z :=
  match sh with viaHL => 0xe1 | viaDE => 0xd1 end.

(** The prefix byte of the index register of a half, and whether it is
    the high half. *)
Definition index_half (r : Z80.Register) : option (Z * bool) :=
  match r with
  | Z80.IXH => Some (0xdd, true)
  | Z80.IXL => Some (0xdd, false)
  | Z80.IYH => Some (0xfd, true)
  | Z80.IYL => Some (0xfd, false)
  | _ => None
  end.

(** The register that stands for the half inside the sequence. *)
Definition stand_in (sh : Shuttle) (high : bool) : Z80.Register :=
  match sh, high with
  | viaHL, true => Z80.H
  | viaHL, false => Z80.L
  | viaDE, true => Z80.D
  | viaDE, false => Z80.E
  end.

(** PUSH pair; PUSH index; POP pair. *)
Definition half_prologue (sh : Shuttle) (pfx : Z) : list Z :=
  [PUSH_of sh; pfx; 0xe5; POP_of sh].

(** With write-back: PUSH pair; POP index; POP pair.  Without: POP pair. *)
Definition half_epilogue (sh : Shuttle) (pfx : Z) (write_back : bool) : list Z :=
  if write_back then [PUSH_of sh; pfx; 0xe1; POP_of sh] else [POP_of sh].

(** For the opcodes with one 8-bit register operand that may be a half:
    the position of that operand, the pair the case moves the index
    register through, and whether the case moves it back.  The last
    column is as the cases are written: [BIT8bg] moves the pair back,
    [RES8bg] and [SET8bg] do not; [LD8og], which reads the half, does. *)
Definition half_expansion (op : Z80.Opcode) : option (nat * Shuttle * bool) :=
  match op with
  | Z80.ADC8ar | Z80.ADD8ar | Z80.AND8ar | Z80.CP8ar
  | Z80.OR8ar | Z80.SBC8ar | Z80.SUB8ar | Z80.XOR8ar => Some (0%nat, viaHL, false)
  | Z80.INC8r | Z80.DEC8r
  | Z80.RLC8r | Z80.RRC8r | Z80.RL8r | Z80.RR8r
  | Z80.SLA8r | Z80.SRA8r | Z80.SRL8r
  | Z80.LD8ri | Z80.LD8go => Some (0%nat, viaHL, true)
  | Z80.BIT8bg => Some (1%nat, viaHL, true)
  | Z80.RES8bg | Z80.SET8bg => Some (1%nat, viaHL, false)
  | Z80.LD8gp => Some (0%nat, viaDE, true)
  | Z80.LD8pg => Some (1%nat, viaDE, false)
  | Z80.LD8og => Some (2%nat, viaHL, true)
  | _ => None
  end.

(** The final state of the sequence around the final state [s] of the
    instruction on the stand-in. *)
Definition half_wrapped (sh : Shuttle) (pfx : Z) (write_back : bool)
    (s : EmitState) : EmitState :=
  {| CurByte :=
       CurByte s + 4 + Z.of_nat (List.length (half_epilogue sh pfx write_back));
     Emitted :=
       map ToOS (half_prologue sh pfx) ++ Emitted s ++
       map ToOS (half_epilogue sh pfx write_back) |}.

(** No operand is a half of an index register. *)
Definition no_index_half (ops : list MCOperand) : bool :=
  forallb (fun o => match o with
                    | Reg r => match index_half r with Some _ => false | None => true end
                    | _ => true
                    end) ops.

(** *** Operands in memory

    An opcode named [...p] takes its operand at the address in a register,
    an opcode named [...o] at an index register plus a displacement. *)

(** The [o] opcode of a [p] opcode. *)
Definition o_form (op : Z80.Opcode) : option Z80.Opcode :=
  match op with
  | Z80.ADC8ap => Some Z80.ADC8ao
  | Z80.ADD8ap => Some Z80.ADD8ao
  | Z80.AND8ap => Some Z80.AND8ao
  | Z80.CP8ap => Some Z80.CP8ao
  | Z80.OR8ap => Some Z80.OR8ao
  | Z80.SBC8ap => Some Z80.SBC8ao
  | Z80.SUB8ap => Some Z80.SUB8ao
  | Z80.XOR8ap => Some Z80.XOR8ao
  | Z80.INC8p => Some Z80.INC8o
  | Z80.DEC8p => Some Z80.DEC8o
  | Z80.RLC8p => Some Z80.RLC8o
  | Z80.RRC8p => Some Z80.RRC8o
  | Z80.RL8p => Some Z80.RL8o
  | Z80.RR8p => Some Z80.RR8o
  | Z80.SLA8p => Some Z80.SLA8o
  | Z80.SRA8p => Some Z80.SRA8o
  | Z80.SRL8p => Some Z80.SRL8o
  | Z80.BIT8bp => Some Z80.BIT8bo
  | Z80.RES8bp => Some Z80.RES8bo
  | Z80.SET8bp => Some Z80.SET8bo
  | Z80.LD8gp => Some Z80.LD8go
  | Z80.LD8pg => Some Z80.LD8og
  | Z80.LD8pi => Some Z80.LD8oi
  | _ => None
  end.

(** The position of the address register among the operands of a [p]
    opcode. *)
Definition pointer_operand (op : Z80.Opcode) : nat :=
  match op with
  | Z80.BIT8bp | Z80.RES8bp | Z80.SET8bp | Z80.LD8gp => 1
  | _ => 0
  end.


(** The prefix byte of an index register. *)
Definition index_prefix (r : Z80.Register) : option Z :=
  match r with
  | Z80.IX => Some 0xdd
  | Z80.IY => Some 0xfd
  | _ => None
  end.

(** The operands of the [o] opcode: the address register at [k] gives way
    to the index register and the displacement. *)
Definition indexed (k : nat) (idx : Z80.Register) (d : Z) (ops : list MCOperand) :
    list MCOperand :=
  firstn k ops ++ [Reg idx; Imm d] ++ skipn (S k) ops.

Fixpoint insert_at {A : Type} (n : nat) (x : A) (l : list A) : list A :=
  match n, l with
  | O, _ => x :: l
  | S n', y :: l' => y :: insert_at n' x l'
  | S _, [] => [x]
  end.

(** *** Register pairs

    The opcodes that take HL, IX or IY in the same place, and the
    position of that operand. *)
Definition pair_operand (op : Z80.Opcode) : option nat :=
  match op with
  | Z80.INC16r | Z80.DEC16r | Z80.PUSH16r | Z80.POP16r | Z80.JP16r | Z80.LD16SP
  | Z80.LD16ri | Z80.LD16am | Z80.ADD16aa | Z80.ADD16ao | Z80.ADD16SP
  | Z80.EX16SP => Some 0%nat
  | Z80.LD16ma => Some 1%nat
  | _ => None
  end.

(** An index register in the place of HL. *)
Definition HL_to (idx : Z80.Register) (o : MCOperand) : MCOperand :=
  match o with
  | Reg Z80.HL => Reg idx
  | _ => o
  end.

(** What has been emitted, one byte further into the instruction. *)
Definition one_byte_later (e : Event) : Event :=
  match e with
  | ToOS c => ToOS c
  | ToFixups f =>
      ToFixups (MCFixup_create (getOffset f + 1) (getValue f) (getKind_of f) (getLoc_of f))
  end.

(** *** Register to register

    The scheme of the case of [LD8gg], [LD8xx] and [LD8yy], as its
    comments describe it: LD r, r' is the byte 0x40 + 8 r + r'; a half of
    an index register goes through HL, or through DE when the other
    register is H or L; two halves of the same index register go through
    HL together; two halves of different index registers go through HL
    (the destination) and DE (the source). *)
Definition LD_byte (dst src : Z80.Register) : option Z :=
  match reg8_code dst, reg8_code src with
  | Some d, Some s => Some (0x40 + 8 * d + s)
  | _, _ => None
  end.

Definition is_H_or_L (r : Z80.Register) : bool :=
  match r with
  | Z80.H | Z80.L => true
  | _ => false
  end.

Definition shuttle_beside (other : Z80.Register) : Shuttle :=
  if is_H_or_L other then viaDE else viaHL.

Definition LD8gg_scheme (dst src : Z80.Register) : option (list Z) :=
  match index_half dst, index_half src with
  | None, None =>
      match LD_byte dst src with
      | Some b => Some [b]
      | None => None
      end
  | Some (pfx, high), None =>
      let sh := shuttle_beside src in
      match LD_byte (stand_in sh high) src with
      | Some b => Some (half_prologue sh pfx ++ [b] ++ half_epilogue sh pfx true)
      | None => None
      end
  | None, Some (pfx, high) =>
      let sh := shuttle_beside dst in
      match LD_byte dst (stand_in sh high) with
      | Some b => Some (half_prologue sh pfx ++ [b] ++ half_epilogue sh pfx false)
      | None => None
      end
  | Some (pd, hd), Some (ps, hs) =>
      if pd =? ps then
        match LD_byte (stand_in viaHL hd) (stand_in viaHL hs) with
        | Some b =>
            Some (half_prologue viaHL pd ++ [b] ++ half_epilogue viaHL pd true)
        | None => None
        end
      else
        match LD_byte (stand_in viaHL hd) (stand_in viaDE hs) with
        | Some b =>
            Some ([0xe5; 0xd5; pd; 0xe5; 0xe1; ps; 0xe5; 0xd1] ++ [b] ++
                  [0xe5; pd; 0xe1; 0xd1; 0xe1])
        | None => None
        end
  end.

(** The call has done what the scheme says, or failed where the scheme
    has nothing. *)
Definition as_LD8gg_scheme (dst src : Z80.Register) (o : Outcome unit)
    (s : EmitState) : Prop :=
  match LD8gg_scheme dst src with
  | Some bytes => (o, s) = emits bytes
  | None => exists msg, o = Fatal msg
  end.

(** *** The target description *)

(** The registrations that make object code. *)
Definition for_object_code (r : Registration) : bool :=
  match r with
  | RegisterMCCodeEmitter | RegisterELFStreamer
  | RegisterObjectTargetStreamer | RegisterMCAsmBackend => true
  | _ => false
  end.

(** *** Running the encoder on two instructions

    The tactics below follow [run]; they also unfold what the statements
    above add. *)

Ltac emit_eval_all :=
  lazy beta iota zeta delta
    [in_every_outcome accepted_then defined bind ret when ifelse notM andM
     isReg isImm isExpr getReg getImm getExpr Operands nth_error operands
     getOpcode getLoc emitByte getCurByte Fixups_push_back CurByte Emitted
     report_fatal_error report_fatal_instr_problem undefined
     check_num_operands negb Z80.Register_eqb ExprKind_eqb getKind
     setOperand set_nth].

(** [run_all fin]: as [run], for statements about every outcome. *)
Ltac run_all fin :=
  emit_eval_all;
  lazymatch goal with
  | |- True => exact I
  | |- match ?l with _ => _ end =>
      let y := scrutinee l in split_on y; run_all fin
  | |- _ => fin
  end.

Ltac unfold_case_all :=
  lazymatch goal with
  | |- in_every_outcome (?c _) _ => let h := head_of c in unfold h
  end.

Ltac emit_eval_ops :=
  lazy beta iota zeta delta
    [accepted_then defined bind ret when ifelse notM andM isReg isImm isExpr
     getReg getImm getExpr Operands nth_error operands getOpcode getLoc
     emitByte getCurByte Fixups_push_back CurByte Emitted
     report_fatal_error report_fatal_instr_problem undefined
     check_num_operands negb Z80.Register_eqb ExprKind_eqb getKind
     setOperand set_nth withOperands app indexed firstn skipn insert_at
     map HL_to].

(** [run_ops fin]: as [run], where the second instruction has the
    operands of the first rearranged. *)
Ltac run_ops fin :=
  emit_eval_ops;
  lazymatch goal with
  | |- True => exact I
  | |- match ?l with _ => _ end =>
      let y := scrutinee l in split_on y; run_ops fin
  | |- _ => fin
  end.

(** Unfold the cases of the two instructions. *)
Ltac unfold_cases :=
  lazymatch goal with
  | |- accepted_then (?c _) (fun s => ?c' _ = _) =>
      let h := head_of c in
      let h' := head_of c' in
      unfold h, h'
  end.

(** Split on the test the run of the first instruction waits for; the
    branch of interest is the one where the test fails. *)
Ltac split_test :=
  lazymatch goal with
  | |- accepted_then ((if ?t then _ else _) _) _ => destruct t; [exact I|]
  end.

Ltac nat_tests :=
  repeat match goal with
         | H : (_ =? _)%nat = true |- _ => apply Nat.eqb_eq in H
         | H : (_ =? _)%nat = false |- _ => apply Nat.eqb_neq in H
         end.

Ltac shape_fin :=
  nat_tests;
  repeat split;
  first [ reflexivity
        | cbn [count_only_nonzero Z80_NumOperands];
          first [ apply Nat.eqb_eq; assumption
                | apply negb_true_iff, Nat.eqb_neq; assumption ]
        | simpl; lia ].

(** Closing a path for an instruction that differs in one immediate: find
    the operand, bring the two immediates to the same truncation, and
    follow the path again. *)
Ltac same_modulo :=
  let Hk := fresh "Hk" in
  let Hmod := fresh "Hmod" in
  intros [|[|[|?]]] ? ? Hk Hmod;
  cbn [nth_error] in Hk;
  try discriminate Hk;
  try (injection Hk as ->);
  emit_eval;
  first [ reflexivity
        | cbn [imm_width imm16_operand Nat.eqb] in Hmod;
          lazymatch type of Hmod with
          | ?i mod 2 ^ 8 = ?j mod 2 ^ 8 =>
              change (uint8_t i = uint8_t j) in Hmod
          | ?i mod 2 ^ 16 = ?j mod 2 ^ 16 =>
              change (uint16_t i = uint16_t j) in Hmod
          end;
          rewrite <- ?Hmod; reuse_tests; emit_eval; reflexivity ].

(** A test [4 <=? x] or [8 <=? x] that has failed leaves four or eight
    values of [x]. *)
Ltac few_values :=
  match goal with
  | H : (8 <=? uint8_t ?i) = false |- _ =>
      let x := fresh "x" in
      let Hx := fresh "Hx" in
      apply Z.leb_gt in H;
      assert (Hx : 0 <= uint8_t i) by (apply Z.mod_pos_bound; reflexivity);
      generalize dependent (uint8_t i); intros x; intros;
      assert (x = 0 \/ x = 1 \/ x = 2 \/ x = 3 \/ x = 4 \/ x = 5 \/ x = 6 \/ x = 7)
        as [->|[->|[->|[->|[->|[->|[->| ->]]]]]]] by lia
  | H : (4 <=? uint8_t ?i) = false |- _ =>
      let x := fresh "x" in
      let Hx := fresh "Hx" in
      apply Z.leb_gt in H;
      assert (Hx : 0 <= uint8_t i) by (apply Z.mod_pos_bound; reflexivity);
      generalize dependent (uint8_t i); intros x; intros;
      assert (x = 0 \/ x = 1 \/ x = 2 \/ x = 3) as [->|[->|[->| ->]]] by lia
  end.

(** Look for the byte that carries the field. *)
Ltac field_at p :=
  first
    [ solve [ exists p; eexists; split; [reflexivity | split; reflexivity] ]
    | lazymatch p with
      | 8%nat => fail
      | _ => field_at (S p)
      end ].

Ltac three_bit_fin :=
  let Hk := fresh "Hk" in
  let Hop := fresh "Hop" in
  intros ? ? Hop Hk;
  cbn [three_bit_operand] in Hop; injection Hop as <-;
  lazy beta iota delta [nth_error] in Hk; injection Hk as <-;
  emit_eval;
  few_values; (split; [reflexivity|]); field_at 0%nat.


(** ** The scenarios of the specification, run on the default encoder *)

Example scenario_ADD_A_B :
  encode {| getOpcode := Z80.ADD8ar; operands := [Reg Z80.B]; getLoc := 0%N |}
  = (Ok tt, {| CurByte := 1; Emitted := [ToOS 0x80] |}).
Proof. reflexivity. Qed.

Example scenario_LD_BC_nn :
  encode {| getOpcode := Z80.LD16ri;
            operands := [Reg Z80.BC; Imm 0x1234];
            getLoc := 0%N |}
  = (Ok tt, {| CurByte := 3; Emitted := [ToOS 0x01; ToOS 0x34; ToOS 0x12] |}).
Proof. reflexivity. Qed.

Example scenario_LD_IX_d_n :
  encode {| getOpcode := Z80.LD8oi;
            operands := [Reg Z80.IX; Imm 5; Imm 0x42];
            getLoc := 0%N |}
  = (Ok tt, {| CurByte := 4;
               Emitted := [ToOS 0xdd; ToOS 0x36; ToOS 0x05; ToOS 0x42] |}).
Proof. reflexivity. Qed.

Example scenario_BIT_3_IY_d :
  encode {| getOpcode := Z80.BIT8bo;
            operands := [Imm 3; Reg Z80.IY; Imm 7];
            getLoc := 0%N |}
  = (Ok tt, {| CurByte := 4;
               Emitted := [ToOS 0xfd; ToOS 0xcb; ToOS 0x07; ToOS 0x5e] |}).
Proof. reflexivity. Qed.

Example scenario_wrong_operand_count :
  encodeInstruction false false Z80II_ModeMask Z80II_EZ80Mode
    {| get := fun _ => {| getNumOperands := 2; TSFlags := 0; isPseudo := false |};
       getName := Z80_Name |}
    print_MCInst
    {| getOpcode := Z80.CCF; operands := []; getLoc := 0%N |}
  = (Fatal "Invalid number of arguments for instruction CCF: 0 vs 2.",
     {| CurByte := 0; Emitted := [] |}).
Proof. reflexivity. Qed.

Example scenario_eZ80_mode :
  encodeInstruction false false Z80II_ModeMask Z80II_EZ80Mode
    {| get := fun _ => {| getNumOperands := 0;
                          TSFlags := Z80II_EZ80Mode;
                          isPseudo := false |};
       getName := Z80_Name |}
    print_MCInst
    {| getOpcode := Z80.NOP; operands := []; getLoc := 0%N |}
  = (Fatal "EZ80 machine instructions not supported (yet?)",
     {| CurByte := 0; Emitted := [] |}).
Proof. reflexivity. Qed.

Example scenario_operand_missing :
  encode {| getOpcode := Z80.ADD8ai; operands := []; getLoc := 0%N |}
  = (Undefined, {| CurByte := 0; Emitted := [] |}).
Proof. reflexivity. Qed.


(** ** Shape of the output of every accepted instruction *)

Section Shape.

Variables (jr jrcc : bool) (ModeMask EZ80Mode : Z).
Variables (MCII : MCInstrInfo) (print_MI : MCInst -> string).

(** Whatever the tables and the switches, what an accepted instruction
    has emitted is well shaped.  The proof runs every case of the encoder
    along every path. *)
Lemma encode_well_shaped (MI : MCInst) :
  accepted_then (encodeInstruction jr jrcc ModeMask EZ80Mode MCII print_MI MI)
    (fun s => well_shaped jr jrcc (getOpcode MI) 0 (Emitted s) = true).
Proof.
  destruct MI as [op ops loc].
  unfold encodeInstruction, encodeInstruction_body.
  lazy zeta; cbn [getOpcode].
  destruct (EZ80Mode =? Z.land (TSFlags (get MCII op)) ModeMask); [exact I|].
  destruct (isPseudo (get MCII op)).
  - destruct op; try exact I; unfold_case.
    + destruct jr; run ltac:(vm_compute; reflexivity).
    + destruct jrcc; run ltac:(vm_compute; reflexivity).
  - destruct op; try exact I; unfold_case; run ltac:(vm_compute; reflexivity).
Qed.

(** An instruction that has the operands its descriptor counts never
    takes the encoder to undefined behaviour: every operand the encoder
    reads is there, and every accessor is used after the matching test. *)
Lemma encode_defined (MI : MCInst) :
  (getNumOperands (get MCII (getOpcode MI)) <= List.length (operands MI))%nat ->
  defined (encodeInstruction jr jrcc ModeMask EZ80Mode MCII print_MI MI).
Proof.
  destruct MI as [op ops loc].
  unfold encodeInstruction, encodeInstruction_body.
  lazy zeta; cbn [getOpcode operands].
  intros Hlen.
  destruct (EZ80Mode =? Z.land (TSFlags (get MCII op)) ModeMask); [exact I|].
  destruct (isPseudo (get MCII op)).
  - destruct op; try exact I; unfold_case.
    + destruct jr; run idtac;
        match goal with
        | H : (_ =? _)%nat = true |- _ =>
            apply Nat.eqb_eq in H; rewrite <- H in Hlen; simpl in Hlen; lia
        end.
    + destruct jrcc; run idtac;
        match goal with
        | H : (_ =? _)%nat = true |- _ =>
            apply Nat.eqb_eq in H; rewrite <- H in Hlen; simpl in Hlen; lia
        end.
  - destruct op; try exact I; unfold_case; run idtac;
      match goal with
      | H : (_ =? _)%nat = true |- _ =>
          apply Nat.eqb_eq in H; rewrite <- H in Hlen; simpl in Hlen; lia
      | H : (_ =? 0)%nat = false |- _ =>
          apply Nat.eqb_neq in H; simpl in Hlen; lia
      end.
Qed.

End Shape.


(** ** What the shape says about fixups *)

Lemma placeholders_spec (n : nat) (t : list Event) :
  placeholders n t = true -> t = repeat (ToOS 0) n.
Proof.
  revert t; induction n as [|n IH]; intros [|[c|f] t] H; simpl in H;
    try discriminate H; try reflexivity.
  apply andb_prop in H as [Hc Ht].
  apply Z.eqb_eq in Hc; subst c.
  simpl; f_equal; apply IH; exact Ht.
Qed.

Lemma pushed_repeat_ToOS (c : Z) (n : nat) : pushed (repeat (ToOS c) n) = [].
Proof. induction n; simpl; auto. Qed.

Lemma no_fixup_in_placeholders (n : nat) (pre post : list Event) (f : MCFixup) :
  placeholders n (pre ++ ToFixups f :: post) = false.
Proof.
  destruct (placeholders n (pre ++ ToFixups f :: post)) eqn:H; [|reflexivity].
  apply placeholders_spec in H.
  assert (Hin : In (ToFixups f) (repeat (ToOS 0) n))
    by (rewrite <- H; apply in_elt).
  apply repeat_spec in Hin; discriminate Hin.
Qed.

(** Any fixup of a well-shaped output sits after bytes only, at the offset
    they make up, and is followed by exactly its placeholder bytes. *)
Lemma well_shaped_fixup (jr jrcc : bool) (op : Z80.Opcode) (pre : list Event) :
  forall (n : Z) (f : MCFixup) (post : list Event),
    well_shaped jr jrcc op n (pre ++ ToFixups f :: post) = true ->
    pushed pre = [] /\
    getOffset f = n + Z.of_nat (List.length (written pre)) /\
    exists k, getKind_of f = FK_Target k /\
              kind_allowed jr jrcc op k = true /\
              post = repeat (ToOS 0) (placeholder_bytes k).
Proof.
  induction pre as [|[c|g] pre IH]; intros n f post H; simpl in H.
  - apply andb_prop in H as [Hoff Hk].
    apply Z.eqb_eq in Hoff.
    destruct (getKind_of f) as [| | | |k|] eqn:Ek; try discriminate Hk.
    apply andb_prop in Hk as [Ha Hp].
    apply placeholders_spec in Hp.
    simpl; repeat split; [lia|].
    exists k; auto.
  - destruct (IH _ _ _ H) as (Hp & Hoff & Hk).
    simpl; repeat split; [exact Hp | rewrite Hoff; lia | exact Hk].
  - apply andb_prop in H as [_ Hk].
    destruct (getKind_of g); try discriminate Hk.
    apply andb_prop in Hk as [_ Hp].
    rewrite no_fixup_in_placeholders in Hp; discriminate Hp.
Qed.

Lemma well_shaped_pushed (jr jrcc : bool) (op : Z80.Opcode) (t : list Event) :
  forall (n : Z) (f : MCFixup),
    well_shaped jr jrcc op n t = true ->
    In f (pushed t) ->
    exists k, getKind_of f = FK_Target k /\ kind_allowed jr jrcc op k = true.
Proof.
  induction t as [|[c|g] t IH]; intros n f H Hin; simpl in H, Hin.
  - contradiction.
  - eapply IH; eauto.
  - apply andb_prop in H as [_ Hk].
    destruct (getKind_of g) as [| | | |k|] eqn:Ek; try discriminate Hk.
    apply andb_prop in Hk as [Ha Hp].
    apply placeholders_spec in Hp; subst t.
    rewrite pushed_repeat_ToOS in Hin.
    destruct Hin as [<-|[]]; exists k; auto.
Qed.

Lemma accepted_then_elim {A : Type} (r : Outcome A * EmitState)
    (Q : EmitState -> Prop) (a : A) (s : EmitState) :
  accepted_then r Q -> r = (Ok a, s) -> Q s.
Proof. intros H ->; exact H. Qed.

(** ** Fixups of an accepted instruction *)

(** C2.  For every instruction the encoder accepts, each fixup it emits is
    created with an offset equal to the number of bytes emitted before it
    in this call, and what the call emits after it is exactly the
    placeholder of its kind: ceil (W / 8) zero bytes for a kind of bit
    width W, which is two bytes for [fixup_16] and one for
    [fixup_8_pcrel].  Before the fixup the call has emitted bytes only. *)
Theorem fixup_offset_and_placeholders
    (jr jrcc : bool) (ModeMask EZ80Mode : Z) (MCII : MCInstrInfo)
    (print_MI : MCInst -> string) (MI : MCInst) (s : EmitState) :
  encodeInstruction jr jrcc ModeMask EZ80Mode MCII print_MI MI = (Ok tt, s) ->
  forall (pre : list Event) (f : MCFixup) (post : list Event),
    Emitted s = pre ++ ToFixups f :: post ->
    pushed pre = [] /\
    getOffset f = Z.of_nat (List.length (written pre)) /\
    (exists k, getKind_of f = FK_Target k /\
               post = repeat (ToOS 0) (placeholder_bytes k)) /\
    placeholder_bytes Z80.fixup_16 = 2%nat /\
    placeholder_bytes Z80.fixup_8_pcrel = 1%nat.
Proof.
  intros Hrun pre f post Hsplit.
  pose proof (accepted_then_elim _ _ _ _
                (encode_well_shaped jr jrcc ModeMask EZ80Mode MCII print_MI MI) Hrun) as Hs.
  cbv beta in Hs; rewrite Hsplit in Hs.
  destruct (well_shaped_fixup _ _ _ _ _ _ _ Hs) as (Hp & Hoff & k & Hk & _ & Hpost).
  repeat split; try assumption; try reflexivity.
  exists k; auto.
Qed.

Lemma fixup_offset_and_placeholders_witness :
  let f := MCFixup_create 1 (MCSymbolRefExpr "main") (FK_Target Z80.fixup_16) 7%N in
  pushed [ToOS 0xcd] = [] /\
  getOffset f = Z.of_nat (List.length (written [ToOS 0xcd])) /\
  (exists k, getKind_of f = FK_Target k /\
             [ToOS 0; ToOS 0] = repeat (ToOS 0) (placeholder_bytes k)) /\
  placeholder_bytes Z80.fixup_16 = 2%nat /\
  placeholder_bytes Z80.fixup_8_pcrel = 1%nat.
Proof.
  intro f.
  apply (fixup_offset_and_placeholders false false Z80II_ModeMask Z80II_EZ80Mode
           Z80Insts print_MCInst
           {| getOpcode := Z80.CALL16;
              operands := [Expr (MCSymbolRefExpr "main")];
              getLoc := 7%N |}
           {| CurByte := 3; Emitted := [ToOS 0xcd; ToFixups f; ToOS 0; ToOS 0] |}).
  - reflexivity.
  - reflexivity.
Defined.

(** C8.  For every instruction the encoder accepts, every fixup it pushes
    has kind [fixup_16], or [fixup_8_pcrel] in the case of [JQ] built with
    [EMIT_JR_INSTEAD_OF_JP] and of [JQCC] built with
    [EMIT_JRCC_INSTEAD_OF_JPCC]; by default it is [fixup_16]; it is never
    one of the other eleven kinds. *)
Theorem emitted_fixup_kinds
    (jr jrcc : bool) (ModeMask EZ80Mode : Z) (MCII : MCInstrInfo)
    (print_MI : MCInst -> string) (MI : MCInst) (s : EmitState) :
  encodeInstruction jr jrcc ModeMask EZ80Mode MCII print_MI MI = (Ok tt, s) ->
  forall f : MCFixup,
    In f (pushed (Emitted s)) ->
    (getKind_of f = FK_Target Z80.fixup_16 \/
     getKind_of f = FK_Target Z80.fixup_8_pcrel /\
     (getOpcode MI = Z80.JQ /\ jr = true \/
      getOpcode MI = Z80.JQCC /\ jrcc = true)) /\
    (jr = false -> jrcc = false -> getKind_of f = FK_Target Z80.fixup_16) /\
    ~ In (getKind_of f)
        (map FK_Target
           [Z80.fixup_8; Z80.fixup_8_dis; Z80.fixup_24; Z80.fixup_32;
            Z80.fixup_byte0; Z80.fixup_byte1; Z80.fixup_byte2; Z80.fixup_byte3;
            Z80.fixup_word0; Z80.fixup_word1; Z80.fixup_16_be]).
Proof.
  intros Hrun f Hin.
  pose proof (accepted_then_elim _ _ _ _
                (encode_well_shaped jr jrcc ModeMask EZ80Mode MCII print_MI MI) Hrun) as Hs.
  cbv beta in Hs.
  destruct (well_shaped_pushed _ _ _ _ _ _ Hs Hin) as (k & Hk & Ha).
  rewrite Hk.
  destruct k; try discriminate Ha; simpl in Ha.
  - (* fixup_8_pcrel *)
    assert (Hop : getOpcode MI = Z80.JQ /\ jr = true \/
                  getOpcode MI = Z80.JQCC /\ jrcc = true)
      by (destruct (getOpcode MI); try discriminate Ha; auto).
    split; [|split].
    + right; auto.
    + intros -> ->; destruct Hop as [[_ H]|[_ H]]; discriminate H.
    + simpl; intros H; repeat (destruct H as [H|H]; [discriminate H|]); exact H.
  - (* fixup_16 *)
    split; [|split].
    + left; reflexivity.
    + reflexivity.
    + simpl; intros H; repeat (destruct H as [H|H]; [discriminate H|]); exact H.
Qed.

Lemma emitted_fixup_kinds_witness :
  let f := MCFixup_create 1 (MCSymbolRefExpr "loop") (FK_Target Z80.fixup_16) 0%N in
  (getKind_of f = FK_Target Z80.fixup_16 \/
   getKind_of f = FK_Target Z80.fixup_8_pcrel /\
   (Z80.JQ = Z80.JQ /\ false = true \/ Z80.JQ = Z80.JQCC /\ false = true)) /\
  (false = false -> false = false -> getKind_of f = FK_Target Z80.fixup_16) /\
  ~ In (getKind_of f)
      (map FK_Target
         [Z80.fixup_8; Z80.fixup_8_dis; Z80.fixup_24; Z80.fixup_32;
          Z80.fixup_byte0; Z80.fixup_byte1; Z80.fixup_byte2; Z80.fixup_byte3;
          Z80.fixup_word0; Z80.fixup_word1; Z80.fixup_16_be]).
Proof.
  intro f.
  apply (emitted_fixup_kinds false false Z80II_ModeMask Z80II_EZ80Mode
           Z80Insts print_MCInst
           {| getOpcode := Z80.JQ;
              operands := [Expr (MCSymbolRefExpr "loop")];
              getLoc := 0%N |}
           {| CurByte := 3; Emitted := [ToOS 0xc3; ToFixups f; ToOS 0; ToOS 0] |}).
  - reflexivity.
  - simpl; left; reflexivity.
Defined.


(** ** The scenarios and cases the specification singles out *)

(** C1.  [JQ] with one expression operand, built without
    [EMIT_JR_INSTEAD_OF_JP]: the call returns normally, having written
    C3, pushed one [fixup_16] with offset 1 for that expression, then
    written 00 00; so [OS] receives exactly C3 00 00 and [Fixups] exactly
    that one fixup. *)
Theorem JQ_long_form
    (jrcc : bool) (ModeMask EZ80Mode : Z) (MCII : MCInstrInfo)
    (print_MI : MCInst -> string) (e : MCExpr) (loc : SMLoc) :
  described ModeMask EZ80Mode (get MCII Z80.JQ) true 1 ->
  let fixup := MCFixup_create 1 e (FK_Target Z80.fixup_16) loc in
  let s := {| CurByte := 3;
              Emitted := [ToOS 0xc3; ToFixups fixup; ToOS 0x00; ToOS 0x00] |} in
  encodeInstruction false jrcc ModeMask EZ80Mode MCII print_MI
    {| getOpcode := Z80.JQ; operands := [Expr e]; getLoc := loc |} = (Ok tt, s) /\
  written (Emitted s) = [0xc3; 0x00; 0x00] /\
  pushed (Emitted s) = [fixup] /\
  getOffset fixup = 1 /\
  getValue fixup = e.
Proof.
  intros Hd fixup s.
  split; [|repeat split].
  enter_case Hd case_JQ.
  reflexivity.
Qed.

Lemma JQ_long_form_witness :
  encode {| getOpcode := Z80.JQ;
            operands := [Expr (MCSymbolRefExpr "sym")];
            getLoc := 0%N |}
  = (Ok tt,
     {| CurByte := 3;
        Emitted := [ToOS 0xc3;
                    ToFixups (MCFixup_create 1 (MCSymbolRefExpr "sym")
                                (FK_Target Z80.fixup_16) 0%N);
                    ToOS 0x00; ToOS 0x00] |}).
Proof.
  refine (proj1 (JQ_long_form false Z80II_ModeMask Z80II_EZ80Mode Z80Insts
                   print_MCInst (MCSymbolRefExpr "sym") 0%N _)).
  repeat split.
Defined.

(** C3.  [ADD8ar] with the single register operand [IXH] emits exactly
    E5 DD E5 E1 84 E1 (PUSH HL; PUSH IX; POP HL; ADD A,H; POP HL) and no
    fixup: the expansion ends with the one POP HL, not with the
    write-back E5 DD E1 E1. *)
Theorem ADD8ar_IXH
    (jr jrcc : bool) (ModeMask EZ80Mode : Z) (MCII : MCInstrInfo)
    (print_MI : MCInst -> string) (loc : SMLoc) :
  described ModeMask EZ80Mode (get MCII Z80.ADD8ar) false 1 ->
  exists s : EmitState,
    encodeInstruction jr jrcc ModeMask EZ80Mode MCII print_MI
      {| getOpcode := Z80.ADD8ar; operands := [Reg Z80.IXH]; getLoc := loc |}
    = (Ok tt, s) /\
    written (Emitted s) = [0xe5; 0xdd; 0xe5; 0xe1; 0x84; 0xe1] /\
    pushed (Emitted s) = [] /\
    CurByte s = 6.
Proof.
  intros Hd.
  eexists; split.
  - enter_case Hd case_ADD8ar. reflexivity.
  - repeat split.
Qed.

Lemma ADD8ar_IXH_witness :
  exists s : EmitState,
    encode {| getOpcode := Z80.ADD8ar; operands := [Reg Z80.IXH]; getLoc := 0%N |}
    = (Ok tt, s) /\
    written (Emitted s) = [0xe5; 0xdd; 0xe5; 0xe1; 0x84; 0xe1] /\
    pushed (Emitted s) = [] /\
    CurByte s = 6.
Proof.
  apply (ADD8ar_IXH false false Z80II_ModeMask Z80II_EZ80Mode Z80Insts
           print_MCInst 0%N).
  repeat split.
Defined.

(** C4.  [shouldForceRelocation] answers true exactly for the kinds
    [fixup_8_dis], [fixup_8_pcrel] and [fixup_16]; for the generic data
    kinds and every other kind it answers false. *)
Theorem shouldForceRelocation_iff (Fixup : MCFixup) :
  (shouldForceRelocation Fixup = true <->
   getKind_of Fixup = FK_Target Z80.fixup_8_dis \/
   getKind_of Fixup = FK_Target Z80.fixup_8_pcrel \/
   getKind_of Fixup = FK_Target Z80.fixup_16) /\
  (In (getKind_of Fixup) [FK_Data_1; FK_Data_2; FK_Data_4] ->
   shouldForceRelocation Fixup = false) /\
  (forall id, getKind_of Fixup = FK_Generic id \/ getKind_of Fixup = FK_Beyond id ->
              shouldForceRelocation Fixup = false).
Proof.
  unfold shouldForceRelocation.
  split; [split|split].
  - destruct (getKind_of Fixup) as [| | | |[]|]; intros H; try discriminate H; auto.
  - intros [->|[->| ->]]; reflexivity.
  - intros [<-|[<-|[<-|[]]]]; reflexivity.
  - intros id [-> | ->]; reflexivity.
Qed.

Lemma shouldForceRelocation_iff_witness :
  shouldForceRelocation (MCFixup_create 0 (MCConstantExpr 0) FK_Data_2 0%N) = false.
Proof.
  apply (proj1 (proj2 (shouldForceRelocation_iff
                         (MCFixup_create 0 (MCConstantExpr 0) FK_Data_2 0%N)))).
  simpl; right; left; reflexivity.
Defined.


(** C5.  [getRelocType] gives [FK_Data_1], [FK_Data_2], [FK_Data_4] the
    codes of [fixup_8], [fixup_16], [fixup_32] (R_Z80_8, R_Z80_16,
    R_Z80_32); it gives each of the thirteen target kinds a code; its
    assertion on [IsPCRel] is made for [fixup_8_pcrel] and for no other
    kind; any other kind ends in [llvm_unreachable], with the name of the
    symbol where the value is a bare symbol reference. *)
Theorem getRelocType_cases (Offset : Z) (Value : MCExpr) (Loc : SMLoc) :
  let fx := fun k => MCFixup_create Offset Value k Loc in
  (forall pc,
     getRelocType (fx FK_Data_1) pc = Reloc R_Z80_8 /\
     getRelocType (fx (FK_Target Z80.fixup_8)) pc = Reloc R_Z80_8 /\
     getRelocType (fx FK_Data_2) pc = Reloc R_Z80_16 /\
     getRelocType (fx (FK_Target Z80.fixup_16)) pc = Reloc R_Z80_16 /\
     getRelocType (fx FK_Data_4) pc = Reloc R_Z80_32 /\
     getRelocType (fx (FK_Target Z80.fixup_32)) pc = Reloc R_Z80_32) /\
  (forall k, exists code, getRelocType (fx (FK_Target k)) true = Reloc code) /\
  (forall kind,
     getRelocType (fx kind) false = AssertionFailed "IsPCRel" <->
     kind = FK_Target Z80.fixup_8_pcrel) /\
  (forall kind cond, getRelocType (fx kind) true <> AssertionFailed cond) /\
  (forall kind,
     kind <> FK_Target Z80.fixup_8_pcrel ->
     getRelocType (fx kind) false = getRelocType (fx kind) true) /\
  (forall kind pc,
     (forall id, kind = FK_Generic id \/ kind = FK_Beyond id ->
        getRelocType (fx kind) pc =
        Unreachable ("Invalid fixup kind! " ++
                     match Value with
                     | MCSymbolRefExpr name => name
                     | _ => "(not even a symref!)"
                     end)%string) /\
     ((exists msg, getRelocType (fx kind) pc = Unreachable msg) <->
      exists id, kind = FK_Generic id \/ kind = FK_Beyond id)).
Proof.
  intro fx; unfold fx, getRelocType; cbn [getKind_of getValue].
  repeat apply conj.
  - intros pc; repeat split.
  - intros []; eexists; reflexivity.
  - intros [| | | |[]|]; split; intros H; try discriminate H; reflexivity.
  - intros [| | | |[]|] cond H; discriminate H.
  - intros [| | | |[]|] H; try reflexivity; contradiction H; reflexivity.
  - intros kind pc; split.
    + intros id [-> | ->]; destruct Value; reflexivity.
    + split.
      * intros [msg H].
        destruct kind as [| | |id|[]|id]; try discriminate H;
          try (destruct pc; discriminate H); exists id; auto.
      * intros [id [-> | ->]]; eexists; reflexivity.
Qed.

Lemma getRelocType_cases_witness :
  getRelocType (MCFixup_create 4 (MCSymbolRefExpr "x") FK_Data_2 0%N) false =
  getRelocType (MCFixup_create 4 (MCSymbolRefExpr "x") FK_Data_2 0%N) true.
Proof.
  apply (proj1 (proj2 (proj2 (proj2 (proj2
           (getRelocType_cases 4 (MCSymbolRefExpr "x") 0%N)))))).
  discriminate.
Defined.

(** C6.  For each of [ADC16SP], [ADC16aa], [ADC16ao], [JP16], [JP16CC],
    [JR], [JRCC], [LD16or], [LD16pr], [LD16ro], [LD16rp] (an instruction
    neither tagged eZ80 nor pseudo, so that the switch is reached), the
    call ends in the fatal error "<mnemonic>: Not implemented.", whatever
    the operands, with no byte written and no fixup pushed. *)
Theorem not_implemented_fatal
    (jr jrcc : bool) (ModeMask EZ80Mode : Z) (MCII : MCInstrInfo)
    (print_MI : MCInst -> string) (MI : MCInst) :
  In (getOpcode MI) not_implemented ->
  described ModeMask EZ80Mode (get MCII (getOpcode MI)) false
    (getNumOperands (get MCII (getOpcode MI))) ->
  encodeInstruction jr jrcc ModeMask EZ80Mode MCII print_MI MI
  = (Fatal (getName MCII (getOpcode MI) ++ ": Not implemented.")%string,
     {| CurByte := 0; Emitted := [] |}).
Proof.
  destruct MI as [op ops loc]; cbn [getOpcode].
  intros Hin Hd.
  enter Hd.
  unfold not_implemented in Hin; simpl in Hin.
  repeat (destruct Hin as [<-|Hin]; [reflexivity|]).
  contradiction.
Qed.

Lemma not_implemented_fatal_witness :
  encode {| getOpcode := Z80.JR; operands := [Imm 5]; getLoc := 0%N |}
  = (Fatal "JR: Not implemented.", {| CurByte := 0; Emitted := [] |}).
Proof.
  apply (not_implemented_fatal false false Z80II_ModeMask Z80II_EZ80Mode
           Z80Insts print_MCInst
           {| getOpcode := Z80.JR; operands := [Imm 5]; getLoc := 0%N |}).
  - simpl; do 5 right; left; reflexivity.
  - repeat split.
Defined.


(** ** 16-bit immediates *)

Lemma accepted_then_intro {A : Type} (r : Outcome A * EmitState)
    (Q : EmitState -> Prop) :
  (forall s, Q s) -> accepted_then r Q.
Proof. intros H; destruct r as [[a|msg|] s]; simpl; auto. Qed.

Lemma imm16_lo_spec (v : Z) : imm16_lo v = v mod 256.
Proof.
  unfold imm16_lo, uint8_t, uint16_t.
  rewrite Z.shiftr_0_r.
  change 0xff with (Z.ones 8); rewrite Z.land_ones by lia.
  change (2 ^ 8) with 256; change (2 ^ 16) with (256 * 256).
  rewrite Z.mod_mod by lia.
  rewrite Z.rem_mul_r by lia.
  rewrite Z.mul_comm, Z.mod_add by lia.
  apply Z.mod_mod; lia.
Qed.

Lemma imm16_hi_spec (v : Z) : imm16_hi v = (v / 256) mod 256.
Proof.
  unfold imm16_hi, uint8_t, uint16_t.
  rewrite Z.shiftr_div_pow2 by lia.
  change 0xff with (Z.ones 8); rewrite Z.land_ones by lia.
  change (2 ^ 8) with 256; change (2 ^ 16) with (256 * 256).
  rewrite Z.mod_mod by lia.
  rewrite Z.rem_mul_r by lia.
  rewrite (Z.mul_comm 256 ((v / 256) mod 256)), Z.div_add by lia.
  rewrite (Z.div_small (v mod 256) 256) by (apply Z.mod_pos_bound; lia).
  rewrite Z.add_0_l; apply Z.mod_mod; lia.
Qed.

Section Imm16.

Variables (jr jrcc : bool) (ModeMask EZ80Mode : Z).
Variables (MCII : MCInstrInfo) (print_MI : MCInst -> string).

(** Every case with a 16-bit immediate operand, along every path. *)
Lemma encode_imm16_written (MI : MCInst) :
  accepted_then (encodeInstruction jr jrcc ModeMask EZ80Mode MCII print_MI MI)
    (fun s => imm16_written (getOpcode MI) (operands MI) (Emitted s)).
Proof.
  destruct MI as [op ops loc].
  unfold encodeInstruction, encodeInstruction_body.
  lazy zeta; cbn [getOpcode operands].
  destruct (EZ80Mode =? Z.land (TSFlags (get MCII op)) ModeMask); [exact I|].
  destruct (isPseudo (get MCII op)).
  - destruct op; try exact I; apply accepted_then_intro; intros s; exact I.
  - destruct op; try (apply accepted_then_intro; intros s; exact I);
      unfold_case; unfold imm16_written; cbn [imm16_operand];
      run imm16_fin.
Qed.

End Imm16.

(** C7.  A 16-bit immediate is written low byte first.  [CALL16] with the
    immediate 0xABCD emits exactly CD CD AB; and whenever the encoder
    accepts an instruction whose opcode takes a 16-bit immediate and whose
    operand there is the immediate [v], it has written bytes only, the
    last two being [v mod 256] and then [(v / 256) mod 256]. *)
Theorem imm16_little_endian
    (jr jrcc : bool) (ModeMask EZ80Mode : Z) (MCII : MCInstrInfo)
    (print_MI : MCInst -> string) :
  (described ModeMask EZ80Mode (get MCII Z80.CALL16) false 1 ->
   forall loc : SMLoc,
     encodeInstruction jr jrcc ModeMask EZ80Mode MCII print_MI
       {| getOpcode := Z80.CALL16; operands := [Imm 0xABCD]; getLoc := loc |}
     = (Ok tt, {| CurByte := 3; Emitted := [ToOS 0xcd; ToOS 0xcd; ToOS 0xab] |})) /\
  (forall (MI : MCInst) (s : EmitState) (k : nat) (v : Z),
     encodeInstruction jr jrcc ModeMask EZ80Mode MCII print_MI MI = (Ok tt, s) ->
     imm16_operand (getOpcode MI) = Some k ->
     nth_error (operands MI) k = Some (Imm v) ->
     exists pre : list Z,
       Emitted s = map ToOS (pre ++ [v mod 256; (v / 256) mod 256])).
Proof.
  split.
  - intros Hd loc. enter_case Hd case_CALL16. reflexivity.
  - intros MI s k v Hrun Hk Hv.
    pose proof (accepted_then_elim _ _ _ _
                  (encode_imm16_written jr jrcc ModeMask EZ80Mode MCII print_MI MI) Hrun) as H.
    cbv beta in H; unfold imm16_written in H.
    rewrite Hk, Hv in H.
    rewrite imm16_lo_spec, imm16_hi_spec in H.
    exact H.
Qed.

Lemma imm16_little_endian_witness :
  encode {| getOpcode := Z80.CALL16; operands := [Imm 0xABCD]; getLoc := 0%N |}
  = (Ok tt, {| CurByte := 3; Emitted := [ToOS 0xcd; ToOS 0xcd; ToOS 0xab] |}) /\
  exists pre : list Z,
    [ToOS 0x01; ToOS 0x34; ToOS 0x12]
    = map ToOS (pre ++ [0x1234 mod 256; (0x1234 / 256) mod 256]).
Proof.
  pose proof (imm16_little_endian false false Z80II_ModeMask Z80II_EZ80Mode
                Z80Insts print_MCInst) as [Hcall Hany].
  split.
  - apply Hcall. repeat split.
  - apply (Hany {| getOpcode := Z80.LD16ri;
                   operands := [Reg Z80.BC; Imm 0x1234];
                   getLoc := 0%N |}
                {| CurByte := 3; Emitted := [ToOS 0x01; ToOS 0x34; ToOS 0x12] |}
                1%nat 0x1234); reflexivity.
Defined.

(** ** [CALL16] and [CALL16CC] on expressions *)

Lemma never_accepted {A : Type} (r : Outcome A * EmitState) :
  accepted_then r (fun _ => False) -> forall a s, r <> (Ok a, s).
Proof. intros H a s Heq; rewrite Heq in H; exact H. Qed.

(** C9.  [CALL16] accepts any expression as its operand (it emits CD, a
    [fixup_16] at offset 1, 00 00).  [CALL16CC] with an expression as first
    operand is not accepted unless the expression is a bare symbol
    reference: with a condition code in range it writes its opcode byte
    and then ends in a fatal error, while on a symbol reference it
    returns normally.  So there is an expression on which [CALL16]
    succeeds and [CALL16CC] fails. *)
Theorem CALL16CC_wants_SymbolRef
    (jr jrcc : bool) (ModeMask EZ80Mode : Z) (MCII : MCInstrInfo)
    (print_MI : MCInst -> string) :
  described ModeMask EZ80Mode (get MCII Z80.CALL16) false 1 ->
  described ModeMask EZ80Mode (get MCII Z80.CALL16CC) false 2 ->
  let CALL16 := fun e loc =>
    encodeInstruction jr jrcc ModeMask EZ80Mode MCII print_MI
      {| getOpcode := Z80.CALL16; operands := [Expr e]; getLoc := loc |} in
  let CALL16CC := fun ops loc =>
    encodeInstruction jr jrcc ModeMask EZ80Mode MCII print_MI
      {| getOpcode := Z80.CALL16CC; operands := ops; getLoc := loc |} in
  (forall e loc,
     CALL16 e loc =
     (Ok tt, {| CurByte := 3;
                Emitted := [ToOS 0xcd;
                            ToFixups (MCFixup_create 1 e (FK_Target Z80.fixup_16) loc);
                            ToOS 0x00; ToOS 0x00] |})) /\
  (forall e rest loc s,
     getKind e <> SymbolRef -> CALL16CC (Expr e :: rest) loc <> (Ok tt, s)) /\
  (forall e cc loc,
     getKind e <> SymbolRef -> uint8_t cc < 8 ->
     CALL16CC [Expr e; Imm cc] loc =
     (Fatal (getName MCII Z80.CALL16CC ++
             ": Fitst operand expression should be a call target.")%string,
      {| CurByte := 1;
         Emitted := [ToOS (uint8_t (Z.lor (Z.shiftl (uint8_t cc) 3) 0xc4))] |})) /\
  (forall sym cc loc,
     uint8_t cc < 8 ->
     CALL16CC [Expr (MCSymbolRefExpr sym); Imm cc] loc =
     (Ok tt, {| CurByte := 3;
                Emitted := [ToOS (uint8_t (Z.lor (Z.shiftl (uint8_t cc) 3) 0xc4));
                            ToFixups (MCFixup_create 1 (MCSymbolRefExpr sym)
                                        (FK_Target Z80.fixup_16) loc);
                            ToOS 0x00; ToOS 0x00] |})) /\
  (exists e,
     getKind e <> SymbolRef /\
     (forall loc, exists s, CALL16 e loc = (Ok tt, s)) /\
     (forall rest loc s, CALL16CC (Expr e :: rest) loc <> (Ok tt, s))).
Proof.
  intros Hd1 Hd2 CALL16 CALL16CC.
  assert (H1 : forall e loc,
             CALL16 e loc =
             (Ok tt, {| CurByte := 3;
                        Emitted := [ToOS 0xcd;
                                    ToFixups (MCFixup_create 1 e (FK_Target Z80.fixup_16) loc);
                                    ToOS 0x00; ToOS 0x00] |})).
  { intros e loc; unfold CALL16. enter_case Hd1 case_CALL16. reflexivity. }
  assert (H2 : forall e rest loc s,
             getKind e <> SymbolRef -> CALL16CC (Expr e :: rest) loc <> (Ok tt, s)).
  { intros e rest loc s He; unfold CALL16CC.
    apply never_accepted.
    enter_case Hd2 case_CALL16CC.
    run ltac:(apply He; reflexivity). }
  split; [exact H1|]. split; [exact H2|].
  split; [|split].
  - intros e cc loc He Hcc; unfold CALL16CC.
    enter_case Hd2 case_CALL16CC.
    apply Z.ltb_lt in Hcc; rewrite Z.ltb_antisym in Hcc.
    apply negb_true_iff in Hcc.
    emit_eval. rewrite Hcc.
    destruct e; try reflexivity. contradiction He; reflexivity.
  - intros sym cc loc Hcc; unfold CALL16CC.
    enter_case Hd2 case_CALL16CC.
    apply Z.ltb_lt in Hcc; rewrite Z.ltb_antisym in Hcc.
    apply negb_true_iff in Hcc.
    emit_eval. rewrite Hcc. reflexivity.
  - exists (MCConstantExpr 0).
    split; [discriminate|]. split.
    + intros loc; eexists; apply H1.
    + intros rest loc s; apply H2; discriminate.
Qed.

Lemma CALL16CC_wants_SymbolRef_witness :
  encode {| getOpcode := Z80.CALL16;
            operands := [Expr (MCConstantExpr 0x4000)];
            getLoc := 0%N |}
  = (Ok tt, {| CurByte := 3;
               Emitted := [ToOS 0xcd;
                           ToFixups (MCFixup_create 1 (MCConstantExpr 0x4000)
                                       (FK_Target Z80.fixup_16) 0%N);
                           ToOS 0x00; ToOS 0x00] |}) /\
  encode {| getOpcode := Z80.CALL16CC;
            operands := [Expr (MCConstantExpr 0x4000); Imm 1];
            getLoc := 0%N |}
  = (Fatal "CALL16CC: Fitst operand expression should be a call target.",
     {| CurByte := 1; Emitted := [ToOS 0xcc] |}).
Proof.
  pose proof (CALL16CC_wants_SymbolRef false false Z80II_ModeMask Z80II_EZ80Mode
                Z80Insts print_MCInst) as H.
  destruct H as (Hcall & _ & Hcc & _).
  - repeat split.
  - repeat split.
  - split.
    + apply Hcall.
    + apply (Hcc (MCConstantExpr 0x4000) 1 0%N).
      * discriminate.
      * reflexivity.
Defined.


(** ** 8-bit immediates *)

Lemma template_at (n : nat) (R : Z -> Outcome unit * EmitState) :
  (forall i, exists s',
      R i = (Ok tt, s') /\
      written (Emitted s') =
      firstn n (written (Emitted (snd (R 0)))) ++
      i mod 2 ^ 8 :: skipn (S n) (written (Emitted (snd (R 0))))) ->
  exists pre post, forall i, exists s',
      R i = (Ok tt, s') /\ written (Emitted s') = pre ++ i mod 2 ^ 8 :: post.
Proof. intros H; eexists; eexists; exact H. Qed.

Lemma set_nth_same {A : Type} (l : list A) :
  forall (k : nat) (x : A), nth_error l k = Some x -> set_nth k x l = l.
Proof.
  induction l as [|y l IH]; intros [|k] x H; simpl in *; try discriminate H.
  - injection H as ->; reflexivity.
  - f_equal; apply IH; exact H.
Qed.

Section Imm8.

Variables (jr jrcc : bool) (ModeMask EZ80Mode : Z).
Variables (MCII : MCInstrInfo) (print_MI : MCInst -> string).

(** Every case with an 8-bit immediate operand, along every path: the
    run on the instruction itself fixes the path, the run on the
    instruction with another immediate follows it. *)
Lemma encode_imm8_template (MI : MCInst) :
  accepted_then (encodeInstruction jr jrcc ModeMask EZ80Mode MCII print_MI MI)
    (fun _ =>
       forall (k : nat) (i0 : Z),
         In k (imm8_operands (getOpcode MI)) ->
         nth_error (operands MI) k = Some (Imm i0) ->
         exists pre post, forall i, exists s',
             encodeInstruction jr jrcc ModeMask EZ80Mode MCII print_MI
               (setOperand MI k (Imm i)) = (Ok tt, s') /\
             written (Emitted s') = pre ++ i mod 2 ^ 8 :: post).
Proof.
  destruct MI as [op ops loc].
  unfold encodeInstruction, encodeInstruction_body.
  lazy zeta; cbn [getOpcode operands getLoc setOperand].
  destruct (EZ80Mode =? Z.land (TSFlags (get MCII op)) ModeMask); [exact I|].
  destruct (isPseudo (get MCII op)).
  - destruct op; try exact I;
      apply accepted_then_intro; intros _ k i0 Hin; destruct Hin.
  - destruct op; try exact I;
      try solve [apply accepted_then_intro; intros _ k i0 Hin; destruct Hin];
      unfold_case; cbn [imm8_operands];
      run ltac:(let Hin := fresh "Hin" in
                let Hk := fresh "Hk" in
                intros ? ? Hin Hk; cbn [In] in Hin;
                repeat (destruct Hin as [<-|Hin];
                        [first [discriminate Hk
                               | emit_eval; reuse_tests; emit_eval;
                                 template_from template_at 0%nat]|]);
                destruct Hin).
Qed.

End Imm8.


(** C10.  An 8-bit immediate field carries the operand reduced modulo
    2^8, and no value of the operand makes the encoder fail.  [emitByte]
    writes its argument modulo 2^8 and always returns; [ADD8ai] with any
    immediate [i] emits C6 and [i mod 2^8]; [LD8oi] with any displacement
    [d] and any value [i] emits the prefix, 36, [d mod 2^8], [i mod 2^8];
    and for every accepted instruction with an immediate at an operand
    that the encoder passes to [emitByte] as it is, the bytes written
    around that operand are fixed while, for every immediate [i] put
    there, the encoder returns normally and writes [i mod 2^8] in
    between. *)
Theorem imm8_modulo_256
    (jr jrcc : bool) (ModeMask EZ80Mode : Z) (MCII : MCInstrInfo)
    (print_MI : MCInst -> string) :
  let run := encodeInstruction jr jrcc ModeMask EZ80Mode MCII print_MI in
  (forall C s,
     emitByte C s =
     (Ok tt, {| CurByte := unsigned (CurByte s + 1);
                Emitted := Emitted s ++ [ToOS (C mod 2 ^ 8)] |})) /\
  (described ModeMask EZ80Mode (get MCII Z80.ADD8ai) false 1 ->
   forall i loc,
     run {| getOpcode := Z80.ADD8ai; operands := [Imm i]; getLoc := loc |}
     = (Ok tt, {| CurByte := 2; Emitted := [ToOS 0xc6; ToOS (i mod 2 ^ 8)] |})) /\
  (described ModeMask EZ80Mode (get MCII Z80.LD8oi) false 3 ->
   forall d i loc,
     run {| getOpcode := Z80.LD8oi;
            operands := [Reg Z80.IX; Imm d; Imm i];
            getLoc := loc |}
     = (Ok tt, {| CurByte := 4;
                  Emitted := [ToOS 0xdd; ToOS 0x36;
                              ToOS (d mod 2 ^ 8); ToOS (i mod 2 ^ 8)] |}) /\
     run {| getOpcode := Z80.LD8oi;
            operands := [Reg Z80.IY; Imm d; Imm i];
            getLoc := loc |}
     = (Ok tt, {| CurByte := 4;
                  Emitted := [ToOS 0xfd; ToOS 0x36;
                              ToOS (d mod 2 ^ 8); ToOS (i mod 2 ^ 8)] |})) /\
  (forall (MI : MCInst) (s : EmitState) (k : nat) (i0 : Z),
     run MI = (Ok tt, s) ->
     In k (imm8_operands (getOpcode MI)) ->
     nth_error (operands MI) k = Some (Imm i0) ->
     exists pre post : list Z,
       written (Emitted s) = pre ++ i0 mod 2 ^ 8 :: post /\
       forall i : Z, exists s' : EmitState,
         run (setOperand MI k (Imm i)) = (Ok tt, s') /\
         written (Emitted s') = pre ++ i mod 2 ^ 8 :: post).
Proof.
  intro run; unfold run.
  split; [|split; [|split]].
  - intros C s; reflexivity.
  - intros Hd i loc. enter_case Hd case_ADD8ai. reflexivity.
  - intros Hd d i loc.
    split; enter_case Hd case_LD8oi; reflexivity.
  - intros MI s k i0 Hrun Hk Hi0.
    pose proof (accepted_then_elim _ _ _ _
                  (encode_imm8_template jr jrcc ModeMask EZ80Mode MCII print_MI MI) Hrun) as H.
    destruct (H k i0 Hk Hi0) as (pre & post & Hall).
    exists pre, post; split; [|exact Hall].
    destruct (Hall i0) as (s' & Hrun' & Hw).
    assert (Hsame : setOperand MI k (Imm i0) = MI).
    { destruct MI as [op ops loc]; unfold setOperand; cbn [getOpcode operands getLoc] in *.
      rewrite (set_nth_same _ _ _ Hi0); reflexivity. }
    rewrite Hsame, Hrun in Hrun'.
    injection Hrun' as <-; exact Hw.
Qed.

Lemma imm8_modulo_256_witness :
  encode {| getOpcode := Z80.ADD8ai; operands := [Imm 300]; getLoc := 0%N |}
  = (Ok tt, {| CurByte := 2; Emitted := [ToOS 0xc6; ToOS 44] |}) /\
  exists pre post : list Z,
    [0xdd; 0x36; 5; 0x42] = pre ++ (-251) mod 2 ^ 8 :: post /\
    forall i : Z, exists s' : EmitState,
      encode {| getOpcode := Z80.LD8oi;
                operands := [Reg Z80.IX; Imm i; Imm 0x42];
                getLoc := 0%N |} = (Ok tt, s') /\
      written (Emitted s') = pre ++ i mod 2 ^ 8 :: post.
Proof.
  pose proof (imm8_modulo_256 false false Z80II_ModeMask Z80II_EZ80Mode
                Z80Insts print_MCInst) as (_ & Hadd & _ & Hany).
  split.
  - apply (Hadd ltac:(repeat split) 300 0%N).
  - apply (Hany {| getOpcode := Z80.LD8oi;
                   operands := [Reg Z80.IX; Imm (-251); Imm 0x42];
                   getLoc := 0%N |}
                {| CurByte := 4;
                   Emitted := [ToOS 0xdd; ToOS 0x36; ToOS 5; ToOS 0x42] |}
                1%nat (-251)).
    + reflexivity.
    + simpl; left; reflexivity.
    + reflexivity.
Defined.


(** * Further properties of the code *)

(** ** The sizes of what one call emits *)

Lemma in_every_outcome_elim {A : Type} (r : Outcome A * EmitState)
    (Q : Outcome A -> EmitState -> Prop) (o : Outcome A) (s : EmitState) :
  in_every_outcome r Q -> r = (o, s) -> Q o s.
Proof. intros H ->; exact H. Qed.

Section Bounds.

Variables (jr jrcc : bool) (ModeMask EZ80Mode : Z).
Variables (MCII : MCInstrInfo) (print_MI : MCInst -> string).

(** Every case, along every path, to whatever end. *)
Lemma encode_within_bounds (MI : MCInst) :
  in_every_outcome (encodeInstruction jr jrcc ModeMask EZ80Mode MCII print_MI MI)
    (fun o s => within_bounds o s = true).
Proof.
  destruct MI as [op ops loc].
  unfold encodeInstruction, encodeInstruction_body.
  lazy zeta; cbn [getOpcode].
  destruct (EZ80Mode =? Z.land (TSFlags (get MCII op)) ModeMask); [reflexivity|].
  destruct (isPseudo (get MCII op)).
  - destruct op; try reflexivity; unfold_case_all.
    + destruct jr; run_all ltac:(vm_compute; reflexivity).
    + destruct jrcc; run_all ltac:(vm_compute; reflexivity).
  - destruct op; try reflexivity; unfold_case_all;
      run_all ltac:(vm_compute; reflexivity).
Qed.

End Bounds.

(** X1.  However a call of [encodeInstruction] ends, [CurByte] is the
    number of bytes it has written, it has written at most 18 bytes and
    pushed at most one fixup. *)
Theorem output_sizes
    (jr jrcc : bool) (ModeMask EZ80Mode : Z) (MCII : MCInstrInfo)
    (print_MI : MCInst -> string) (MI : MCInst)
    (o : Outcome unit) (s : EmitState) :
  encodeInstruction jr jrcc ModeMask EZ80Mode MCII print_MI MI = (o, s) ->
  CurByte s = Z.of_nat (List.length (written (Emitted s))) /\
  (List.length (written (Emitted s)) <= 18)%nat /\
  (List.length (pushed (Emitted s)) <= 1)%nat.
Proof.
  intros Hrun.
  pose proof (in_every_outcome_elim _ _ _ _
                (encode_within_bounds jr jrcc ModeMask EZ80Mode MCII print_MI MI) Hrun) as H.
  cbv beta in H; unfold within_bounds in H; cbv zeta in H.
  apply andb_prop in H as [H _].
  apply andb_prop in H as [H Hf].
  apply andb_prop in H as [Hc Hb].
  apply Z.eqb_eq in Hc. apply Nat.leb_le in Hb. apply Nat.leb_le in Hf.
  auto.
Qed.

(** The longest encoding: LEA IY, (IX + 5). *)
Lemma output_sizes_witness :
  let s := {| CurByte := 18;
              Emitted := map ToOS [0xf5; 0xc5; 0x06; 0x00; 0x0e; 0x05; 0xdd; 0xe5; 0xdd;
                                   0x09; 0xdd; 0xe5; 0xfd; 0xe1; 0xdd; 0xe1; 0xc1; 0xf1] |} in
  CurByte s = Z.of_nat (List.length (written (Emitted s))) /\
  (List.length (written (Emitted s)) <= 18)%nat /\
  (List.length (pushed (Emitted s)) <= 1)%nat.
Proof.
  intro s.
  apply (output_sizes false false Z80II_ModeMask Z80II_EZ80Mode Z80Insts print_MCInst
           {| getOpcode := Z80.LEA16ro;
              operands := [Reg Z80.IY; Reg Z80.IX; Imm 5];
              getLoc := 0%N |}
           (Ok tt) s).
  reflexivity.
Defined.

(** X2.  A call that does not return normally has pushed no fixup and has
    written at most 12 bytes (operands are checked while bytes are being
    written, so some bytes may be out before the error). *)
Theorem failure_leaves_no_fixup
    (jr jrcc : bool) (ModeMask EZ80Mode : Z) (MCII : MCInstrInfo)
    (print_MI : MCInst -> string) (MI : MCInst)
    (o : Outcome unit) (s : EmitState) :
  encodeInstruction jr jrcc ModeMask EZ80Mode MCII print_MI MI = (o, s) ->
  o <> Ok tt ->
  pushed (Emitted s) = [] /\
  (List.length (written (Emitted s)) <= 12)%nat.
Proof.
  intros Hrun Ho.
  pose proof (in_every_outcome_elim _ _ _ _
                (encode_within_bounds jr jrcc ModeMask EZ80Mode MCII print_MI MI) Hrun) as H.
  cbv beta in H; unfold within_bounds in H; cbv zeta in H.
  apply andb_prop in H as [_ H].
  destruct o as [[]| |]; [contradiction Ho; reflexivity| |];
    simpl in H; apply andb_prop in H as [Hf Hb];
    apply Nat.eqb_eq in Hf; apply Nat.leb_le in Hb;
    (split; [|exact Hb]);
    destruct (pushed (Emitted s)); [reflexivity|discriminate Hf|reflexivity|discriminate Hf].
Qed.

(** LEA A, (IX + 5) fails on its first operand after twelve bytes. *)
Lemma failure_leaves_no_fixup_witness :
  let s := {| CurByte := 12;
              Emitted := map ToOS [0xf5; 0xc5; 0x06; 0x00; 0x0e; 0x05;
                                   0xdd; 0xe5; 0xdd; 0x09; 0xdd; 0xe5] |} in
  pushed (Emitted s) = [] /\ (List.length (written (Emitted s)) <= 12)%nat.
Proof.
  intro s.
  apply (failure_leaves_no_fixup false false Z80II_ModeMask Z80II_EZ80Mode
           Z80Insts print_MCInst
           {| getOpcode := Z80.LEA16ro;
              operands := [Reg Z80.A; Reg Z80.IX; Imm 5];
              getLoc := 0%N |}
           (Fatal "LEA16ro: Allowed registers in the first operand are BC, DE, HL, IX, IY.")
           s).
  - reflexivity.
  - discriminate.
Defined.

(** ** Where a fixup comes from and where it goes *)

Section Provenance.

Variables (jr jrcc : bool) (ModeMask EZ80Mode : Z).
Variables (MCII : MCInstrInfo) (print_MI : MCInst -> string).

Lemma encode_fixup_provenance (MI : MCInst) :
  accepted_then (encodeInstruction jr jrcc ModeMask EZ80Mode MCII print_MI MI)
    (fun s => forall f, In f (pushed (Emitted s)) ->
                        getLoc_of f = getLoc MI /\
                        In (Expr (getValue f)) (operands MI)).
Proof.
  destruct MI as [op ops loc].
  unfold encodeInstruction, encodeInstruction_body.
  lazy zeta; cbn [getOpcode getLoc operands].
  destruct (EZ80Mode =? Z.land (TSFlags (get MCII op)) ModeMask); [exact I|].
  destruct (isPseudo (get MCII op)).
  - destruct op; try exact I; unfold_case.
    + destruct jr;
        run ltac:(let Hin := fresh "Hin" in
                  intros ? Hin; cbv [pushed app In] in Hin;
                  repeat (destruct Hin as [<-|Hin]; [split; [reflexivity|simpl; tauto]|]);
                  destruct Hin).
    + destruct jrcc;
        run ltac:(let Hin := fresh "Hin" in
                  intros ? Hin; cbv [pushed app In] in Hin;
                  repeat (destruct Hin as [<-|Hin]; [split; [reflexivity|simpl; tauto]|]);
                  destruct Hin).
  - destruct op; try exact I; unfold_case;
      run ltac:(let Hin := fresh "Hin" in
                intros ? Hin; cbv [pushed app In] in Hin;
                repeat (destruct Hin as [<-|Hin]; [split; [reflexivity|simpl; tauto]|]);
                destruct Hin).
Qed.

End Provenance.

(** X3.  A fixup pushed by an accepted instruction carries the source
    location of the instruction, and its value is one of the expression
    operands of the instruction. *)
Theorem fixup_provenance
    (jr jrcc : bool) (ModeMask EZ80Mode : Z) (MCII : MCInstrInfo)
    (print_MI : MCInst -> string) (MI : MCInst) (s : EmitState) (f : MCFixup) :
  encodeInstruction jr jrcc ModeMask EZ80Mode MCII print_MI MI = (Ok tt, s) ->
  In f (pushed (Emitted s)) ->
  getLoc_of f = getLoc MI /\ In (Expr (getValue f)) (operands MI).
Proof.
  intros Hrun Hin.
  exact (accepted_then_elim _ _ _ _
           (encode_fixup_provenance jr jrcc ModeMask EZ80Mode MCII print_MI MI)
           Hrun f Hin).
Qed.

Lemma fixup_provenance_witness :
  let f := MCFixup_create 2 (MCSymbolRefExpr "buf") (FK_Target Z80.fixup_16) 9%N in
  getLoc_of f = 9%N /\
  In (Expr (getValue f)) [Reg Z80.IX; Expr (MCSymbolRefExpr "buf")].
Proof.
  intro f.
  apply (fixup_provenance false false Z80II_ModeMask Z80II_EZ80Mode Z80Insts
           print_MCInst
           {| getOpcode := Z80.LD16ri;
              operands := [Reg Z80.IX; Expr (MCSymbolRefExpr "buf")];
              getLoc := 9%N |}
           {| CurByte := 4;
              Emitted := [ToOS 0xdd; ToOS 0x21; ToFixups f; ToOS 0; ToOS 0] |} f).
  - reflexivity.
  - simpl; left; reflexivity.
Defined.

(** X4.  Every fixup pushed by an accepted instruction is one the backend
    forces into a relocation, and the object writer has a relocation code
    for it (R_Z80_16 or R_Z80_8_PCREL) when it is called with the
    PC-relative flag of the catalog row of the kind; without the two
    switches the code is R_Z80_16 whatever the flag. *)
Theorem emitted_fixup_relocates
    (jr jrcc : bool) (ModeMask EZ80Mode : Z) (MCII : MCInstrInfo)
    (print_MI : MCInst -> string) (MI : MCInst) (s : EmitState) (f : MCFixup) :
  encodeInstruction jr jrcc ModeMask EZ80Mode MCII print_MI MI = (Ok tt, s) ->
  In f (pushed (Emitted s)) ->
  shouldForceRelocation f = true /\
  (exists k,
     getKind_of f = FK_Target k /\
     (getRelocType f (Flags (Infos k) =? FKF_IsPCRel) = Reloc R_Z80_16 \/
      getRelocType f (Flags (Infos k) =? FKF_IsPCRel) = Reloc R_Z80_8_PCREL)) /\
  (jr = false -> jrcc = false ->
   forall IsPCRel, getRelocType f IsPCRel = Reloc R_Z80_16).
Proof.
  intros Hrun Hin.
  pose proof (accepted_then_elim _ _ _ _
                (encode_well_shaped jr jrcc ModeMask EZ80Mode MCII print_MI MI) Hrun) as Hs.
  cbv beta in Hs.
  destruct (well_shaped_pushed _ _ _ _ _ _ Hs Hin) as (k & Hk & Ha).
  unfold shouldForceRelocation, getRelocType; rewrite Hk.
  destruct k; try discriminate Ha; simpl in Ha.
  - split; [reflexivity|]. split.
    + exists Z80.fixup_8_pcrel; split; [reflexivity|right; reflexivity].
    + intros -> ->. destruct (getOpcode MI); discriminate Ha.
  - split; [reflexivity|]. split.
    + exists Z80.fixup_16; split; [reflexivity|left; reflexivity].
    + reflexivity.
Qed.

Lemma emitted_fixup_relocates_witness :
  let f := MCFixup_create 1 (MCSymbolRefExpr "f") (FK_Target Z80.fixup_8_pcrel) 0%N in
  shouldForceRelocation f = true /\
  (exists k,
     getKind_of f = FK_Target k /\
     (getRelocType f (Flags (Infos k) =? FKF_IsPCRel) = Reloc R_Z80_16 \/
      getRelocType f (Flags (Infos k) =? FKF_IsPCRel) = Reloc R_Z80_8_PCREL)) /\
  (true = false -> false = false ->
   forall IsPCRel, getRelocType f IsPCRel = Reloc R_Z80_16).
Proof.
  intro f.
  apply (emitted_fixup_relocates true false Z80II_ModeMask Z80II_EZ80Mode Z80Insts
           print_MCInst
           {| getOpcode := Z80.JQ;
              operands := [Expr (MCSymbolRefExpr "f")];
              getLoc := 0%N |}
           {| CurByte := 2; Emitted := [ToOS 0x18; ToFixups f; ToOS 0] |} f).
  - reflexivity.
  - simpl; left; reflexivity.
Defined.

(** ** What acceptance says about the instruction *)

Section Acceptance.

Variables (jr jrcc : bool) (ModeMask EZ80Mode : Z).
Variables (MCII : MCInstrInfo) (print_MI : MCInst -> string).

Lemma encode_accepted_shape (MI : MCInst) :
  accepted_then (encodeInstruction jr jrcc ModeMask EZ80Mode MCII print_MI MI)
    (fun s =>
       (EZ80Mode =? Z.land (TSFlags (get MCII (getOpcode MI))) ModeMask) = false /\
       isPseudo (get MCII (getOpcode MI)) = is_pseudo_opcode (getOpcode MI) /\
       has_case (getOpcode MI) = true /\
       count_accepted (getOpcode MI) (getNumOperands (get MCII (getOpcode MI))) = true /\
       (Z80_NumOperands (getOpcode MI) <= List.length (operands MI))%nat /\
       (1 <= List.length (written (Emitted s)))%nat).
Proof.
  destruct MI as [op ops loc].
  unfold encodeInstruction, encodeInstruction_body.
  lazy zeta; cbn [getOpcode getLoc operands].
  destruct (EZ80Mode =? Z.land (TSFlags (get MCII op)) ModeMask); [exact I|].
  destruct (isPseudo (get MCII op)).
  - destruct op; try exact I; unfold_case; unfold count_accepted.
    + destruct jr; run ltac:(shape_fin).
    + destruct jrcc; run ltac:(shape_fin).
  - destruct op; try exact I; unfold_case; unfold count_accepted;
      run ltac:(shape_fin).
Qed.

Lemma encode_count_refused (MI : MCInst) :
  (EZ80Mode =? Z.land (TSFlags (get MCII (getOpcode MI))) ModeMask) = false ->
  isPseudo (get MCII (getOpcode MI)) = is_pseudo_opcode (getOpcode MI) ->
  has_case (getOpcode MI) = true ->
  count_accepted (getOpcode MI) (getNumOperands (get MCII (getOpcode MI))) = false ->
  encodeInstruction jr jrcc ModeMask EZ80Mode MCII print_MI MI =
  (Fatal (count_message (getName MCII (getOpcode MI)) (getOpcode MI)
            (getNumOperands (get MCII (getOpcode MI)))),
   {| CurByte := 0; Emitted := [] |}).
Proof.
  destruct MI as [op ops loc].
  unfold encodeInstruction, encodeInstruction_body.
  lazy zeta; cbn [getOpcode getLoc operands].
  intros -> -> Hcase Hcount.
  unfold count_accepted, count_message in *.
  destruct op; try discriminate Hcase; cbn [is_pseudo_opcode];
    cbn [count_only_nonzero Z80_NumOperands] in *;
    lazymatch goal with
    | |- ?c _ = _ => let h := head_of c in unfold h
    end;
    try (destruct jr); try (destruct jrcc);
    emit_eval;
    first [ rewrite Hcount; reflexivity
          | apply negb_false_iff in Hcount; rewrite Hcount; reflexivity ].
Qed.

End Acceptance.

(** X5.  An instruction is accepted only if its descriptor is not tagged
    as eZ80 mode, is marked pseudo exactly when the opcode is [JQ] or
    [JQCC], the opcode has an encoding case, the operand count of the
    descriptor is the one the case asks for (any count but 0 for the
    eleven cases that only test [!numOperands]), and the instruction has
    at least the operands the case reads; then at least one byte is
    written. *)
Theorem accepted_instruction_shape
    (jr jrcc : bool) (ModeMask EZ80Mode : Z) (MCII : MCInstrInfo)
    (print_MI : MCInst -> string) (MI : MCInst) (s : EmitState) :
  encodeInstruction jr jrcc ModeMask EZ80Mode MCII print_MI MI = (Ok tt, s) ->
  (EZ80Mode =? Z.land (TSFlags (get MCII (getOpcode MI))) ModeMask) = false /\
  isPseudo (get MCII (getOpcode MI)) = is_pseudo_opcode (getOpcode MI) /\
  has_case (getOpcode MI) = true /\
  count_accepted (getOpcode MI) (getNumOperands (get MCII (getOpcode MI))) = true /\
  (Z80_NumOperands (getOpcode MI) <= List.length (operands MI))%nat /\
  (1 <= List.length (written (Emitted s)))%nat.
Proof.
  intros Hrun.
  exact (accepted_then_elim _ _ _ _
           (encode_accepted_shape jr jrcc ModeMask EZ80Mode MCII print_MI MI) Hrun).
Qed.

Lemma accepted_instruction_shape_witness :
  count_accepted Z80.LD8oi 3 = true /\
  (Z80_NumOperands Z80.LD8oi <= 3)%nat /\
  (1 <= List.length (written [ToOS 0xdd; ToOS 0x36; ToOS 0x05; ToOS 0x42]))%nat.
Proof.
  destruct (accepted_instruction_shape false false Z80II_ModeMask Z80II_EZ80Mode
              Z80Insts print_MCInst
              {| getOpcode := Z80.LD8oi;
                 operands := [Reg Z80.IX; Imm 5; Imm 0x42];
                 getLoc := 0%N |}
              {| CurByte := 4;
                 Emitted := [ToOS 0xdd; ToOS 0x36; ToOS 0x05; ToOS 0x42] |}
              eq_refl)
    as (_ & _ & _ & Hcount & Hops & Hbytes).
  split; [exact Hcount | split; [exact Hops | exact Hbytes]].
Defined.

(** X6.  Where the mode and the pseudo mark let the instruction reach
    its case and the operand count of the descriptor is not what the
    case asks for, the call fails with the message of the count check,
    before it looks at an operand or writes a byte: "Invalid number of
    arguments for instruction N: expected vs actual." and, for the eleven
    cases that only test [!numOperands], "N: Operand missing.". *)
Theorem operand_count_refused
    (jr jrcc : bool) (ModeMask EZ80Mode : Z) (MCII : MCInstrInfo)
    (print_MI : MCInst -> string) (MI : MCInst) :
  (EZ80Mode =? Z.land (TSFlags (get MCII (getOpcode MI))) ModeMask) = false ->
  isPseudo (get MCII (getOpcode MI)) = is_pseudo_opcode (getOpcode MI) ->
  has_case (getOpcode MI) = true ->
  count_accepted (getOpcode MI) (getNumOperands (get MCII (getOpcode MI))) = false ->
  encodeInstruction jr jrcc ModeMask EZ80Mode MCII print_MI MI =
  (Fatal (count_message (getName MCII (getOpcode MI)) (getOpcode MI)
            (getNumOperands (get MCII (getOpcode MI)))),
   {| CurByte := 0; Emitted := [] |}).
Proof.
  apply encode_count_refused.
Qed.

Lemma operand_count_refused_witness :
  encodeInstruction false false Z80II_ModeMask Z80II_EZ80Mode
    {| get := fun _ => {| getNumOperands := 0; TSFlags := 0; isPseudo := false |};
       getName := Z80_Name |}
    print_MCInst
    {| getOpcode := Z80.INC8r; operands := [Reg Z80.B]; getLoc := 0%N |}
  = (Fatal "INC8r: Operand missing.", {| CurByte := 0; Emitted := [] |}).
Proof.
  apply (operand_count_refused false false Z80II_ModeMask Z80II_EZ80Mode
           {| get := fun _ => {| getNumOperands := 0; TSFlags := 0; isPseudo := false |};
              getName := Z80_Name |}
           print_MCInst
           {| getOpcode := Z80.INC8r; operands := [Reg Z80.B]; getLoc := 0%N |});
    reflexivity.
Defined.

(** X7.  An instruction that has at least the operands its descriptor
    counts never takes the encoder to undefined behaviour: no operand is
    read past the end, and no accessor is used on an operand of another
    kind. *)
Theorem no_undefined_behaviour
    (jr jrcc : bool) (ModeMask EZ80Mode : Z) (MCII : MCInstrInfo)
    (print_MI : MCInst -> string) (MI : MCInst) (s : EmitState) :
  (getNumOperands (get MCII (getOpcode MI)) <= List.length (operands MI))%nat ->
  encodeInstruction jr jrcc ModeMask EZ80Mode MCII print_MI MI <> (Undefined, s).
Proof.
  intros Hlen Hrun.
  pose proof (encode_defined jr jrcc ModeMask EZ80Mode MCII print_MI MI Hlen) as H.
  rewrite Hrun in H. exact H.
Qed.

Lemma no_undefined_behaviour_witness :
  encode {| getOpcode := Z80.LD8oi; operands := [Imm 1; Imm 2; Imm 3]; getLoc := 0%N |}
  <> (Undefined, {| CurByte := 0; Emitted := [] |}).
Proof.
  apply (no_undefined_behaviour false false Z80II_ModeMask Z80II_EZ80Mode
           Z80Insts print_MCInst
           {| getOpcode := Z80.LD8oi; operands := [Imm 1; Imm 2; Imm 3]; getLoc := 0%N |}).
  simpl; lia.
Defined.

(** ** Errors *)

Section Errors.

Variables (jr jrcc : bool) (ModeMask EZ80Mode : Z).
Variables (MCII : MCInstrInfo) (print_MI : MCInst -> string).

Lemma encode_fatal_message (MI : MCInst) :
  in_every_outcome (encodeInstruction jr jrcc ModeMask EZ80Mode MCII print_MI MI)
    (fails_with_message (getName MCII (getOpcode MI)) (print_MI MI)).
Proof.
  destruct MI as [op ops loc].
  unfold encodeInstruction, encodeInstruction_body.
  lazy zeta; cbn [getOpcode getLoc operands].
  destruct (EZ80Mode =? Z.land (TSFlags (get MCII op)) ModeMask);
    [apply EZ80_not_supported|].
  destruct (isPseudo (get MCII op)).
  - destruct op; try apply pseudo_not_supported; unfold_case_all.
    + destruct jr;
        run_all ltac:(first [ exact I | apply instr_problem
                            | nat_tests; apply wrong_number_of_arguments; assumption ]).
    + destruct jrcc;
        run_all ltac:(first [ exact I | apply instr_problem
                            | nat_tests; apply wrong_number_of_arguments; assumption ]).
  - destruct op; try apply instr_not_supported; try apply instr_problem;
      unfold_case_all;
      run_all ltac:(first [ exact I | apply instr_problem
                          | nat_tests; apply wrong_number_of_arguments; assumption ]).
Qed.

End Errors.

(** X8.  Every failure is a fatal error with one of five messages: the
    one for eZ80 mode, "Not supported pseudo instr: " and the printed
    instruction, "Not supported instr: " with the mnemonic and the
    printed instruction, the one of the count check with two different
    counts, or the mnemonic, a colon and the problem. *)
Theorem fatal_messages
    (jr jrcc : bool) (ModeMask EZ80Mode : Z) (MCII : MCInstrInfo)
    (print_MI : MCInst -> string) (MI : MCInst) (msg : string) (s : EmitState) :
  encodeInstruction jr jrcc ModeMask EZ80Mode MCII print_MI MI = (Fatal msg, s) ->
  FatalMessage (getName MCII (getOpcode MI)) (print_MI MI) msg.
Proof.
  intros Hrun.
  exact (in_every_outcome_elim _ _ _ _
           (encode_fatal_message jr jrcc ModeMask EZ80Mode MCII print_MI MI) Hrun).
Qed.

Lemma fatal_messages_witness :
  FatalMessage "SBC16ao" "<MCInst SBC16ao>" "SBC16ao: Allowed registers are BC, DE.".
Proof.
  apply (fatal_messages false false Z80II_ModeMask Z80II_EZ80Mode Z80Insts print_MCInst
           {| getOpcode := Z80.SBC16ao; operands := [Reg Z80.HL]; getLoc := 0%N |}
           "SBC16ao: Allowed registers are BC, DE."
           {| CurByte := 1; Emitted := [ToOS 0xed] |}).
  reflexivity.
Defined.


(** ** What the encoder looks at *)

Section Frame.

Variables (jr jrcc : bool) (ModeMask EZ80Mode : Z).
Variables (MCII : MCInstrInfo) (print_MI : MCInst -> string).

Lemma encode_more_operands (MI : MCInst) :
  accepted_then (encodeInstruction jr jrcc ModeMask EZ80Mode MCII print_MI MI)
    (fun s =>
       forall more,
         encodeInstruction jr jrcc ModeMask EZ80Mode MCII print_MI
           (withOperands MI (operands MI ++ more)) = (Ok tt, s)).
Proof.
  destruct MI as [op ops loc].
  unfold encodeInstruction, encodeInstruction_body.
  lazy zeta; cbn [getOpcode getLoc operands withOperands].
  destruct (EZ80Mode =? Z.land (TSFlags (get MCII op)) ModeMask); [exact I|].
  destruct (isPseudo (get MCII op)).
  - destruct op; try exact I; unfold_case.
    + destruct jr; run_ops ltac:(intros ?; reuse_tests; emit_eval_ops; reflexivity).
    + destruct jrcc; run_ops ltac:(intros ?; reuse_tests; emit_eval_ops; reflexivity).
  - destruct op; try exact I; unfold_case;
      run_ops ltac:(intros ?; reuse_tests; emit_eval_ops; reflexivity).
Qed.

Lemma encode_imm_modulo (MI : MCInst) :
  accepted_then (encodeInstruction jr jrcc ModeMask EZ80Mode MCII print_MI MI)
    (fun s =>
       forall (k : nat) (i j : Z),
         nth_error (operands MI) k = Some (Imm i) ->
         i mod 2 ^ imm_width (getOpcode MI) k = j mod 2 ^ imm_width (getOpcode MI) k ->
         encodeInstruction jr jrcc ModeMask EZ80Mode MCII print_MI
           (setOperand MI k (Imm j)) = (Ok tt, s)).
Proof.
  destruct MI as [op ops loc].
  unfold encodeInstruction, encodeInstruction_body.
  lazy zeta; cbn [getOpcode getLoc operands setOperand].
  destruct (EZ80Mode =? Z.land (TSFlags (get MCII op)) ModeMask); [exact I|].
  destruct (isPseudo (get MCII op)).
  - destruct op; try exact I; unfold_case.
    + destruct jr; run ltac:(same_modulo).
    + destruct jrcc; run ltac:(same_modulo).
  - destruct op; try exact I; unfold_case; run ltac:(same_modulo).
Qed.

Lemma encode_three_bits (MI : MCInst) :
  accepted_then (encodeInstruction jr jrcc ModeMask EZ80Mode MCII print_MI MI)
    (fun s =>
       forall (k : nat) (i : Z),
         three_bit_operand (getOpcode MI) = Some k ->
         nth_error (operands MI) k = Some (Imm i) ->
         uint8_t i < 8 /\
         exists (p : nat) (s0 : EmitState),
           encodeInstruction jr jrcc ModeMask EZ80Mode MCII print_MI
             (setOperand MI k (Imm 0)) = (Ok tt, s0) /\
           CurByte s = CurByte s0 /\
           Emitted s = add_at p (8 * uint8_t i) (Emitted s0)).
Proof.
  destruct MI as [op ops loc].
  unfold encodeInstruction, encodeInstruction_body.
  lazy zeta; cbn [getOpcode getLoc operands setOperand].
  destruct (EZ80Mode =? Z.land (TSFlags (get MCII op)) ModeMask); [exact I|].
  destruct (isPseudo (get MCII op)).
  - destruct op; try exact I;
      try solve [apply accepted_then_intro; intros ? k i Hop;
                 cbn [three_bit_operand] in Hop; discriminate Hop];
      unfold_case; destruct jrcc; run ltac:(three_bit_fin).
  - destruct op; try exact I;
      try solve [apply accepted_then_intro; intros ? k i Hop;
                 cbn [three_bit_operand] in Hop; discriminate Hop];
      unfold_case; run ltac:(three_bit_fin).
Qed.

End Frame.

(** X9.  Operands past those the case reads are ignored: an accepted
    instruction with more operands appended is accepted with the same
    bytes and fixups. *)
Theorem operands_past_the_count_ignored
    (jr jrcc : bool) (ModeMask EZ80Mode : Z) (MCII : MCInstrInfo)
    (print_MI : MCInst -> string) (MI : MCInst) (s : EmitState)
    (more : list MCOperand) :
  encodeInstruction jr jrcc ModeMask EZ80Mode MCII print_MI MI = (Ok tt, s) ->
  encodeInstruction jr jrcc ModeMask EZ80Mode MCII print_MI
    (withOperands MI (operands MI ++ more)) = (Ok tt, s).
Proof.
  intros Hrun.
  exact (accepted_then_elim _ _ _ _
           (encode_more_operands jr jrcc ModeMask EZ80Mode MCII print_MI MI)
           Hrun more).
Qed.

Lemma operands_past_the_count_ignored_witness :
  encode {| getOpcode := Z80.ADD8ar;
            operands := [Reg Z80.B; Imm 99; Reg Z80.IX];
            getLoc := 0%N |}
  = (Ok tt, {| CurByte := 1; Emitted := [ToOS 0x80] |}).
Proof.
  apply (operands_past_the_count_ignored false false Z80II_ModeMask Z80II_EZ80Mode
           Z80Insts print_MCInst
           {| getOpcode := Z80.ADD8ar; operands := [Reg Z80.B]; getLoc := 0%N |}
           {| CurByte := 1; Emitted := [ToOS 0x80] |}
           [Imm 99; Reg Z80.IX]).
  reflexivity.
Defined.

(** X10.  An immediate operand is looked at modulo 2^8 only, modulo 2^16
    where the opcode takes a 16-bit immediate: putting another immediate
    with the same remainder in its place changes nothing.  The range
    checks on bit numbers and condition codes are made on the remainder,
    so bit number 259 is taken as 3. *)
Theorem immediates_modulo_width
    (jr jrcc : bool) (ModeMask EZ80Mode : Z) (MCII : MCInstrInfo)
    (print_MI : MCInst -> string) (MI : MCInst) (s : EmitState)
    (k : nat) (i j : Z) :
  encodeInstruction jr jrcc ModeMask EZ80Mode MCII print_MI MI = (Ok tt, s) ->
  nth_error (operands MI) k = Some (Imm i) ->
  i mod 2 ^ imm_width (getOpcode MI) k = j mod 2 ^ imm_width (getOpcode MI) k ->
  encodeInstruction jr jrcc ModeMask EZ80Mode MCII print_MI
    (setOperand MI k (Imm j)) = (Ok tt, s).
Proof.
  intros Hrun Hk Hmod.
  exact (accepted_then_elim _ _ _ _
           (encode_imm_modulo jr jrcc ModeMask EZ80Mode MCII print_MI MI)
           Hrun k i j Hk Hmod).
Qed.

Lemma immediates_modulo_width_witness :
  encode {| getOpcode := Z80.BIT8bg; operands := [Imm 259; Reg Z80.B]; getLoc := 0%N |}
  = (Ok tt, {| CurByte := 2; Emitted := [ToOS 0xcb; ToOS 0x58] |}).
Proof.
  apply (immediates_modulo_width false false Z80II_ModeMask Z80II_EZ80Mode
           Z80Insts print_MCInst
           {| getOpcode := Z80.BIT8bg; operands := [Imm 3; Reg Z80.B]; getLoc := 0%N |}
           {| CurByte := 2; Emitted := [ToOS 0xcb; ToOS 0x58] |}
           0%nat 3 259);
    reflexivity.
Defined.

(** X11.  A bit number or a condition code [i] of an accepted
    instruction is below 8 modulo 2^8, and it is carried by bits 3 to 5
    of one byte: what is emitted is what the same instruction with 0
    there emits, with 8 [i] more in one byte. *)
Theorem three_bit_field
    (jr jrcc : bool) (ModeMask EZ80Mode : Z) (MCII : MCInstrInfo)
    (print_MI : MCInst -> string) (MI : MCInst) (s : EmitState)
    (k : nat) (i : Z) :
  encodeInstruction jr jrcc ModeMask EZ80Mode MCII print_MI MI = (Ok tt, s) ->
  three_bit_operand (getOpcode MI) = Some k ->
  nth_error (operands MI) k = Some (Imm i) ->
  i mod 2 ^ 8 < 8 /\
  exists (p : nat) (s0 : EmitState),
    encodeInstruction jr jrcc ModeMask EZ80Mode MCII print_MI
      (setOperand MI k (Imm 0)) = (Ok tt, s0) /\
    CurByte s = CurByte s0 /\
    Emitted s = add_at p (8 * (i mod 2 ^ 8)) (Emitted s0).
Proof.
  intros Hrun Hop Hk.
  exact (accepted_then_elim _ _ _ _
           (encode_three_bits jr jrcc ModeMask EZ80Mode MCII print_MI MI)
           Hrun k i Hop Hk).
Qed.

Lemma three_bit_field_witness :
  5 mod 2 ^ 8 < 8 /\
  exists (p : nat) (s0 : EmitState),
    encode {| getOpcode := Z80.RES8bo;
              operands := [Imm 0; Reg Z80.IX; Imm 1];
              getLoc := 0%N |} = (Ok tt, s0) /\
    4 = CurByte s0 /\
    [ToOS 0xdd; ToOS 0xcb; ToOS 0x01; ToOS 0xae] = add_at p (8 * (5 mod 2 ^ 8)) (Emitted s0).
Proof.
  apply (three_bit_field false false Z80II_ModeMask Z80II_EZ80Mode
           Z80Insts print_MCInst
           {| getOpcode := Z80.RES8bo;
              operands := [Imm 5; Reg Z80.IX; Imm 1];
              getLoc := 0%N |}
           {| CurByte := 4;
              Emitted := [ToOS 0xdd; ToOS 0xcb; ToOS 0x01; ToOS 0xae] |}
           0%nat 5);
    reflexivity.
Defined.

(** ** Register fields *)

Section Fields.

Variables (jr jrcc : bool) (ModeMask EZ80Mode : Z).
Variables (MCII : MCInstrInfo) (print_MI : MCInst -> string).

Lemma encode_register_field (op op' : Z80.Opcode) (ops : list MCOperand) (loc : SMLoc)
    (k p : nat) (w : Z) (r : Z80.Register) (c : Z) :
  register_field op = Some (k, p, w, op') ->
  reg8_code r = Some c ->
  accepted_then
    (encodeInstruction jr jrcc ModeMask EZ80Mode MCII print_MI
       {| getOpcode := op; operands := set_nth k (Reg Z80.B) ops; getLoc := loc |})
    (fun s =>
       encodeInstruction jr jrcc ModeMask EZ80Mode MCII print_MI
         {| getOpcode := op; operands := set_nth k (Reg r) ops; getLoc := loc |}
       = (Ok tt, {| CurByte := CurByte s;
                    Emitted := add_at p (w * c) (Emitted s) |})).
Proof.
  intros Hop Hr.
  unfold encodeInstruction, encodeInstruction_body.
  lazy zeta; cbn [getOpcode getLoc operands].
  destruct (EZ80Mode =? Z.land (TSFlags (get MCII op)) ModeMask); [exact I|].
  destruct (isPseudo (get MCII op)).
  - destruct op; cbn [register_field] in Hop; first [exact I | discriminate Hop].
  - destruct op; cbn [register_field] in Hop; try discriminate Hop;
      injection Hop as <- <- <- <-;
      destruct r; try discriminate Hr; injection Hr as <-;
      destruct ops as [|o0 [|o1 ops]];
      unfold_case;
      run ltac:(reuse_tests; emit_eval;
                first [ reflexivity | few_values; reflexivity ]).
Qed.

Lemma encode_memory_field (op op' : Z80.Opcode) (ops : list MCOperand) (loc : SMLoc)
    (k p : nat) (w : Z) :
  register_field op = Some (k, p, w, op') ->
  described ModeMask EZ80Mode (get MCII op') false (Z80_NumOperands op') ->
  accepted_then
    (encodeInstruction jr jrcc ModeMask EZ80Mode MCII print_MI
       {| getOpcode := op; operands := set_nth k (Reg Z80.B) ops; getLoc := loc |})
    (fun s =>
       encodeInstruction jr jrcc ModeMask EZ80Mode MCII print_MI
         {| getOpcode := op'; operands := set_nth k (Reg Z80.HL) ops; getLoc := loc |}
       = (Ok tt, {| CurByte := CurByte s;
                    Emitted := add_at p (w * memory_code) (Emitted s) |})).
Proof.
  intros Hop (Hmode & Hpseudo & Hnum).
  unfold encodeInstruction, encodeInstruction_body.
  lazy zeta; cbn [getOpcode getLoc operands].
  destruct op; cbn [register_field] in Hop; try discriminate Hop;
    injection Hop as <- <- <- <-;
    rewrite Hmode, Hpseudo; cbv iota;
    split_test; split_test;
    unfold_cases; lazy zeta; cbn [getOpcode]; rewrite Hnum;
    cbn [Z80_NumOperands] in *;
    destruct ops as [|o0 [|o1 ops]];
    run ltac:(reuse_tests; emit_eval;
              first [ reflexivity | few_values; reflexivity ]).
Qed.

End Fields.

(** X12.  The literal bytes of the cases with one 8-bit register operand
    follow the register numbers B 0, C 1, D 2, E 3, H 4, L 5, A 7: for
    the eight arithmetic opcodes on A, [INC8r], [DEC8r], [LD8ri], the
    seven rotates and shifts, [BIT8bg], [RES8bg] and [SET8bg], the
    instruction on register [r] emits what the instruction on B emits
    with the number of [r] (times 8 for [INC8r], [DEC8r], [LD8ri]) added
    to the opcode byte. *)
Theorem register_field_law
    (jr jrcc : bool) (ModeMask EZ80Mode : Z) (MCII : MCInstrInfo)
    (print_MI : MCInst -> string)
    (op op' : Z80.Opcode) (ops : list MCOperand) (loc : SMLoc)
    (k p : nat) (w : Z) (r : Z80.Register) (c : Z) (s : EmitState) :
  register_field op = Some (k, p, w, op') ->
  reg8_code r = Some c ->
  encodeInstruction jr jrcc ModeMask EZ80Mode MCII print_MI
    {| getOpcode := op; operands := set_nth k (Reg Z80.B) ops; getLoc := loc |}
  = (Ok tt, s) ->
  encodeInstruction jr jrcc ModeMask EZ80Mode MCII print_MI
    {| getOpcode := op; operands := set_nth k (Reg r) ops; getLoc := loc |}
  = (Ok tt, {| CurByte := CurByte s; Emitted := add_at p (w * c) (Emitted s) |}).
Proof.
  intros Hop Hr Hrun.
  exact (accepted_then_elim _ _ _ _
           (encode_register_field jr jrcc ModeMask EZ80Mode MCII print_MI
              op op' ops loc k p w r c Hop Hr) Hrun).
Qed.

Lemma register_field_law_witness :
  encode {| getOpcode := Z80.INC8r; operands := [Reg Z80.E]; getLoc := 0%N |}
  = (Ok tt, {| CurByte := 1; Emitted := [ToOS (0x04 + 8 * 3)] |}).
Proof.
  apply (register_field_law false false Z80II_ModeMask Z80II_EZ80Mode
           Z80Insts print_MCInst
           Z80.INC8r Z80.INC8p [Reg Z80.E] 0%N 0%nat 0%nat 8 Z80.E 3
           {| CurByte := 1; Emitted := [ToOS 0x04] |});
    reflexivity.
Defined.

(** X13.  The byte at the address in HL has register number 6: each of
    those opcodes has a [p] opcode which, on HL, emits what the register
    opcode emits on B with 6 (times 8 for [INC8p], [DEC8p], [LD8pi])
    added to the opcode byte. *)
Theorem memory_field_law
    (jr jrcc : bool) (ModeMask EZ80Mode : Z) (MCII : MCInstrInfo)
    (print_MI : MCInst -> string)
    (op op' : Z80.Opcode) (ops : list MCOperand) (loc : SMLoc)
    (k p : nat) (w : Z) (s : EmitState) :
  register_field op = Some (k, p, w, op') ->
  described ModeMask EZ80Mode (get MCII op') false (Z80_NumOperands op') ->
  encodeInstruction jr jrcc ModeMask EZ80Mode MCII print_MI
    {| getOpcode := op; operands := set_nth k (Reg Z80.B) ops; getLoc := loc |}
  = (Ok tt, s) ->
  encodeInstruction jr jrcc ModeMask EZ80Mode MCII print_MI
    {| getOpcode := op'; operands := set_nth k (Reg Z80.HL) ops; getLoc := loc |}
  = (Ok tt, {| CurByte := CurByte s;
               Emitted := add_at p (w * memory_code) (Emitted s) |}).
Proof.
  intros Hop Hd Hrun.
  exact (accepted_then_elim _ _ _ _
           (encode_memory_field jr jrcc ModeMask EZ80Mode MCII print_MI
              op op' ops loc k p w Hop Hd) Hrun).
Qed.

Lemma memory_field_law_witness :
  encode {| getOpcode := Z80.RL8p; operands := [Reg Z80.HL]; getLoc := 0%N |}
  = (Ok tt, {| CurByte := 2; Emitted := [ToOS 0xcb; ToOS (0x10 + 1 * 6)] |}).
Proof.
  apply (memory_field_law false false Z80II_ModeMask Z80II_EZ80Mode
           Z80Insts print_MCInst
           Z80.RL8r Z80.RL8p [Reg Z80.A] 0%N 0%nat 1%nat 1
           {| CurByte := 2; Emitted := [ToOS 0xcb; ToOS 0x10] |}).
  - reflexivity.
  - repeat split.
  - reflexivity.
Defined.

(** ** Operands in memory *)

Section Indexed.

Variables (jr jrcc : bool) (ModeMask EZ80Mode : Z).
Variables (MCII : MCInstrInfo) (print_MI : MCInst -> string).

Lemma encode_indexed (op op' : Z80.Opcode) (ops : list MCOperand) (loc : SMLoc)
    (idx : Z80.Register) (pfx d : Z) :
  o_form op = Some op' ->
  described ModeMask EZ80Mode (get MCII op') false (Z80_NumOperands op') ->
  nth_error ops (pointer_operand op) = Some (Reg Z80.HL) ->
  no_index_half ops = true ->
  index_prefix idx = Some pfx ->
  accepted_then
    (encodeInstruction jr jrcc ModeMask EZ80Mode MCII print_MI
       {| getOpcode := op; operands := ops; getLoc := loc |})
    (fun s =>
       encodeInstruction jr jrcc ModeMask EZ80Mode MCII print_MI
         {| getOpcode := op';
            operands := indexed (pointer_operand op) idx d ops;
            getLoc := loc |}
       = (Ok tt, {| CurByte := CurByte s + 2;
                    Emitted := ToOS pfx :: insert_at 1 (ToOS (uint8_t d)) (Emitted s) |})).
Proof.
  intros Hform (Hmode & Hpseudo & Hnum) Hk Hhalf Hidx.
  unfold encodeInstruction, encodeInstruction_body.
  lazy zeta; cbn [getOpcode getLoc operands].
  destruct op; cbn [o_form] in Hform; try discriminate Hform;
    injection Hform as <-;
    rewrite Hmode, Hpseudo; cbv iota;
    split_test; split_test;
    unfold_cases; lazy zeta; cbn [getOpcode]; rewrite Hnum;
    cbn [pointer_operand Z80_NumOperands] in *;
    destruct idx; try discriminate Hidx; injection Hidx as <-;
    destruct ops as [|o0 [|o1 ops]]; try discriminate Hk;
    cbn [nth_error] in Hk; injection Hk as ->;
    run_ops ltac:(first [ discriminate Hhalf
                        | reuse_tests; emit_eval_ops; reflexivity ]).
Qed.



End Indexed.

(** X14.  The [o] opcode on an index register and a displacement [d]
    emits what its [p] opcode emits on HL, after the prefix byte of the
    index register (DD for IX, FD for IY) and with [d] modulo 2^8
    inserted after the first byte; this for the 23 pairs of a [p] and an
    [o] opcode, where no operand is a half of an index register. *)
Theorem indexed_form_law
    (jr jrcc : bool) (ModeMask EZ80Mode : Z) (MCII : MCInstrInfo)
    (print_MI : MCInst -> string)
    (op op' : Z80.Opcode) (ops : list MCOperand) (loc : SMLoc)
    (idx : Z80.Register) (pfx d : Z) (s : EmitState) :
  o_form op = Some op' ->
  described ModeMask EZ80Mode (get MCII op') false (Z80_NumOperands op') ->
  nth_error ops (pointer_operand op) = Some (Reg Z80.HL) ->
  no_index_half ops = true ->
  index_prefix idx = Some pfx ->
  encodeInstruction jr jrcc ModeMask EZ80Mode MCII print_MI
    {| getOpcode := op; operands := ops; getLoc := loc |} = (Ok tt, s) ->
  encodeInstruction jr jrcc ModeMask EZ80Mode MCII print_MI
    {| getOpcode := op';
       operands := indexed (pointer_operand op) idx d ops;
       getLoc := loc |}
  = (Ok tt, {| CurByte := CurByte s + 2;
               Emitted := ToOS pfx :: insert_at 1 (ToOS (d mod 2 ^ 8)) (Emitted s) |}).
Proof.
  intros Hform Hd Hk Hhalf Hidx Hrun.
  exact (accepted_then_elim _ _ _ _
           (encode_indexed jr jrcc ModeMask EZ80Mode MCII print_MI
              op op' ops loc idx pfx d Hform Hd Hk Hhalf Hidx) Hrun).
Qed.

Lemma indexed_form_law_witness :
  encode {| getOpcode := Z80.BIT8bo;
            operands := [Imm 3; Reg Z80.IY; Imm 7];
            getLoc := 0%N |}
  = (Ok tt, {| CurByte := 4;
               Emitted := [ToOS 0xfd; ToOS 0xcb; ToOS (7 mod 2 ^ 8); ToOS 0x5e] |}).
Proof.
  apply (indexed_form_law false false Z80II_ModeMask Z80II_EZ80Mode
           Z80Insts print_MCInst
           Z80.BIT8bp Z80.BIT8bo [Imm 3; Reg Z80.HL] 0%N Z80.IY 0xfd 7
           {| CurByte := 2; Emitted := [ToOS 0xcb; ToOS 0x5e] |}).
  - reflexivity.
  - repeat split.
  - reflexivity.
  - reflexivity.
  - reflexivity.
  - reflexivity.
Defined.



(** ** Register pairs *)

Section Pairs.

Variables (jr jrcc : bool) (ModeMask EZ80Mode : Z).
Variables (MCII : MCInstrInfo) (print_MI : MCInst -> string).

Lemma encode_index_pair (op : Z80.Opcode) (ops : list MCOperand) (loc : SMLoc)
    (k : nat) (idx : Z80.Register) (pfx : Z) :
  pair_operand op = Some k ->
  nth_error ops k = Some (Reg Z80.HL) ->
  index_prefix idx = Some pfx ->
  accepted_then
    (encodeInstruction jr jrcc ModeMask EZ80Mode MCII print_MI
       {| getOpcode := op; operands := ops; getLoc := loc |})
    (fun s =>
       encodeInstruction jr jrcc ModeMask EZ80Mode MCII print_MI
         {| getOpcode := op; operands := map (HL_to idx) ops; getLoc := loc |}
       = (Ok tt, {| CurByte := CurByte s + 1;
                    Emitted := ToOS pfx :: map one_byte_later (Emitted s) |})).
Proof.
  intros Hop Hk Hidx.
  unfold encodeInstruction, encodeInstruction_body.
  lazy zeta; cbn [getOpcode getLoc operands].
  destruct (EZ80Mode =? Z.land (TSFlags (get MCII op)) ModeMask); [exact I|].
  destruct (isPseudo (get MCII op)).
  - destruct op; cbn [pair_operand] in Hop; first [exact I | discriminate Hop].
  - destruct op; cbn [pair_operand] in Hop; try discriminate Hop;
      injection Hop as <-;
      destruct idx; try discriminate Hidx; injection Hidx as <-;
      destruct ops as [|o0 [|o1 ops]]; try discriminate Hk;
      cbn [nth_error] in Hk; injection Hk as ->;
      unfold_case;
      run_ops ltac:(reuse_tests; emit_eval_ops; reflexivity).
Qed.

End Pairs.

(** X16.  For the thirteen opcodes that take HL, IX or IY in the same
    place, the instruction on an index register emits the prefix byte
    of the index register and then what the instruction on HL emits,
    each fixup one byte later. *)
Theorem index_pair_prefix
    (jr jrcc : bool) (ModeMask EZ80Mode : Z) (MCII : MCInstrInfo)
    (print_MI : MCInst -> string)
    (op : Z80.Opcode) (ops : list MCOperand) (loc : SMLoc)
    (k : nat) (idx : Z80.Register) (pfx : Z) (s : EmitState) :
  pair_operand op = Some k ->
  nth_error ops k = Some (Reg Z80.HL) ->
  index_prefix idx = Some pfx ->
  encodeInstruction jr jrcc ModeMask EZ80Mode MCII print_MI
    {| getOpcode := op; operands := ops; getLoc := loc |} = (Ok tt, s) ->
  encodeInstruction jr jrcc ModeMask EZ80Mode MCII print_MI
    {| getOpcode := op; operands := map (HL_to idx) ops; getLoc := loc |}
  = (Ok tt, {| CurByte := CurByte s + 1;
               Emitted := ToOS pfx :: map one_byte_later (Emitted s) |}).
Proof.
  intros Hop Hk Hidx Hrun.
  exact (accepted_then_elim _ _ _ _
           (encode_index_pair jr jrcc ModeMask EZ80Mode MCII print_MI
              op ops loc k idx pfx Hop Hk Hidx) Hrun).
Qed.

Lemma index_pair_prefix_witness :
  encode {| getOpcode := Z80.LD16ri;
            operands := [Reg Z80.IX; Expr (MCSymbolRefExpr "buf")];
            getLoc := 0%N |}
  = (Ok tt,
     {| CurByte := 4;
        Emitted := [ToOS 0xdd; ToOS 0x21;
                    ToFixups (MCFixup_create 2 (MCSymbolRefExpr "buf")
                                (FK_Target Z80.fixup_16) 0%N);
                    ToOS 0x00; ToOS 0x00] |}).
Proof.
  apply (index_pair_prefix false false Z80II_ModeMask Z80II_EZ80Mode
           Z80Insts print_MCInst
           Z80.LD16ri [Reg Z80.HL; Expr (MCSymbolRefExpr "buf")] 0%N
           0%nat Z80.IX 0xdd
           {| CurByte := 3;
              Emitted := [ToOS 0x21;
                          ToFixups (MCFixup_create 1 (MCSymbolRefExpr "buf")
                                      (FK_Target Z80.fixup_16) 0%N);
                          ToOS 0x00; ToOS 0x00] |});
    reflexivity.
Defined.

(** ** The halves of the index registers *)

Section Halves.

Variables (jr jrcc : bool) (ModeMask EZ80Mode : Z).
Variables (MCII : MCInstrInfo) (print_MI : MCInst -> string).

Lemma encode_half (op : Z80.Opcode) (ops : list MCOperand) (loc : SMLoc)
    (k : nat) (sh : Shuttle) (wb : bool) (r : Z80.Register) (pfx : Z) (high : bool) :
  half_expansion op = Some (k, sh, wb) ->
  nth_error ops k = Some (Reg r) ->
  index_half r = Some (pfx, high) ->
  accepted_then
    (encodeInstruction jr jrcc ModeMask EZ80Mode MCII print_MI
       {| getOpcode := op;
          operands := set_nth k (Reg (stand_in sh high)) ops;
          getLoc := loc |})
    (fun s =>
       encodeInstruction jr jrcc ModeMask EZ80Mode MCII print_MI
         {| getOpcode := op; operands := ops; getLoc := loc |}
       = (Ok tt, half_wrapped sh pfx wb s)).
Proof.
  intros Hexp Hk Hr.
  unfold encodeInstruction, encodeInstruction_body.
  lazy zeta; cbn [getOpcode getLoc operands].
  destruct (EZ80Mode =? Z.land (TSFlags (get MCII op)) ModeMask); [exact I|].
  destruct (isPseudo (get MCII op)).
  - destruct op; cbn [half_expansion] in Hexp; first [exact I | discriminate Hexp].
  - destruct op; cbn [half_expansion] in Hexp; try discriminate Hexp;
      injection Hexp as <- <- <-;
      destruct r; try discriminate Hr;
      injection Hr as <- <-;
      cbn [stand_in];
      destruct ops as [|o0 [|o1 [|o2 ops]]]; try discriminate Hk;
      cbn [nth_error] in Hk; injection Hk as ->;
      unfold_case;
      run ltac:(reuse_tests; emit_eval; reflexivity).
Qed.

Lemma encode_LD8gg (op : Z80.Opcode) (dst src : Z80.Register)
    (rest : list MCOperand) (loc : SMLoc) :
  In op [Z80.LD8gg; Z80.LD8xx; Z80.LD8yy] ->
  described ModeMask EZ80Mode (get MCII op) false 2 ->
  in_every_outcome
    (encodeInstruction jr jrcc ModeMask EZ80Mode MCII print_MI
       {| getOpcode := op; operands := Reg dst :: Reg src :: rest; getLoc := loc |})
    (as_LD8gg_scheme dst src).
Proof.
  intros Hin Hd.
  destruct Hin as [<-|[<-|[<-|[]]]];
    enter_case Hd case_LD8gg; unfold check_num_operands; cbn [Nat.eqb negb];
    run_all ltac:(first [ solve [vm_compute; first [reflexivity | eexists; reflexivity]]
                        | destruct src; vm_compute; eexists; reflexivity ]).
Qed.

End Halves.

(** X17.  For the 25 opcodes with one 8-bit register operand that may be
    a half of an index register, the instruction on the half emits
    PUSH pair, PUSH index, POP pair, then what the instruction emits on
    the matching half of the pair (H or L, D or E for [LD8gp] and
    [LD8pg]), then POP pair, or PUSH pair, POP index, POP pair where the
    case moves the result back.  The cases move it back for [INC8r],
    [DEC8r], [LD8ri], the rotates and shifts, [LD8go], [LD8gp], and also
    for [BIT8bg] and [LD8og], which only read the half; they do not for
    the arithmetic opcodes, [LD8pg], nor for [RES8bg] and [SET8bg], which
    change it. *)
Theorem index_half_expansion
    (jr jrcc : bool) (ModeMask EZ80Mode : Z) (MCII : MCInstrInfo)
    (print_MI : MCInst -> string)
    (op : Z80.Opcode) (ops : list MCOperand) (loc : SMLoc)
    (k : nat) (sh : Shuttle) (wb : bool) (r : Z80.Register) (pfx : Z) (high : bool)
    (s : EmitState) :
  half_expansion op = Some (k, sh, wb) ->
  nth_error ops k = Some (Reg r) ->
  index_half r = Some (pfx, high) ->
  encodeInstruction jr jrcc ModeMask EZ80Mode MCII print_MI
    {| getOpcode := op;
       operands := set_nth k (Reg (stand_in sh high)) ops;
       getLoc := loc |} = (Ok tt, s) ->
  encodeInstruction jr jrcc ModeMask EZ80Mode MCII print_MI
    {| getOpcode := op; operands := ops; getLoc := loc |}
  = (Ok tt,
     {| CurByte :=
          CurByte s + 4 + Z.of_nat (List.length (half_epilogue sh pfx wb));
        Emitted :=
          map ToOS (half_prologue sh pfx) ++ Emitted s ++
          map ToOS (half_epilogue sh pfx wb) |}).
Proof.
  intros Hexp Hk Hr Hrun.
  exact (accepted_then_elim _ _ _ _
           (encode_half jr jrcc ModeMask EZ80Mode MCII print_MI
              op ops loc k sh wb r pfx high Hexp Hk Hr) Hrun).
Qed.

(** RES 3, IYL: the result stays in L. *)
Lemma index_half_expansion_witness :
  encode {| getOpcode := Z80.RES8bg; operands := [Imm 3; Reg Z80.IYL]; getLoc := 0%N |}
  = (Ok tt,
     {| CurByte := 7;
        Emitted := map ToOS [0xe5; 0xfd; 0xe5; 0xe1; 0xcb; 0x9d; 0xe1] |}).
Proof.
  apply (index_half_expansion false false Z80II_ModeMask Z80II_EZ80Mode
           Z80Insts print_MCInst
           Z80.RES8bg [Imm 3; Reg Z80.IYL] 0%N 1%nat viaHL false Z80.IYL 0xfd false
           {| CurByte := 2; Emitted := [ToOS 0xcb; ToOS 0x9d] |});
    reflexivity.
Defined.

(** X18.  The case of [LD8gg], [LD8xx] and [LD8yy] follows one scheme for
    all pairs of registers: LD r, r' is the byte 0x40 + 8 r + r'; a half
    of an index register is moved through HL, or through DE when the
    other register is H or L, and moved back when it is the destination;
    two halves of one index register go through HL together; two halves
    of different index registers go through HL and DE, in fourteen
    bytes.  On any other register the call fails. *)
Theorem LD8gg_follows_scheme
    (jr jrcc : bool) (ModeMask EZ80Mode : Z) (MCII : MCInstrInfo)
    (print_MI : MCInst -> string)
    (op : Z80.Opcode) (dst src : Z80.Register) (rest : list MCOperand) (loc : SMLoc) :
  In op [Z80.LD8gg; Z80.LD8xx; Z80.LD8yy] ->
  described ModeMask EZ80Mode (get MCII op) false 2 ->
  let run :=
    encodeInstruction jr jrcc ModeMask EZ80Mode MCII print_MI
      {| getOpcode := op; operands := Reg dst :: Reg src :: rest; getLoc := loc |} in
  (forall bytes, LD8gg_scheme dst src = Some bytes -> run = emits bytes) /\
  (LD8gg_scheme dst src = None -> exists msg s, run = (Fatal msg, s)).
Proof.
  intros Hin Hd run.
  pose proof (encode_LD8gg jr jrcc ModeMask EZ80Mode MCII print_MI
                op dst src rest loc Hin Hd) as H.
  fold run in H. destruct run as [o s].
  unfold in_every_outcome, as_LD8gg_scheme in H.
  split.
  - intros bytes Hs; rewrite Hs in H; exact H.
  - intros Hs; rewrite Hs in H. destruct H as [msg ->].
    exists msg, s; reflexivity.
Qed.

(** LD IXH, IYL *)
Lemma LD8gg_follows_scheme_witness :
  encode {| getOpcode := Z80.LD8xx;
            operands := [Reg Z80.IXH; Reg Z80.IYL];
            getLoc := 0%N |}
  = emits [0xe5; 0xd5; 0xdd; 0xe5; 0xe1; 0xfd; 0xe5; 0xd1; 0x63;
           0xe5; 0xdd; 0xe1; 0xd1; 0xe1].
Proof.
  destruct (LD8gg_follows_scheme false false Z80II_ModeMask Z80II_EZ80Mode
              Z80Insts print_MCInst
              Z80.LD8xx Z80.IXH Z80.IYL [] 0%N) as [H _].
  - simpl; tauto.
  - repeat split.
  - apply H; reflexivity.
Defined.


(** ** The pseudo jumps *)

(** X19.  With the switch for short jumps, [JQ] on an expression writes
    18 00 with a [fixup_8_pcrel] at offset 1.  [JQCC] on an expression
    and a condition code [cc] takes [cc] modulo 2^8; by default it
    accepts 0..7 and writes C2 + 8 cc, 00 00 with a [fixup_16] at offset
    1; with its switch it accepts 0..3 only and writes 20 + 8 cc, 00 with
    a [fixup_8_pcrel] at offset 1.  Out of range it fails before writing
    anything.  Each switch acts on its own pseudo instruction only. *)
Theorem pseudo_jumps
    (ModeMask EZ80Mode : Z) (MCII : MCInstrInfo) (print_MI : MCInst -> string) :
  described ModeMask EZ80Mode (get MCII Z80.JQ) true 1 ->
  described ModeMask EZ80Mode (get MCII Z80.JQCC) true 2 ->
  (forall jrcc e rest loc,
     encodeInstruction true jrcc ModeMask EZ80Mode MCII print_MI
       {| getOpcode := Z80.JQ; operands := Expr e :: rest; getLoc := loc |}
     = (Ok tt,
        {| CurByte := 2;
           Emitted := [ToOS 0x18;
                       ToFixups (MCFixup_create 1 e (FK_Target Z80.fixup_8_pcrel) loc);
                       ToOS 0x00] |})) /\
  (forall jr e cc rest loc,
     encodeInstruction jr false ModeMask EZ80Mode MCII print_MI
       {| getOpcode := Z80.JQCC; operands := Expr e :: Imm cc :: rest; getLoc := loc |}
     = if cc mod 2 ^ 8 <? 8 then
         (Ok tt,
          {| CurByte := 3;
             Emitted := [ToOS (0xc2 + 8 * (cc mod 2 ^ 8));
                         ToFixups (MCFixup_create 1 e (FK_Target Z80.fixup_16) loc);
                         ToOS 0x00; ToOS 0x00] |})
       else
         (Fatal (getName MCII Z80.JQCC ++ ": Second operand should be in range 0..7.")%string,
          {| CurByte := 0; Emitted := [] |})) /\
  (forall jr e cc rest loc,
     encodeInstruction jr true ModeMask EZ80Mode MCII print_MI
       {| getOpcode := Z80.JQCC; operands := Expr e :: Imm cc :: rest; getLoc := loc |}
     = if cc mod 2 ^ 8 <? 4 then
         (Ok tt,
          {| CurByte := 2;
             Emitted := [ToOS (0x20 + 8 * (cc mod 2 ^ 8));
                         ToFixups (MCFixup_create 1 e (FK_Target Z80.fixup_8_pcrel) loc);
                         ToOS 0x00] |})
       else
         (Fatal (getName MCII Z80.JQCC ++ ": Second operand should be in range 0..3.")%string,
          {| CurByte := 0; Emitted := [] |})).
Proof.
  intros Hd1 Hd2.
  split; [|split].
  - intros jrcc e rest loc. enter_case Hd1 case_JQ. reflexivity.
  - intros jr e cc rest loc. enter_case Hd2 case_JQCC.
    unfold check_num_operands; cbn [Nat.eqb negb].
    change (cc mod 2 ^ 8) with (uint8_t cc).
    rewrite Z.ltb_antisym.
    emit_eval.
    destruct (8 <=? uint8_t cc) eqn:Hcc; cbn [negb]; [reflexivity|].
    few_values; reflexivity.
  - intros jr e cc rest loc. enter_case Hd2 case_JQCC.
    unfold check_num_operands; cbn [Nat.eqb negb].
    change (cc mod 2 ^ 8) with (uint8_t cc).
    rewrite Z.ltb_antisym.
    emit_eval.
    destruct (4 <=? uint8_t cc) eqn:Hcc; cbn [negb]; [reflexivity|].
    few_values; reflexivity.
Qed.

Lemma pseudo_jumps_witness :
  encodeInstruction true false Z80II_ModeMask Z80II_EZ80Mode Z80Insts print_MCInst
    {| getOpcode := Z80.JQ; operands := [Expr (MCSymbolRefExpr "loop")]; getLoc := 0%N |}
  = (Ok tt,
     {| CurByte := 2;
        Emitted := [ToOS 0x18;
                    ToFixups (MCFixup_create 1 (MCSymbolRefExpr "loop")
                                (FK_Target Z80.fixup_8_pcrel) 0%N);
                    ToOS 0x00] |}) /\
  encodeInstruction false true Z80II_ModeMask Z80II_EZ80Mode Z80Insts print_MCInst
    {| getOpcode := Z80.JQCC;
       operands := [Expr (MCSymbolRefExpr "loop"); Imm 5];
       getLoc := 0%N |}
  = (Fatal "JQCC: Second operand should be in range 0..3.",
     {| CurByte := 0; Emitted := [] |}).
Proof.
  destruct (pseudo_jumps Z80II_ModeMask Z80II_EZ80Mode Z80Insts print_MCInst)
    as (Hjq & _ & Hshort).
  - repeat split.
  - repeat split.
  - split.
    + apply Hjq.
    + apply (Hshort false (MCSymbolRefExpr "loop") 5 [] 0%N).
Defined.

(** ** The catalog of fixup kinds and the relocation codes *)

(** X20.  The catalog and the object writer agree on what is relative to
    the program counter: [getRelocType] called with the flag of the
    catalog row of a target kind always gives a relocation code, and the
    only way to fail its assertion is to call it without the flag for the
    one kind whose row has it.  Two target kinds never share a catalog
    name or a relocation code, every row starts at bit 0, and the kinds
    that are always relocated are at most 16 bits wide. *)
Theorem catalog_and_relocations (f : MCFixup) (k : Z80.Fixups) :
  getKind_of f = FK_Target k ->
  (exists code,
     getRelocType f (Flags (Infos k) =? FKF_IsPCRel) = Reloc code) /\
  (forall pc,
     (exists cond, getRelocType f pc = AssertionFailed cond) <->
     Flags (Infos k) = FKF_IsPCRel /\ pc = false) /\
  (forall f' k' pc pc' code,
     getKind_of f' = FK_Target k' ->
     getRelocType f pc = Reloc code ->
     getRelocType f' pc' = Reloc code ->
     k = k') /\
  (forall k', Name (Infos k) = Name (Infos k') -> k = k') /\
  TargetOffset (Infos k) = 0 /\
  (shouldForceRelocation f = true -> TargetSize (Infos k) <= 16).
Proof.
  intros Hk.
  unfold getRelocType, shouldForceRelocation; rewrite Hk.
  split; [|split; [|split; [|split; [|split]]]].
  - destruct k; eexists; reflexivity.
  - intros pc; split.
    + intros [cond H]; destruct k; try discriminate H.
      destruct pc; [discriminate H|]. split; reflexivity.
    + intros [Hf ->]; destruct k; try discriminate Hf.
      eexists; reflexivity.
  - intros f' k' pc pc' code Hk' H H'.
    rewrite Hk' in H'.
    destruct k; try (destruct pc; try discriminate H);
      injection H as <-;
      destruct k'; try (destruct pc'; try discriminate H');
      first [reflexivity | discriminate H'].
  - intros k' H; destruct k, k'; first [reflexivity | discriminate H].
  - destruct k; reflexivity.
  - destruct k; intros H; first [discriminate H | cbn; lia].
Qed.

Lemma catalog_and_relocations_witness :
  let f := MCFixup_create 1 (MCSymbolRefExpr "f") (FK_Target Z80.fixup_8_pcrel) 0%N in
  (exists code, getRelocType f true = Reloc code) /\
  (forall pc,
     (exists cond, getRelocType f pc = AssertionFailed cond) <->
     FKF_IsPCRel = FKF_IsPCRel /\ pc = false).
Proof.
  intro f.
  destruct (catalog_and_relocations f Z80.fixup_8_pcrel eq_refl) as (H1 & H2 & _).
  split; [exact H1 | exact H2].
Defined.

(** ** The ELF header flags *)

(** X21.  The constructor of [Z80ELFStreamer] keeps every header flag
    that was set, sets those of [EF_Z80_MACH_Z80], sets no other, and a
    second streamer on the same assembler changes nothing. *)
Theorem Z80ELFStreamer_flags (EF_Z80_MACH_Z80 EFlags : Z) :
  0 <= EF_Z80_MACH_Z80 < 2 ^ 32 ->
  0 <= EFlags < 2 ^ 32 ->
  let EFlags' := Z80ELFStreamer_EFlags EF_Z80_MACH_Z80 EFlags in
  (forall n, Z.testbit EFlags' n =
             Z.testbit EFlags n || Z.testbit EF_Z80_MACH_Z80 n) /\
  0 <= EFlags' < 2 ^ 32 /\
  Z80ELFStreamer_EFlags EF_Z80_MACH_Z80 EFlags' = EFlags'.
Proof.
  intros HM HE EFlags'.
  assert (Hu : forall x, 0 <= x < 2 ^ 32 -> unsigned x = x).
  { intros x Hx; unfold unsigned; apply Z.mod_small; exact Hx. }
  assert (Hlor : 0 <= Z.lor EFlags EF_Z80_MACH_Z80 < 2 ^ 32).
  { split.
    - apply Z.lor_nonneg; split; lia.
    - destruct (Z.eq_dec (Z.lor EFlags EF_Z80_MACH_Z80) 0) as [->|Hnz]; [lia|].
      apply Z.log2_lt_cancel.
      rewrite Z.log2_lor by lia.
      rewrite Z.log2_pow2 by lia.
      destruct (Z.eq_dec EFlags 0) as [->|HE0];
        destruct (Z.eq_dec EF_Z80_MACH_Z80 0) as [->|HM0];
        try (cbn in Hnz; congruence);
        repeat match goal with
               | |- context [Z.log2 0] => change (Z.log2 0) with 0
               end.
      + apply Z.max_lub_lt; [lia|]. apply Z.log2_lt_pow2; lia.
      + apply Z.max_lub_lt; [|lia]. apply Z.log2_lt_pow2; lia.
      + apply Z.max_lub_lt; apply Z.log2_lt_pow2; lia. }
  assert (HE' : EFlags' = Z.lor EFlags EF_Z80_MACH_Z80).
  { unfold EFlags', Z80ELFStreamer_EFlags.
    rewrite (Hu EFlags HE). apply Hu; exact Hlor. }
  split; [|split].
  - intros n; rewrite HE'; apply Z.lor_spec.
  - rewrite HE'; exact Hlor.
  - rewrite HE'. unfold Z80ELFStreamer_EFlags.
    rewrite (Hu _ Hlor), <- Z.lor_assoc, Z.lor_diag.
    apply Hu; exact Hlor.
Qed.

Lemma Z80ELFStreamer_flags_witness :
  Z80ELFStreamer_EFlags 0x80 (Z80ELFStreamer_EFlags 0x80 0x05) =
  Z80ELFStreamer_EFlags 0x80 0x05.
Proof.
  apply (Z80ELFStreamer_flags 0x80 0x05); lia.
Defined.

(** ** The target description *)

Lemma string_length_append (a b : string) :
  String.length (a ++ b) = (String.length a + String.length b)%nat.
Proof. induction a as [|c a IH]; cbn; [reflexivity | rewrite IH; reflexivity]. Qed.

(** X22.  The feature string of [createZ80MCSubtargetInfo] always begins
    with the two mode features of the triple; the features of the caller
    follow after a comma when there are any, so the branch that would
    pass the features of the caller alone is never taken.  The eZ80
    triple gets the 24-bit mode, any other the 16-bit mode. *)
Theorem subtarget_features (TT_is_ez80 : bool) (FS : string) :
  createZ80MCSubtargetInfo TT_is_ez80 FS =
    (ParseZ80Triple TT_is_ez80 ++ (if empty FS then "" else "," ++ FS))%string /\
  empty (ParseZ80Triple TT_is_ez80) = false /\
  createZ80MCSubtargetInfo TT_is_ez80 FS <> FS /\
  ParseZ80Triple true <> ParseZ80Triple false.
Proof.
  assert (H : createZ80MCSubtargetInfo TT_is_ez80 FS =
              (ParseZ80Triple TT_is_ez80 ++
               (if empty FS then "" else "," ++ FS))%string).
  { unfold createZ80MCSubtargetInfo.
    destruct TT_is_ez80, FS; reflexivity. }
  split; [exact H|]. split; [destruct TT_is_ez80; reflexivity|].
  split; [|discriminate].
  intros Heq.
  rewrite H in Heq.
  destruct (empty FS) eqn:He.
  - destruct FS; [|discriminate He].
    destruct TT_is_ez80; discriminate Heq.
  - apply (f_equal String.length) in Heq.
    rewrite string_length_append in Heq.
    cbn [String.length] in Heq.
    destruct TT_is_ez80; cbn in Heq; lia.
Qed.

(** X23.  [LLVMInitializeZ80TargetMC] registers the six descriptions
    for both targets and the four pieces that make object code (code
    emitter, ELF streamer, object target streamer, assembler backend)
    for the Z80 target only; nothing is registered twice. *)
Theorem registrations (T : LLVMTarget) (r : Registration) :
  (In (T, r) LLVMInitializeZ80TargetMC <->
   T = TheZ80Target \/ for_object_code r = false) /\
  NoDup LLVMInitializeZ80TargetMC.
Proof.
  split.
  - split.
    + intros H; cbn in H.
      repeat (destruct H as [H|H];
              [injection H as <- <-; first [left; reflexivity | right; reflexivity]|]).
      destruct H.
    + intros [->|H].
      * destruct r; cbn; tauto.
      * destruct T, r; try discriminate H; cbn; tauto.
  - cbn.
    repeat (constructor;
            [cbn; intros H; repeat (destruct H as [H|H]; [discriminate H|]); exact H|]).
    constructor.
Qed.
